(** * Agentic-Chatbot: a shallow embedding of the Python sources

    The development follows the layout of the repository:

    - [Py]            the Python built-ins the sources rely on (string methods,
                      exceptions) and [Json], the values [json.load] returns;
    - [Config]        [config.py]       (the [Settings] value);
    - [SchemaManager] [src/schema_manager.py];
    - [Memory]        [src/memory.py]   (thread keys, the thread cache);
    - [DataLoader]    [src/data_loader.py] (table names, column types);
    - [Agents]        [src/agents.py]   (the two model-backed roles);
    - [Graph]         [src/graph.py]    (the workflow);
    - [Main]          [src/main.py]     (the interactive chat);
    - [Samples]       concrete stand-ins for the built-ins and services the
                      theorems are parametric in, used in the examples.

    Python strings are embedded as [string]: sequences of 8-bit characters,
    read as the code points 0..255.  Dictionaries keyed by strings are
    [gmap string _], Python sets of strings are [gset string]. *)

From Stdlib Require Import Ascii String NArith ZArith QArith.
From stdpp Require Import base strings list gmap sets sorting pretty.

Open Scope string_scope.

(* ===================================================================== *)
(** * Part I: the embedding                                               *)
(* ===================================================================== *)

(** ** Python built-ins *)

Module Py.

(** [str.isspace] on one character, for the code points below 256:
    TAB..CR, FS..US, SPACE, NEL and NBSP. *)
Definition isspace (c : ascii) : bool :=
  let n := N_of_ascii c in
  (((9 <=? n) && (n <=? 13)) || ((28 <=? n) && (n <=? 32))
   || (n =? 133) || (n =? 160))%N.

Fixpoint lstrip (s : string) : string :=
  match s with
  | "" => ""
  | String c s' => if isspace c then lstrip s' else s
  end.

Fixpoint rstrip (s : string) : string :=
  match s with
  | "" => ""
  | String c s' =>
      match rstrip s' with
      | "" => if isspace c then "" else String c ""
      | r => String c r
      end
  end.

(** [s.strip()] *)
Definition strip (s : string) : string := lstrip (rstrip s).

(** [s.startswith(p)] and [s.endswith(p)] *)
Fixpoint startswith (p s : string) : bool :=
  match p, s with
  | "", _ => true
  | String _ _, "" => false
  | String a p', String b s' => Ascii.eqb a b && startswith p' s'
  end.

Fixpoint endswith (p s : string) : bool :=
  String.eqb p s ||
  match s with
  | "" => false
  | String _ s' => endswith p s'
  end.

(** [s[n:]] *)
Fixpoint slice_from (n : nat) (s : string) : string :=
  match n, s with
  | O, _ => s
  | S _, "" => ""
  | S n', String _ s' => slice_from n' s'
  end.

(** [s[:n]] for a non-negative [n] *)
Fixpoint slice_to (n : nat) (s : string) : string :=
  match n, s with
  | O, _ => ""
  | S _, "" => ""
  | S n', String c s' => String c (slice_to n' s')
  end.

(** [s[:-n]] for a positive [n] *)
Definition slice_to_neg (n : nat) (s : string) : string :=
  slice_to (String.length s - n) s.

(** [p in s] on strings *)
Fixpoint contains (p s : string) : bool :=
  startswith p s ||
  match s with
  | "" => false
  | String _ s' => contains p s'
  end.

(** The first occurrence of [sep] in [s]: the text before it and the text
    after it. *)
Fixpoint partition (sep s : string) : option (string * string) :=
  if startswith sep s then Some ("", slice_from (String.length sep) s)
  else
    match s with
    | "" => None
    | String c s' =>
        match partition sep s' with
        | Some (a, b) => Some (String c a, b)
        | None => None
        end
    end.

(** [s.split(sep, 1)] for a non-empty [sep] *)
Definition split1 (sep s : string) : list string :=
  match partition sep s with
  | Some (a, b) => [a; b]
  | None => [s]
  end.

(** [str.lower] on the code points below 256: A..Z and the upper-case
    letters of the Latin-1 block (all but the multiplication sign) move up
    by 32. *)
Definition lower_char (c : ascii) : ascii :=
  let n := N_of_ascii c in
  if (((65 <=? n) && (n <=? 90))
      || ((192 <=? n) && (n <=? 222) && negb (n =? 215)))%N
  then ascii_of_N (n + 32) else c.

Fixpoint lower (s : string) : string :=
  match s with
  | "" => ""
  | String c s' => String (lower_char c) (lower s')
  end.

(** The line feed and the double quote, as one-character strings. *)
Definition nl : string := String "010"%char "".
Definition dq : string := String "034"%char "".

(** [sep.join(l)] *)
Definition join (sep : string) (l : list string) : string :=
  String.concat sep l.

(** [str(n)] for a non-negative integer *)
Definition str_of_nat (n : nat) : string := pretty n.

(** Exceptions: the class and the message ([str(e)]). *)
Inductive exn_class :=
| ValueError | JSONDecodeError | KeyError | TypeError | AttributeError
| RuntimeError.

Record exn := Exn { exn_cls : exn_class; exn_msg : string }.

(** What a call does: it returns a value or raises. *)
Inductive outcome (A : Type) :=
| Returned (a : A)
| Raised (e : exn).

Arguments Returned {A} a.
Arguments Raised {A} e.

(** An [Optional[str]] entry of a dict: the key may be absent, hold [None],
    or hold a string. *)
Inductive field :=
| Missing
| PyNone
| PyStr (s : string).

(** [d.get(key, default)] on such an entry *)
Definition field_get (f : field) (default : string) : option string :=
  match f with
  | Missing => Some default
  | PyNone => None
  | PyStr s => Some s
  end.

(** The truth value of an [Optional[str]]: [None] and the empty string are
    false. *)
Definition truthy (o : option string) : bool :=
  match o with
  | Some (String _ _) => true
  | _ => false
  end.

(** [f"{x}"] for an [Optional[str]] *)
Definition str_of_opt (o : option string) : string :=
  match o with
  | Some s => s
  | None => "None"
  end.

(** [os.getenv(key, default)] over the process environment *)
Definition getenv (environ : gmap string string) (key default : string)
  : string :=
  match environ !! key with
  | Some v => v
  | None => default
  end.

(** [str.isalnum] on one character, for the code points below 256: the
    digits, the ASCII letters and, in the Latin-1 block, the letters, the
    two ordinal indicators, the superscript digits and the fractions. *)
Definition isalnum (c : ascii) : bool :=
  let n := N_of_ascii c in
  (((48 <=? n) && (n <=? 57)) || ((65 <=? n) && (n <=? 90))
   || ((97 <=? n) && (n <=? 122)) || (n =? 170)
   || ((178 <=? n) && (n <=? 179)) || (n =? 181)
   || ((185 <=? n) && (n <=? 186)) || ((188 <=? n) && (n <=? 190))
   || ((192 <=? n) && (n <=? 214)) || ((216 <=? n) && (n <=? 246))
   || (248 <=? n))%N.

(** ["".join(f(c) for c in s)] *)
Fixpoint map_chars (f : ascii -> ascii) (s : string) : string :=
  match s with
  | "" => ""
  | String c s' => String (f c) (map_chars f s')
  end.

(** [s.replace(old, new)] for one-character [old] and [new] *)
Definition replace_char (old new : ascii) (s : string) : string :=
  map_chars (fun c => if Ascii.eqb c old then new else c) s.

End Py.

(** ** JSON values, as [json.load] hands them to Python

    An object is the dict [json.load] builds (its items in order, the keys
    distinct), an array a list, [JNull] is [None]; a number keeps its
    literal. *)

Module Json.

Import Py.

#[warnings="-register-all"] Inductive json :=
| JNull
| JBool (b : bool)
| JNum (literal : string)
| JStr (s : string)
| JArr (items : list json)
| JObj (items : list (string * json)).

(** [d.get(key)] on the items of a dict: [None] when the key is absent. *)
Fixpoint dict_get (items : list (string * json)) (key : string)
  : option json :=
  match items with
  | [] => None
  | (k, v) :: rest => if String.eqb k key then Some v else dict_get rest key
  end.

(** [d[key] = v]: an existing key keeps its place. *)
Fixpoint dict_set (items : list (string * json)) (key : string) (v : json)
  : list (string * json) :=
  match items with
  | [] => [(key, v)]
  | (k, w) :: rest =>
      if String.eqb k key then (k, v) :: rest
      else (k, w) :: dict_set rest key v
  end.

(** [type(v).__name__] for a loaded value *)
Definition type_name (v : json) : string :=
  match v with
  | JNull => "NoneType"
  | JBool _ => "bool"
  | JNum lit =>
      if contains "." lit || contains "e" lit || contains "E" lit
         || contains "N" lit || contains "I" lit
      then "float" else "int"
  | JStr _ => "str"
  | JArr _ => "list"
  | JObj _ => "dict"
  end.

End Json.

(** ** [config.py] *)

Module Config.

Import Py.

(** The [Settings] dataclass.  [F] is the type of Python floats. *)
Record Settings (F : Type) := {
  ollama_host : string;
  supervisor_model : string;
  coder_model : string;
  agent_temperature : F;
  data_dir : string;
  duckdb_path : string;
  schema_path : string;
  memory_db_path : string;
  use_postgres_memory : bool
}.

Arguments ollama_host {F} _.
Arguments supervisor_model {F} _.
Arguments coder_model {F} _.
Arguments agent_temperature {F} _.
Arguments data_dir {F} _.
Arguments duckdb_path {F} _.
Arguments schema_path {F} _.
Arguments memory_db_path {F} _.
Arguments use_postgres_memory {F} _.

(** The field defaults are evaluated once, when the class body runs at
    import: [float] is the built-in float constructor, [environ] the
    process environment after [load_dotenv()].  Only the [float(...)] call
    can raise. *)
Definition build_settings {F : Type} (float : string -> outcome F)
    (environ : gmap string string) : outcome (Settings F) :=
  match float (getenv environ "AGENT_TEMPERATURE" "0.1") with
  | Raised e => Raised e
  | Returned temperature =>
      Returned {|
        ollama_host := getenv environ "OLLAMA_HOST" "http://localhost:11434";
        supervisor_model :=
          getenv environ "OLLAMA_SUPERVISOR_MODEL" "ministral3:8b";
        coder_model := getenv environ "OLLAMA_CODER_MODEL" "gpt-oss:120b-cloud";
        agent_temperature := temperature;
        data_dir := getenv environ "DATA_DIR" "./data";
        duckdb_path := getenv environ "DUCKDB_PATH" "./duckdb.db";
        schema_path := getenv environ "SCHEMA_PATH" "./schema.json";
        memory_db_path := getenv environ "MEMORY_DB_PATH" "./memory.db";
        use_postgres_memory :=
          String.eqb (lower (getenv environ "USE_POSTGRES_MEMORY" "false"))
                     "true"
      |}
  end.

(** A value of the flag variable that is neither spelling of a boolean. *)
Definition malformed_bool (v : string) : Prop :=
  lower v <> "true" /\ lower v <> "false".

End Config.

(** ** [src/schema_manager.py] *)

Module SchemaManager.

Import Py Json.

(** [ColumnInfo] *)
Record ColumnInfo := {
  name : string;
  type : field;
  description : field
}.

(** The state of a [SchemaManager]. *)
Record Registry := {
  _schemas : gmap string (list ColumnInfo);
  _shared_columns : gset string
}.

(** [SchemaManager()] *)
Definition init : Registry :=
  {| _schemas := ∅; _shared_columns := ∅ |}.

(** [column_counts[k] += 1] on a [Counter] *)
Definition counter_incr (counts : gmap string nat) (k : string)
  : gmap string nat :=
  <[k := S (default 0 (counts !! k))]> counts.

(** The names of all columns, table after table. *)
Definition all_column_names (schemas : gmap string (list ColumnInfo))
  : list string :=
  concat (map (fun entry => map name (snd entry)) (map_to_list schemas)).

Definition column_counts (schemas : gmap string (list ColumnInfo))
  : gmap string nat :=
  foldl counter_incr ∅ (all_column_names schemas).

(** [_detect_relationships] returns the new shared-column set. *)
Definition _detect_relationships (schemas : gmap string (list ColumnInfo))
  : gset string :=
  if decide (schemas = ∅) then ∅
  else dom (filter (fun kv => 1 < snd kv) (column_counts schemas)).

(** [update]: [dict.update] lets the new tables replace the old ones. *)
Definition update (self : Registry)
    (schemas : gmap string (list ColumnInfo)) : Registry :=
  let merged := schemas ∪ _schemas self in
  {| _schemas := merged; _shared_columns := _detect_relationships merged |}.

(** [sorted] on strings and on the items of a dict. *)
Definition sorted_strings (l : list string) : list string :=
  merge_sort String.le l.

Definition item_le {A : Type} (x y : string * A) : Prop :=
  String.le (fst x) (fst y).

#[global] Instance item_le_dec {A : Type} : RelDecision (@item_le A).
Proof. intros x y. unfold item_le. apply _. Defined.

Definition sorted_items {A : Type} (m : gmap string A) : list (string * A) :=
  merge_sort item_le (map_to_list m).

(** The pairs [(l[i], l[j])] with [i < j], in the order of the two nested
    [for] loops. *)
Fixpoint index_pairs {A : Type} (l : list A) : list (A * A) :=
  match l with
  | [] => []
  | x :: rest => map (pair x) rest ++ index_pairs rest
  end.

(** [{c['name'] for c in self._schemas[table]}] *)
Definition column_set (schemas : gmap string (list ColumnInfo))
    (table : string) : gset string :=
  list_to_set (map name (default [] (schemas !! table))).

(** [sorted(list(cols_a.intersection(cols_b)))] *)
Definition common_columns (schemas : gmap string (list ColumnInfo))
    (table_a table_b : string) : list string :=
  sorted_strings
    (elements (column_set schemas table_a ∩ column_set schemas table_b)).

(** The double loop that [_build_relationship_map] and [save_to_file] both
    run: the table pairs that share a column, with the shared columns. *)
Definition linked_pairs (schemas : gmap string (list ColumnInfo))
  : list (string * string * list string) :=
  let table_names := sorted_strings (map fst (map_to_list schemas)) in
  omap (fun ab =>
          let common := common_columns schemas (fst ab) (snd ab) in
          match common with
          | [] => None
          | _ => Some (fst ab, snd ab, common)
          end)
       (index_pairs table_names).

Definition relationship_line (r : string * string * list string) : string :=
  "- " +:+ fst (fst r) +:+ " and " +:+ snd (fst r) +:+ " are linked by: "
  +:+ join ", " (snd r).

Definition _build_relationship_map (self : Registry) : string :=
  if decide (size (_schemas self) < 2) then ""
  else
    match map relationship_line (linked_pairs (_schemas self)) with
    | [] => ""
    | relationships =>
        nl +:+ nl +:+ "Detected Relationships:" +:+ nl
        +:+ join nl relationships
    end.

(** [col.get('type', 'UNKNOWN')] inside an f-string *)
Definition dtype_label (f : field) : string :=
  match f with
  | Missing => "UNKNOWN"
  | PyNone => "None"
  | PyStr s => s
  end.

(** [desc = col.get('description', '')] followed by [if desc:] *)
Definition description_suffix (f : field) : string :=
  match f with
  | PyStr "" => ""
  | PyStr s => ": " +:+ s
  | _ => ""
  end.

Definition shared_tag (self : Registry) (col : ColumnInfo) : string :=
  if decide (name col ∈ _shared_columns self) then " [SHARED KEY]" else "".

Definition describe_column (self : Registry) (col : ColumnInfo) : string :=
  name col +:+ " (" +:+ dtype_label (type col) +:+ ")"
  +:+ shared_tag self col +:+ description_suffix (description col).

Definition describe_table (self : Registry)
    (entry : string * list ColumnInfo) : string :=
  fst entry +:+ " (" +:+ join ", " (map (describe_column self) (snd entry))
  +:+ ")".

Definition describe (self : Registry) : string :=
  if decide (_schemas self = ∅) then "No tables loaded."
  else
    join "; " (map (describe_table self) (sorted_items (_schemas self)))
    +:+ _build_relationship_map self.

(** The vocabulary of the statements about [describe]: the strict
    lexicographic order on strings, and [table] has a column named [c]. *)
Definition str_lt (a b : string) : Prop := String.le a b /\ a <> b.

Definition has_column (schemas : gmap string (list ColumnInfo))
    (table c : string) : Prop :=
  exists cols col, schemas !! table = Some cols /\ col ∈ cols /\ name col = c.

(** How often a name occurs in the column list of a table. *)
Definition occurrences (c : string) (entry : string * list ColumnInfo) : nat :=
  length (filter (fun k => k = c) (map name (snd entry))).

(** *** The snapshot file *)

Definition field_items (key : string) (f : field) : list (string * json) :=
  match f with
  | Missing => []
  | PyNone => [(key, JNull)]
  | PyStr s => [(key, JStr s)]
  end.

(** A column dict as [json.dump] sees it. *)
Definition column_json (col : ColumnInfo) : json :=
  JObj ((("name", JStr (name col)) :: field_items "type" (type col))
        ++ field_items "description" (description col)).

Definition tables_json (schemas : gmap string (list ColumnInfo)) : json :=
  JObj (map (fun entry => (fst entry, JArr (map column_json (snd entry))))
            (map_to_list schemas)).

Definition relationship_json (r : string * string * list string) : json :=
  JObj [("table_a", JStr (fst (fst r)));
        ("table_b", JStr (snd (fst r)));
        ("shared_columns", JArr (map JStr (snd r)))].

(** The [output] dict of [save_to_file]; [now] is
    [datetime.now().isoformat()].  (A [gmap] keeps no insertion order: the
    tables are written in the order of [map_to_list].) *)
Definition snapshot (self : Registry) (now : string) : json :=
  JObj [("tables", tables_json (_schemas self));
        ("relationships",
         JArr (map relationship_json (linked_pairs (_schemas self))));
        ("shared_columns",
         JArr (map JStr (sorted_strings (elements (_shared_columns self)))));
        ("generated_at", JStr now)].

(** [save_to_file]: the file system maps a path to the text of the file;
    [dumps] is [json.dump(_, indent=2, ensure_ascii=False)]. *)
Definition save_to_file (dumps : json -> string) (now : string)
    (self : Registry) (path : string) (fs : gmap string string)
  : gmap string string :=
  <[path := dumps (snapshot self now)]> fs.

(** Reading the loaded document back at the declared types
    [Dict[str, List[ColumnInfo]]] and [Set[str]]. *)
Definition decode_field (v : option json) : option field :=
  match v with
  | None => Some Missing
  | Some JNull => Some PyNone
  | Some (JStr s) => Some (PyStr s)
  | Some _ => None
  end.

Definition column_key (k : string) : bool :=
  String.eqb k "name" || String.eqb k "type" || String.eqb k "description".

Definition decode_column (v : json) : option ColumnInfo :=
  match v with
  | JObj items =>
      if forallb (fun kv => column_key (fst kv)) items then
        match dict_get items "name",
              decode_field (dict_get items "type"),
              decode_field (dict_get items "description") with
        | Some (JStr n), Some t, Some d =>
            Some {| name := n; type := t; description := d |}
        | _, _, _ => None
        end
      else None
  | _ => None
  end.

Definition decode_table (entry : string * json)
  : option (string * list ColumnInfo) :=
  match snd entry with
  | JArr cols =>
      match mapM decode_column cols with
      | Some l => Some (fst entry, l)
      | None => None
      end
  | _ => None
  end.

Definition decode_tables (v : json)
  : option (gmap string (list ColumnInfo)) :=
  match v with
  | JObj items =>
      match mapM decode_table items with
      | Some l => Some (list_to_map l)
      | None => None
      end
  | _ => None
  end.

Definition decode_str (v : json) : option string :=
  match v with
  | JStr s => Some s
  | _ => None
  end.

(** Lists and dicts cannot be members of a set. *)
Definition hashable (v : json) : bool :=
  match v with
  | JArr _ | JObj _ => false
  | _ => true
  end.

(** The members that [set(v)] is built from, in the order of iteration: the
    elements of a list, the characters of a string, the keys of a dict.
    [TypeError] for a value that cannot be iterated and for the first
    element that cannot be hashed. *)
Definition set_elements (v : json) : outcome (list json) :=
  match v with
  | JArr l =>
      match find (fun x => negb (hashable x)) l with
      | Some x =>
          Raised (Exn TypeError
                    ("unhashable type: '" +:+ type_name x +:+ "'"))
      | None => Returned l
      end
  | JStr s =>
      Returned (map (fun c => JStr (String c "")) (list_ascii_of_string s))
  | JObj items => Returned (map (fun kv => JStr (fst kv)) items)
  | _ =>
      Raised (Exn TypeError
                ("'" +:+ type_name v +:+ "' object is not iterable"))
  end.

(** What [_shared_columns] holds: a set of strings, as declared, or the set
    [set(elems)] of members that are not all strings. *)
Inductive shared_value :=
| Names (names : gset string)
| SetOf (elems : list json).

(** What [load_from_file] does: the registry it leaves and the value it
    returns or the exception that escapes it.  [Done] is a registry of the
    declared types [Dict[str, List[ColumnInfo]]] and [Set[str]].  The code
    stores whatever the document holds, so [OutOfType] keeps the loaded
    value of [tables] as it is, next to what [_shared_columns] holds. *)
Inductive load_result :=
| Done (self' : Registry) (r : outcome bool)
| OutOfType (tables : json) (shared : shared_value) (r : outcome bool).

(** What the call hands to its caller. *)
Definition returned (res : load_result) : outcome bool :=
  match res with
  | Done _ r => r
  | OutOfType _ _ r => r
  end.

(** What [_shared_columns] holds after the call. *)
Definition shared_after (res : load_result) : shared_value :=
  match res with
  | Done self' _ => Names (_shared_columns self')
  | OutOfType _ shared _ => shared
  end.

(** [except (json.JSONDecodeError, KeyError)] *)
Definition load_caught (e : exn) : bool :=
  match exn_cls e with
  | JSONDecodeError | KeyError => true
  | _ => false
  end.

(** The registry once [self._schemas = tables] has run, [_shared_columns]
    holding [shared]. *)
Definition stored (tables : json) (shared : shared_value) (r : outcome bool)
  : load_result :=
  match decode_tables tables, shared with
  | Some schemas, Names names =>
      Done {| _schemas := schemas; _shared_columns := names |} r
  | _, _ => OutOfType tables shared r
  end.

(** [load_from_file]: [loads] is [json.load] on the text of the file.  The
    table mapping is assigned before [set(...)] runs, so an exception of
    [set] finds it replaced already; [TypeError] is not among the
    exceptions caught. *)
Definition load_from_file (loads : string -> outcome json)
    (fs : gmap string string) (self : Registry) (path : string)
  : load_result :=
  match fs !! path with
  | None => Done self (Returned false)
  | Some text =>
      match loads text with
      | Raised e =>
          if load_caught e then Done self (Returned false)
          else Done self (Raised e)
      | Returned (JObj items) =>
          let tables := default (JObj []) (dict_get items "tables") in
          match set_elements
                  (default (JArr []) (dict_get items "shared_columns")) with
          | Returned elems =>
              stored tables
                (match mapM decode_str elems with
                 | Some names => Names (list_to_set names)
                 | None => SetOf elems
                 end)
                (Returned true)
          | Raised e =>
              stored tables (Names (_shared_columns self))
                (if load_caught e then Returned false else Raised e)
          end
      | Returned data =>
          Done self
               (Raised (Exn AttributeError
                          ("'" +:+ type_name data
                           +:+ "' object has no attribute 'get'")))
      end
  end.

(** [get]: a copy of the table mapping. *)
Definition get (self : Registry) : gmap string (list ColumnInfo) :=
  _schemas self.

(** [get_columns]: [self._schemas.get(table_name, [])] *)
Definition get_columns (self : Registry) (table_name : string)
  : list ColumnInfo :=
  default [] (_schemas self !! table_name).

End SchemaManager.

(** ** [src/memory.py] *)

Module Memory.

Definition make_thread_id (user_id thread_id : string) : string :=
  user_id +:+ "__" +:+ thread_id.

Definition parse_thread_id (namespaced_id : string) : string * string :=
  match Py.split1 "__" namespaced_id with
  | [a; b] => (a, b)
  | _ => ("unknown", namespaced_id)
  end.

(** [get_config]: the dict handed to the graph library. *)
Definition get_config (user_id thread_id : string) : Json.json :=
  Json.JObj
    [("configurable",
      Json.JObj [("thread_id", Json.JStr (make_thread_id user_id thread_id))])].

(** [ChatThread]; [Time] is the type of [datetime] values. *)
Record ChatThread (Time : Type) := {
  thread_id : string;
  user_id : string;
  created_at : Time;
  title : option string
}.

Arguments thread_id {Time} _.
Arguments user_id {Time} _.
Arguments created_at {Time} _.
Arguments title {Time} _.

(** [register_thread] on the [_threads_cache] of the manager: the cache it
    leaves and the record it returns.  [now] is the [datetime.now()] that
    the constructor of [ChatThread] evaluates. *)
Definition register_thread {Time : Type} (now : Time)
    (_threads_cache : gmap string (list (ChatThread Time)))
    (user thread : string) (title : option string)
  : gmap string (list (ChatThread Time)) * ChatThread Time :=
  let new_thread :=
    {| thread_id := thread; user_id := user; created_at := now;
       title := title |} in
  let cache :=
    match _threads_cache !! user with
    | None => <[user := []]> _threads_cache
    | Some _ => _threads_cache
    end in
  let threads := default [] (cache !! user) in
  let existing :=
    filter (fun t => thread_id t = thread) threads in
  match existing with
  | [] => (<[user := (threads ++ [new_thread])%list]> cache, new_thread)
  | _ => (cache, new_thread)
  end.

(** [list_user_threads]: [self._threads_cache.get(user_id, [])] *)
Definition list_user_threads {Time : Type}
    (_threads_cache : gmap string (list (ChatThread Time))) (user : string)
  : list (ChatThread Time) :=
  default [] (_threads_cache !! user).

End Memory.

(** ** [src/data_loader.py] *)

Module DataLoader.

Import Py SchemaManager.

(** The [mapping] dict of [map_excel_type_to_duckdb]. *)
Definition mapping : gmap string string :=
  list_to_map
    [("STRING", "VARCHAR"); ("TEXT", "VARCHAR"); ("STR", "VARCHAR");
     ("INTEGER", "INTEGER"); ("INT", "INTEGER");
     ("FLOAT", "DOUBLE"); ("DOUBLE", "DOUBLE"); ("NUMERIC", "DOUBLE");
     ("BOOLEAN", "BOOLEAN"); ("BOOL", "BOOLEAN");
     ("TIMESTAMP", "TIMESTAMP"); ("DATETIME", "TIMESTAMP");
     ("DATE", "DATE")].

(** The engine types the mapping can produce. *)
Definition duckdb_types : list string :=
  ["VARCHAR"; "INTEGER"; "DOUBLE"; "BOOLEAN"; "TIMESTAMP"; "DATE"].

(** The sanitized table name of a sheet: [stem] is [workbook.stem]. *)
Definition raw_name (stem sheet : string) : string :=
  replace_char "-" "_" (replace_char " " "_" (lower (stem +:+ "_" +:+ sheet))).

Definition table_name (stem sheet : string) : string :=
  map_chars (fun c => if isalnum c || Ascii.eqb c "_" then c else "_"%char)
    (raw_name stem sheet).

(** What the sanitization amounts to on one character of the name. *)
Definition sanitize_char (c : ascii) : ascii :=
  let c := lower_char c in
  let c := if Ascii.eqb c " " then "_"%char else c in
  let c := if Ascii.eqb c "-" then "_"%char else c in
  if isalnum c || Ascii.eqb c "_" then c else "_"%char.

(** [table_name.endswith('_')]: the sheet holds metadata. *)
Definition is_metadata (name : string) : bool := endswith "_" name.

(** A column label of a data frame: a string, or another object (a number,
    a date) given by the name of its type and its [str]. *)
Inductive label :=
| LStr (s : string)
| LOther (type_name text : string).

Definition str_of_label (l : label) : string :=
  match l with
  | LStr s => s
  | LOther _ text => text
  end.

(** A parsed sheet: the column labels (distinct, as the Excel reader makes
    them) and the rows.  A row gives, for a string label, the cell under
    it: [None] when [pd.isna] holds of the cell, and otherwise the [str] of
    its value. *)
Record Frame := {
  columns : list label;
  rows : list (string -> option string)
}.

(** [df.empty] *)
Definition empty (df : Frame) : bool :=
  match columns df, rows df with
  | [], _ | _, [] => true
  | _, _ => false
  end.

(** One entry of [col_metadata]. *)
Record ColumnMeta := {
  meta_type : string;
  duckdb_type : string;
  meta_description : option string;
  original_name : string
}.

(** [{c.lower().strip(): c for c in m_df.columns}]: a later header replaces
    an earlier one under the same key; a header that is not a string has no
    [lower] and raises. *)
Fixpoint header_index (labels : list label) (cols : gmap string string)
  : outcome (gmap string string) :=
  match labels with
  | [] => Returned cols
  | LStr c :: rest => header_index rest (<[strip (lower c) := c]> cols)
  | LOther type_name _ :: _ =>
      Raised (Exn AttributeError
                ("'" +:+ type_name +:+ "' object has no attribute 'lower'"))
  end.

Fixpoint get_col_key (cols : gmap string string) (candidates : list string)
  : option string :=
  match candidates with
  | [] => None
  | cand :: rest =>
      match cols !! cand with
      | Some c => Some c
      | None => get_col_key cols rest
      end
  end.

(** [str(row[col]) if col and pd.notna(row[col]) else None] *)
Definition cell (row : string -> option string) (col : option string)
  : option string :=
  if truthy col then row (str_of_opt col) else None.

Section Loader.

(** [upper] is [str.upper]. *)
Context (upper : string -> string).

Definition map_excel_type_to_duckdb (excel_type : string) : string :=
  match excel_type with
  | "" => "VARCHAR"
  | _ => default "VARCHAR" (mapping !! strip (upper excel_type))
  end.

(** The body of the loop over the rows of a metadata sheet. *)
Definition add_row (name_col : string) (type_col desc_col : option string)
    (col_metadata : gmap string ColumnMeta) (row : string -> option string)
  : gmap string ColumnMeta :=
  match row name_col with
  | None => col_metadata
  | Some c_name_val =>
      let c_name := strip c_name_val in
      let c_type := default "VARCHAR" (cell row type_col) in
      let c_desc := cell row desc_col in
      <[lower c_name :=
          {| meta_type := c_type;
             duckdb_type := map_excel_type_to_duckdb c_type;
             meta_description := c_desc;
             original_name := c_name |}]> col_metadata
  end.

(** [col_metadata] for a data table: empty without a metadata sheet or
    without a name column in it. *)
Definition parse_metadata (m_df : option Frame)
  : outcome (gmap string ColumnMeta) :=
  match m_df with
  | None => Returned ∅
  | Some m_df =>
      match header_index (columns m_df) ∅ with
      | Raised e => Raised e
      | Returned cols =>
          let name_col :=
            get_col_key cols
              ["field name"; "fieldname"; "name"; "column"; "field"] in
          let type_col := get_col_key cols ["type"; "datatype"; "data type"] in
          let desc_col :=
            get_col_key cols ["description"; "desc"; "definition"] in
          if truthy name_col then
            Returned
              (foldl (add_row (str_of_opt name_col) type_col desc_col) ∅
                 (rows m_df))
          else Returned ∅
      end
  end.

(** The body of the loop over the columns of a data table: the cast it
    adds to [select_parts] and the entry it adds to [table_columns]. *)
Definition column_entry (col_metadata : gmap string ColumnMeta) (col : label)
  : string * ColumnInfo :=
  let col_str := str_of_label col in
  let meta := col_metadata !! lower col_str in
  let duck_type :=
    match meta with Some m => duckdb_type m | None => "VARCHAR" end in
  let original_type :=
    match meta with Some m => meta_type m | None => "STRING" end in
  let desc :=
    match meta with Some m => meta_description m | None => None end in
  let safe_col := dq +:+ col_str +:+ dq in
  ("TRY_CAST(" +:+ safe_col +:+ " AS " +:+ duck_type +:+ ") AS " +:+ safe_col,
   {| name := col_str;
      type := PyStr original_type;
      description :=
        match desc with Some d => PyStr d | None => PyNone end |}).

Definition select_parts (col_metadata : gmap string ColumnMeta) (df : Frame)
  : list string :=
  map (fun col => fst (column_entry col_metadata col)) (columns df).

Definition table_columns (col_metadata : gmap string ColumnMeta) (df : Frame)
  : list ColumnInfo :=
  map (fun col => snd (column_entry col_metadata col)) (columns df).

(** The [CREATE TABLE] statement of a data table. *)
Definition create_query (name : string)
    (col_metadata : gmap string ColumnMeta) (df : Frame) : string :=
  "CREATE OR REPLACE TABLE " +:+ name +:+ " AS SELECT "
  +:+ join ", " (select_parts col_metadata df) +:+ " FROM tmp_" +:+ name.

(** A sheet that was read: the stem of its workbook, its name, its frame. *)
Record Sheet := {
  stem : string;
  sheet : string;
  frame : Frame
}.

(** Step 1: the data tables, in the order they were read, and the
    metadata frames by table name. *)
Definition scan_sheet
    (acc : list (string * Frame) * gmap string Frame) (sh : Sheet)
  : list (string * Frame) * gmap string Frame :=
  if empty (frame sh) then acc
  else
    let name := table_name (stem sh) (sheet sh) in
    if is_metadata name then (fst acc, <[name := frame sh]> (snd acc))
    else ((fst acc ++ [(name, frame sh)])%list, snd acc).

Definition scan (sheets : list Sheet)
  : list (string * Frame) * gmap string Frame :=
  foldl scan_sheet ([], ∅) sheets.

(** What a scan has gathered from sheets of the list [all]: the data
    tables are sheets of [all] under their table names, none of them a
    metadata name; and there is no metadata under a key that is the table
    name of no sheet of [all]. *)
Definition scanned_from (all : list Sheet)
    (acc : list (string * Frame) * gmap string Frame) : Prop :=
  (forall name df,
      (name, df) ∈ fst acc ->
      is_metadata name = false
      /\ exists sh, sh ∈ all /\ name = table_name (stem sh) (sheet sh)
                    /\ df = frame sh)
  /\ (forall key,
        (forall sh, sh ∈ all -> table_name (stem sh) (sheet sh) <> key) ->
        snd acc !! key = None).

(** Step 2, for one data table: [con] runs the registration of the frame
    and the statement on the connection, and may raise; any exception
    leaves the table out. *)
Definition process_table (con : string -> Frame -> string -> outcome unit)
    (metadata_dfs : gmap string Frame)
    (schema : gmap string (list ColumnInfo)) (table : string * Frame)
  : gmap string (list ColumnInfo) :=
  let name := fst table in
  let df := snd table in
  match parse_metadata (metadata_dfs !! (name +:+ "_")) with
  | Raised _ => schema
  | Returned col_metadata =>
      match con name df (create_query name col_metadata df) with
      | Raised _ => schema
      | Returned _ => <[name := table_columns col_metadata df]> schema
      end
  end.

(** [load_excel_files] over the sheets that the Excel reader parsed. *)
Definition load_excel_files
    (con : string -> Frame -> string -> outcome unit) (sheets : list Sheet)
  : gmap string (list ColumnInfo) :=
  let scanned := scan sheets in
  foldl (process_table con (snd scanned)) ∅ (fst scanned).

End Loader.

End DataLoader.

(** ** [src/agents.py] *)

Module Agents.

Import Py Json.

(** A chat message. *)
Inductive message :=
| SystemMessage (content : string)
| HumanMessage (content : string)
| AIMessage (content : string).

(** An agent: [llm] is [self.llm.invoke(messages).content], a call to the
    model service that returns the text of the reply or raises;
    [system_prompt] is the fixed text set by [__init__]. *)
Record Agent := {
  llm : list message -> outcome string;
  system_prompt : string
}.

(** A text given line by line. *)
Definition lines (l : list string) : string := join nl l.

(** [SupervisorAgent.analyze_question] *)
Definition analyze_question (self : Agent) (question schema_info : string)
  : outcome string :=
  let prompt := lines [
    "Schema information:";
    schema_info;
    "";
    "User question: " +:+ question;
    "";
    "Does this question require querying the database? Respond with either "
      +:+ dq +:+ "NEED_QUERY" +:+ dq +:+ " or " +:+ dq +:+ "NO_QUERY" +:+ dq
      +:+ " followed by a brief explanation." ] in
  llm self [SystemMessage (system_prompt self); HumanMessage prompt].

(** The clean-up of a reply that may wrap its JSON in a markdown fence. *)
Definition strip_json_fence (reply : string) : string :=
  let content := strip reply in
  let content :=
    if startswith "```json" content then slice_from 7 content else content in
  let content :=
    if startswith "```" content then slice_from 3 content else content in
  if endswith "```" content then slice_to_neg 3 content else content.

Definition verify_prompt (query schema_info : string) : string :=
  lines [
    "Schema information:";
    schema_info;
    "";
    "Generated SQL Query:";
    query;
    "";
    "Verify this query. Check specifically if:";
    "1. All columns used in the query actually exist in their respective tables.";
    "2. Join keys exist in BOTH tables participating in the join.";
    "3. There are no " +:+ dq +:+ "hallucinated" +:+ dq
      +:+ " columns (e.g. using request_id on a table that doesn't have it).";
    "";
    "Return a JSON object with this exact format:";
    "{";
    "    " +:+ dq +:+ "valid" +:+ dq +:+ ": boolean,";
    "    " +:+ dq +:+ "feedback" +:+ dq +:+ ": " +:+ dq
      +:+ "string explaining the error if invalid, or 'Looks good' if valid"
      +:+ dq;
    "}";
    "" ].

(** What [verify_query] hands to [json.loads]. *)
Definition verify_payload (reply : string) : string :=
  strip (strip_json_fence reply).

(** [SupervisorAgent.verify_query]: the body of the [try], then the
    [except Exception] that turns any error into the fallback. *)
Definition verify_query_try (loads : string -> outcome json) (self : Agent)
    (query schema_info : string) : outcome json :=
  match llm self
          [SystemMessage
             "You are a strict SQL Code Reviewer. Your job is to catch column hallucinations and correct them.";
           HumanMessage (verify_prompt query schema_info)] with
  | Raised e => Raised e
  | Returned reply => loads (verify_payload reply)
  end.

Definition verify_fallback (e : exn) : json :=
  JObj [("valid", JBool true);
        ("feedback", JStr ("Verification failed: " +:+ exn_msg e))].

Definition verify_query (loads : string -> outcome json) (self : Agent)
    (query schema_info : string) : json :=
  match verify_query_try loads self query schema_info with
  | Returned v => v
  | Raised e => verify_fallback e
  end.

Definition complexity_prompt (question schema_info : string) : string :=
  lines [
    "Schema information:";
    schema_info;
    "";
    "User question: " +:+ question;
    "";
    "Analyze this question to determine if it should be decomposed into simpler sub-questions.";
    "";
    "A question IS COMPLEX if:";
    "- It asks for multiple distinct metrics (e.g., " +:+ dq
      +:+ "volume AND growth AND total value" +:+ dq +:+ ")";
    "- Each metric could be answered by a simple SQL query with few columns and simple joins";
    "- Answering everything in one query would require medium to complex UNION or multiple aggregations";
    "";
    "A question is SIMPLE if:";
    "- It asks for one metric or closely related metrics that naturally go together";
    "- It can be answered with a single straightforward SQL query";
    "";
    "If COMPLEX, break it down into sub-questions where each:";
    "- Asks for ONE specific metric or closely related metrics";
    "- Can be answered with a simple SELECT with basic aggregation";
    "- Preserves any time period or filtering context from the original question";
    "";
    "Return a JSON object with this exact format:";
    "{";
    "    " +:+ dq +:+ "is_complex" +:+ dq +:+ ": boolean,";
    "    " +:+ dq +:+ "sub_questions" +:+ dq +:+ ": [" +:+ dq
      +:+ "sub-question 1" +:+ dq +:+ ", " +:+ dq +:+ "sub-question 2" +:+ dq
      +:+ ", ...] (empty array if not complex),";
    "    " +:+ dq +:+ "reasoning" +:+ dq +:+ ": " +:+ dq
      +:+ "brief explanation of why this is/isn't complex" +:+ dq;
    "}" ].

(** [re.sub(r'[\x00-\x1f\x7f-\x9f]', ' ', s)] *)
Definition is_control (c : ascii) : bool :=
  let n := N_of_ascii c in
  ((n <=? 31) || ((127 <=? n) && (n <=? 159)))%N.

Fixpoint blank_controls (s : string) : string :=
  match s with
  | "" => ""
  | String c s' =>
      String (if is_control c then " "%char else c) (blank_controls s')
  end.

(** What [detect_complexity] hands to [json.loads]. *)
Definition complexity_payload (reply : string) : string :=
  blank_controls (strip (strip_json_fence reply)).

(** [result[key] = value] on a loaded value: only a dict takes it. *)
Definition set_item (result : json) (key : string) (value : json)
  : outcome json :=
  match result with
  | JObj items => Returned (JObj (dict_set items key value))
  | JArr _ =>
      Raised (Exn TypeError "list indices must be integers or slices, not str")
  | _ =>
      Raised (Exn TypeError
                ("'" +:+ type_name result
                 +:+ "' object does not support item assignment"))
  end.

(** [SupervisorAgent.detect_complexity] *)
Definition detect_complexity_try (loads : string -> outcome json)
    (self : Agent) (question schema_info : string) : outcome json :=
  match llm self [SystemMessage (system_prompt self);
                  HumanMessage (complexity_prompt question schema_info)] with
  | Raised e => Raised e
  | Returned reply =>
      match loads (complexity_payload reply) with
      | Raised e => Raised e
      | Returned result =>
          set_item result "original_question" (JStr question)
      end
  end.

Definition complexity_fallback (question : string) (e : exn) : json :=
  JObj [("is_complex", JBool false);
        ("sub_questions", JArr []);
        ("original_question", JStr question);
        ("reasoning", JStr ("Failed to analyze complexity: " +:+ exn_msg e))].

Definition detect_complexity (loads : string -> outcome json) (self : Agent)
    (question schema_info : string) : json :=
  match detect_complexity_try loads self question schema_info with
  | Returned v => v
  | Raised e => complexity_fallback question e
  end.

(** *** Answers over result rows

    A result row is a dict of column values; [Row] is its type and [repr]
    its Python [repr]. *)

Section Rows.

Context {Row : Type} (repr : Row -> string).

(** [str(rows)] for a list of rows *)
Definition str_of_rows (rows : list Row) : string :=
  "[" +:+ join ", " (map repr rows) +:+ "]".

(** The text that [synthesize_answer] puts under [Query results:]. *)
Definition results_str (results : list Row) : string :=
  let shown := str_of_rows (firstn 50 results) in
  if decide (50 < length results) then
    shown +:+ nl +:+ "... (showing first 50 of "
    +:+ str_of_nat (length results) +:+ " rows)"
  else shown.

Definition synthesize_prompt (question query : string) (results : list Row)
    (schema_info : string) : string :=
  lines [
    "Schema information:";
    schema_info;
    "";
    "User question: " +:+ question;
    "";
    "SQL query executed:";
    query;
    "";
    "Query results:";
    results_str results;
    "";
    "Based on these results, provide a clear, thorough, and precise answer to the user's question. ";
    "Include specific numbers, trends, and insights from the data. If the results are empty, explain why." ].

(** [SupervisorAgent.synthesize_answer].  The graph passes
    [state.get("query", "")] and [state.get("results", [])], either of which
    may be [None]: the query is then printed as [None], and slicing the
    results raises. *)
Definition synthesize_answer (self : Agent) (question : string)
    (query : option string) (results : option (list Row))
    (schema_info : string) : outcome string :=
  match results with
  | None => Raised (Exn TypeError "'NoneType' object is not subscriptable")
  | Some rows =>
      llm self [SystemMessage (system_prompt self);
                HumanMessage
                  (synthesize_prompt question (str_of_opt query) rows
                     schema_info)]
  end.

(** One collected sub-question: the [sub_result] dict of the graph. *)
Record SubResult := {
  sub_question : string;
  sr_query : option string;
  sr_results : option (list Row)
}.

Definition format_sub_result (i : nat) (sr : SubResult) : string :=
  lines [
    "";
    "--- Sub-question " +:+ str_of_nat i +:+ " ---";
    "Question: " +:+ sub_question sr;
    "SQL Query: " +:+ str_of_opt (sr_query sr);
    "Results: "
      +:+ slice_to 500
            (match sr_results sr with
             | Some rows => str_of_rows rows
             | None => "None"
             end) ].

(** [SupervisorAgent.aggregate_results] *)
Definition aggregate_results (self : Agent) (original_question : option string)
    (sub_results : list SubResult) (schema_info : string) : outcome string :=
  let all_sub_results :=
    join nl (imap (fun i sr => format_sub_result (S i) sr) sub_results) in
  let prompt := lines [
    "Schema information:";
    schema_info;
    "";
    "ORIGINAL USER QUESTION: " +:+ str_of_opt original_question;
    "";
    "The question was decomposed into sub-questions, and here are all the results:";
    all_sub_results;
    "";
    "Based on ALL these results, provide a comprehensive answer that:";
    "1. Addresses the original question completely";
    "2. Presents all the data in a clear, organized format";
    "3. If the question asked for a " +:+ dq +:+ "recap" +:+ dq +:+ " or "
      +:+ dq +:+ "table" +:+ dq
      +:+ ", format the answer as a structured table";
    "4. Include specific numbers and trends from each sub-question's results";
    "5. Highlight any notable patterns or insights across the data";
    "";
    "Synthesize a single, cohesive answer that combines all the partial results." ]
  in
  llm self [SystemMessage (system_prompt self); HumanMessage prompt].

End Rows.

Arguments SubResult Row : clear implicits.

(** [CodingAgent.generate_query] *)
Definition generate_query (self : Agent) (question schema_info : string)
    (feedback previous_query : option string) : outcome string :=
  let prompt_content :=
    lines ["Schema information:"; schema_info; "";
           "User question: " +:+ question; ""] in
  let prompt_content :=
    if truthy feedback then
      let with_feedback :=
        prompt_content
        +:+ lines [""; "=== CORRECTION REQUIRED ===";
                   "Your previous query FAILED with this error:";
                   str_of_opt feedback; ""] in
      if truthy previous_query then
        with_feedback
        +:+ lines [
              "";
              "FAILED QUERY:";
              str_of_opt previous_query;
              "";
              "IMPORTANT FIX INSTRUCTIONS:";
              "1. The error says a column does NOT EXIST in that table. DO NOT USE THAT COLUMN.";
              "2. Check the " +:+ dq +:+ "Detected Relationships" +:+ dq
                +:+ " section to find the CORRECT join columns.";
              "3. If the tables you're joining don't share the column you used, find the column they DO share.";
              "4. Consider: maybe you don't need a JOIN at all? Check if all needed columns are in ONE table.";
              "5. Look at the relationship: " +:+ dq
                +:+ "requests and trip_forms are linked by: trip_form_id"
                +:+ dq +:+ " - use trip_form_id NOT request_id.";
              "" ]
      else with_feedback
    else prompt_content in
  let prompt_content :=
    prompt_content +:+ nl
    +:+ "Generate a SQL query to answer this question. Return ONLY the SQL query, no explanations or markdown code blocks."
  in
  match llm self [SystemMessage (system_prompt self);
                  HumanMessage prompt_content] with
  | Raised e => Raised e
  | Returned reply =>
      let query := strip reply in
      let query :=
        if startswith "```sql" query then slice_from 6 query else query in
      let query :=
        if startswith "```" query then slice_from 3 query else query in
      let query :=
        if endswith "```" query then slice_to_neg 3 query else query in
      Returned (strip query)
  end.

End Agents.

(** ** [src/graph.py] *)

Module Graph.

Import Py Json Agents.

(** The nodes of the workflow, under the names [_build_graph] gives them. *)
Inductive node :=
| supervisor | expansion | sub_question_node | coding | verify | execute
| collect | aggregation | synthesize.

#[global] Instance node_eq_dec : EqDecision node.
Proof. solve_decision. Defined.

(** What a node or an edge function does: it returns, lets an exception
    escape, or (for [_expansion_node]) stores a value outside the declared
    type of the state, where the embedding stops. *)
Inductive result (A : Type) :=
| Ok (a : A)
| Crash (e : exn)
| Untyped.

Arguments Ok {A} a.
Arguments Crash {A} e.
Arguments Untyped {A}.

(** Modelled from the spec: the structural-validity record
    [{valid: bool, error: optional text}] that
    [DuckDBManager.validate_schema] returns ([src/db_manager.py] is not
    among the sources).  [_verify_node] reads it with [.get("valid", True)]
    and [.get("error", "")], so either key may be absent. *)
Record Verification := {
  valid : option bool;
  error_text : field
}.

Section Workflow.

Context {Row : Type}.

(** [GraphState] *)
Record GraphState := {
  messages : list message;
  question : string;
  original_question : option string;
  schema_info : string;
  query : option string;
  results : option (list Row);
  answer : option string;
  error : option string;
  needs_query : option bool;
  query_is_valid : option bool;
  query_feedback : option string;
  retries : nat;
  is_complex : option bool;
  sub_questions : option (list string);
  current_sub_question_index : nat;
  sub_results : option (list (SubResult Row))
}.

(** [state[key] = v], key by key. *)
Definition set_question (v : string) (s : GraphState) : GraphState :=
  Build_GraphState (messages s) v (original_question s) (schema_info s)
    (query s) (results s) (answer s) (error s) (needs_query s)
    (query_is_valid s) (query_feedback s) (retries s) (is_complex s)
    (sub_questions s) (current_sub_question_index s) (sub_results s).

Definition set_original_question (v : option string) (s : GraphState)
  : GraphState :=
  Build_GraphState (messages s) (question s) v (schema_info s)
    (query s) (results s) (answer s) (error s) (needs_query s)
    (query_is_valid s) (query_feedback s) (retries s) (is_complex s)
    (sub_questions s) (current_sub_question_index s) (sub_results s).

Definition set_query (v : option string) (s : GraphState) : GraphState :=
  Build_GraphState (messages s) (question s) (original_question s)
    (schema_info s) v (results s) (answer s) (error s) (needs_query s)
    (query_is_valid s) (query_feedback s) (retries s) (is_complex s)
    (sub_questions s) (current_sub_question_index s) (sub_results s).

Definition set_results (v : option (list Row)) (s : GraphState)
  : GraphState :=
  Build_GraphState (messages s) (question s) (original_question s)
    (schema_info s) (query s) v (answer s) (error s) (needs_query s)
    (query_is_valid s) (query_feedback s) (retries s) (is_complex s)
    (sub_questions s) (current_sub_question_index s) (sub_results s).

Definition set_answer (v : option string) (s : GraphState) : GraphState :=
  Build_GraphState (messages s) (question s) (original_question s)
    (schema_info s) (query s) (results s) v (error s) (needs_query s)
    (query_is_valid s) (query_feedback s) (retries s) (is_complex s)
    (sub_questions s) (current_sub_question_index s) (sub_results s).

Definition set_error (v : option string) (s : GraphState) : GraphState :=
  Build_GraphState (messages s) (question s) (original_question s)
    (schema_info s) (query s) (results s) (answer s) v (needs_query s)
    (query_is_valid s) (query_feedback s) (retries s) (is_complex s)
    (sub_questions s) (current_sub_question_index s) (sub_results s).

Definition set_needs_query (v : option bool) (s : GraphState) : GraphState :=
  Build_GraphState (messages s) (question s) (original_question s)
    (schema_info s) (query s) (results s) (answer s) (error s) v
    (query_is_valid s) (query_feedback s) (retries s) (is_complex s)
    (sub_questions s) (current_sub_question_index s) (sub_results s).

Definition set_query_is_valid (v : option bool) (s : GraphState)
  : GraphState :=
  Build_GraphState (messages s) (question s) (original_question s)
    (schema_info s) (query s) (results s) (answer s) (error s)
    (needs_query s) v (query_feedback s) (retries s) (is_complex s)
    (sub_questions s) (current_sub_question_index s) (sub_results s).

Definition set_query_feedback (v : option string) (s : GraphState)
  : GraphState :=
  Build_GraphState (messages s) (question s) (original_question s)
    (schema_info s) (query s) (results s) (answer s) (error s)
    (needs_query s) (query_is_valid s) v (retries s) (is_complex s)
    (sub_questions s) (current_sub_question_index s) (sub_results s).

Definition set_retries (v : nat) (s : GraphState) : GraphState :=
  Build_GraphState (messages s) (question s) (original_question s)
    (schema_info s) (query s) (results s) (answer s) (error s)
    (needs_query s) (query_is_valid s) (query_feedback s) v (is_complex s)
    (sub_questions s) (current_sub_question_index s) (sub_results s).

Definition set_is_complex (v : option bool) (s : GraphState) : GraphState :=
  Build_GraphState (messages s) (question s) (original_question s)
    (schema_info s) (query s) (results s) (answer s) (error s)
    (needs_query s) (query_is_valid s) (query_feedback s) (retries s) v
    (sub_questions s) (current_sub_question_index s) (sub_results s).

Definition set_sub_questions (v : option (list string)) (s : GraphState)
  : GraphState :=
  Build_GraphState (messages s) (question s) (original_question s)
    (schema_info s) (query s) (results s) (answer s) (error s)
    (needs_query s) (query_is_valid s) (query_feedback s) (retries s)
    (is_complex s) v (current_sub_question_index s) (sub_results s).

Definition set_current_sub_question_index (v : nat) (s : GraphState)
  : GraphState :=
  Build_GraphState (messages s) (question s) (original_question s)
    (schema_info s) (query s) (results s) (answer s) (error s)
    (needs_query s) (query_is_valid s) (query_feedback s) (retries s)
    (is_complex s) (sub_questions s) v (sub_results s).

Definition set_sub_results (v : option (list (SubResult Row)))
    (s : GraphState) : GraphState :=
  Build_GraphState (messages s) (question s) (original_question s)
    (schema_info s) (query s) (results s) (answer s) (error s)
    (needs_query s) (query_is_valid s) (query_feedback s) (retries s)
    (is_complex s) (sub_questions s) (current_sub_question_index s) v.

Definition set_messages (v : list message) (s : GraphState) : GraphState :=
  Build_GraphState v (question s) (original_question s)
    (schema_info s) (query s) (results s) (answer s) (error s)
    (needs_query s) (query_is_valid s) (query_feedback s) (retries s)
    (is_complex s) (sub_questions s) (current_sub_question_index s)
    (sub_results s).

(** What an [AgenticGraph] is built from and talks to.  The two models and
    the database may answer differently at each step of a run, so their
    calls take the number [tick] of the step.  [upper] is [str.upper],
    [loads] is [json.loads], [repr] the [repr] of a result row;
    [validate_schema] and [db_query] are the two methods of
    [DuckDBManager] that the graph calls ([validate_schema] and [query]),
    each returning its value or raising. *)
Record Env := {
  upper : string -> string;
  loads : string -> outcome json;
  repr : Row -> string;
  supervisor_prompt : string;
  supervisor_llm : nat -> list message -> outcome string;
  coder_prompt : string;
  coder_llm : nat -> list message -> outcome string;
  validate_schema : nat -> option string -> outcome Verification;
  db_query : nat -> string -> outcome (list Row)
}.

Context (env : Env).

Definition supervisor_agent (tick : nat) : Agent :=
  {| llm := supervisor_llm env tick;
     system_prompt := supervisor_prompt env |}.

Definition coder_agent (tick : nat) : Agent :=
  {| llm := coder_llm env tick; system_prompt := coder_prompt env |}.

(** [self.max_retries] *)
Definition max_retries : nat := 3.

Definition _supervisor_node (tick : nat) (state : GraphState) : GraphState :=
  match analyze_question (supervisor_agent tick) (question state)
          (schema_info state) with
  | Returned analysis =>
      let needs_query := contains "NEED_QUERY" (upper env analysis) in
      if negb needs_query then
        set_needs_query (Some false) (set_answer (Some analysis) state)
      else set_retries 0 (set_needs_query (Some true) state)
  | Raised e =>
      set_needs_query (Some false)
        (set_error (Some ("Supervisor error: " +:+ exn_msg e)) state)
  end.

Definition _coding_node (tick : nat) (state : GraphState) : GraphState :=
  let feedback := query_feedback state in
  match generate_query (coder_agent tick) (question state)
          (schema_info state) feedback
          (if truthy feedback then query state else None) with
  | Returned query => set_query (Some query) state
  | Raised e =>
      set_retries (retries state + 1)
        (set_error (Some ("Query generation error: " +:+ exn_msg e)) state)
  end.

Definition _execute_node (tick : nat) (state : GraphState) : GraphState :=
  if truthy (error state) then state
  else if negb (truthy (query state)) then
    set_error (Some "No query to execute") state
  else
    match db_query env tick (str_of_opt (query state)) with
    | Returned rows => set_results (Some rows) state
    | Raised e =>
        set_error (Some ("Query execution error: " +:+ exn_msg e)) state
    end.

Definition _synthesize_node (tick : nat) (state : GraphState) : GraphState :=
  if truthy (error state) then
    set_answer
      (Some ("I encountered an error: " +:+ str_of_opt (error state))) state
  else
    match synthesize_answer (repr env) (supervisor_agent tick)
            (question state) (query state) (results state)
            (schema_info state) with
    | Returned answer => set_answer (Some answer) state
    | Raised e =>
        set_answer
          (Some ("I encountered an error while synthesizing the answer: "
                 +:+ exn_msg e))
          (set_error (Some ("Synthesis error: " +:+ exn_msg e)) state)
    end.

Definition _should_query (state : GraphState) : option node :=
  if default false (needs_query state) then Some expansion else None.

Definition _verify_node (tick : nat) (state : GraphState) : GraphState :=
  if truthy (error state) then
    set_error None
      (set_query_feedback (error state)
         (set_query_is_valid (Some false) state))
  else
    match validate_schema env tick (query state) with
    | Returned verification =>
        let is_valid := default true (valid verification) in
        let state :=
          set_query_feedback (field_get (error_text verification) "")
            (set_query_is_valid (Some is_valid) state) in
        if negb is_valid then set_retries (retries state + 1) state
        else state
    | Raised e =>
        set_query_feedback
          (Some ("Verification system error: " +:+ exn_msg e))
          (set_query_is_valid (Some true) state)
    end.

Definition _check_verification (state : GraphState) : node :=
  if default false (query_is_valid state) then execute
  else if decide (max_retries <= retries state) then execute
  else coding.

(** The result of [detect_complexity] read at the declared types of the
    state: [is_complex] a boolean, [original_question] a string and, when
    the question is complex, [sub_questions] a list of strings. *)
Definition get_bool (items : list (string * json)) (key : string)
    (default : bool) : option bool :=
  match dict_get items key with
  | None => Some default
  | Some (JBool b) => Some b
  | Some _ => None
  end.

Definition get_str (items : list (string * json)) (key default : string)
  : option string :=
  match dict_get items key with
  | None => Some default
  | Some (JStr s) => Some s
  | Some _ => None
  end.

Definition as_str (v : json) : option string :=
  match v with
  | JStr s => Some s
  | _ => None
  end.

Definition get_strs (items : list (string * json)) (key : string)
  : option (list string) :=
  match dict_get items key with
  | None => Some []
  | Some (JArr l) => mapM as_str l
  | Some _ => None
  end.

Definition _expansion_node (tick : nat) (state : GraphState)
  : result GraphState :=
  match detect_complexity (loads env) (supervisor_agent tick)
          (question state) (schema_info state) with
  | JObj items =>
      match get_bool items "is_complex" false,
            get_str items "original_question" (question state) with
      | Some complex, Some original =>
          let state :=
            set_original_question (Some original)
              (set_is_complex (Some complex) state) in
          if complex then
            match get_strs items "sub_questions" with
            | Some subs =>
                Ok (set_sub_results (Some [])
                      (set_current_sub_question_index 0
                         (set_sub_questions (Some subs) state)))
            | None => Untyped
            end
          else Ok state
      | _, _ => Untyped
      end
  | _ => Untyped
  end.

(** Whether a result of [detect_complexity] has the types that
    [GraphState] declares for what [_expansion_node] stores from it: a
    boolean [is_complex], a string [original_question] and, for a complex
    question, a list of strings [sub_questions] (each key may be absent).
    On such a result no statement of [_expansion_node] raises. *)
Definition declared_types (result : json) : bool :=
  match result with
  | JObj items =>
      match get_bool items "is_complex" false,
            get_str items "original_question" "" with
      | Some complex, Some _ =>
          if complex then
            match get_strs items "sub_questions" with
            | Some _ => true
            | None => false
            end
          else true
      | _, _ => false
      end
  | _ => false
  end.

(** [len(state.get("sub_questions", []))]: the key is always there, so a
    [None] value reaches [len] and raises. *)
Definition len_sub_questions (state : GraphState) : result nat :=
  match sub_questions state with
  | Some l => Ok (length l)
  | None => Crash (Exn TypeError "object of type 'NoneType' has no len()")
  end.

Definition _sub_question_node (state : GraphState) : result GraphState :=
  let idx := current_sub_question_index state in
  match sub_questions state with
  | None => Crash (Exn TypeError "object of type 'NoneType' has no len()")
  | Some subs =>
      match subs !! idx with
      | Some current_sub_q =>
          Ok (set_retries 0
                (set_error None
                   (set_query_feedback None
                      (set_query_is_valid None
                         (set_results None
                            (set_query None
                               (set_question current_sub_q state)))))))
      | None => Ok state
      end
  end.

Definition _collect_result_node (state : GraphState) : result GraphState :=
  let idx := current_sub_question_index state in
  match sub_questions state with
  | None => Crash (Exn TypeError "object of type 'NoneType' has no len()")
  | Some subs =>
      match subs !! idx with
      | Some sub_q =>
          let sub_result :=
            {| sub_question := sub_q;
               sr_query := query state;
               sr_results := results state |} in
          Ok (set_current_sub_question_index (idx + 1)
                (set_sub_results
                   (Some (default [] (sub_results state) ++ [sub_result])%list)
                   state))
      | None => Ok state
      end
  end.

Definition _aggregation_node (tick : nat) (state : GraphState)
  : GraphState :=
  match sub_results state with
  | None | Some [] => set_answer (Some "No results to aggregate.") state
  | Some collected =>
      match aggregate_results (repr env) (supervisor_agent tick)
              (original_question state) collected (schema_info state) with
      | Returned answer => set_answer (Some answer) state
      | Raised e =>
          set_answer
            (Some ("I encountered an error while aggregating results: "
                   +:+ exn_msg e))
            (set_error (Some ("Aggregation error: " +:+ exn_msg e)) state)
      end
  end.

Definition _check_complexity (state : GraphState) : node :=
  match is_complex state, sub_questions state with
  | Some true, Some (_ :: _) => sub_question_node
  | _, _ => coding
  end.

Definition _has_more_sub_questions (state : GraphState) : result node :=
  match sub_questions state with
  | None => Crash (Exn TypeError "object of type 'NoneType' has no len()")
  | Some subs =>
      if decide (current_sub_question_index state < length subs)
      then Ok sub_question_node else Ok aggregation
  end.

(** The graph of [_build_graph]: what a node does to the state ... *)
Definition run_node (n : node) (tick : nat) (state : GraphState)
  : result GraphState :=
  match n with
  | supervisor => Ok (_supervisor_node tick state)
  | expansion => _expansion_node tick state
  | sub_question_node => _sub_question_node state
  | coding => Ok (_coding_node tick state)
  | verify => Ok (_verify_node tick state)
  | execute => Ok (_execute_node tick state)
  | collect => _collect_result_node state
  | aggregation => Ok (_aggregation_node tick state)
  | synthesize => Ok (_synthesize_node tick state)
  end.

(** ... and the edge taken after it ([None] is [END]). *)
Definition next_node (n : node) (state : GraphState)
  : result (option node) :=
  match n with
  | supervisor => Ok (_should_query state)
  | expansion => Ok (Some (_check_complexity state))
  | sub_question_node => Ok (Some coding)
  | coding => Ok (Some verify)
  | verify => Ok (Some (_check_verification state))
  | execute =>
      Ok (Some (if default false (is_complex state) then collect
                else synthesize))
  | collect =>
      match _has_more_sub_questions state with
      | Ok n' => Ok (Some n')
      | Crash e => Crash e
      | Untyped => Untyped
      end
  | aggregation => Ok None
  | synthesize => Ok None
  end.

(** How a run of the compiled graph ends. *)
Inductive ending :=
| Finished (final_state : GraphState)
| Crashed (e : exn)
| IllTyped
| OutOfSteps.

(** [self.graph.invoke]: the nodes run one after the other from [n]; the
    log keeps every node that ran with the state it left.  [fuel] bounds
    the number of steps (the recursion limit of the graph library). *)
Fixpoint invoke_from (fuel : nat) (n : node) (tick : nat)
    (state : GraphState) : list (node * GraphState) * ending :=
  match fuel with
  | O => ([], OutOfSteps)
  | S fuel' =>
      match run_node n tick state with
      | Crash e => ([], Crashed e)
      | Untyped => ([], IllTyped)
      | Ok state' =>
          match next_node n state' with
          | Crash e => ([(n, state')], Crashed e)
          | Untyped => ([(n, state')], IllTyped)
          | Ok None => ([(n, state')], Finished state')
          | Ok (Some n') =>
              let (log, e) := invoke_from fuel' n' (S tick) state' in
              ((n, state') :: log, e)
          end
      end
  end.

Definition initial_state (question schema_summary : string) : GraphState :=
  {| messages := [HumanMessage question];
     question := question;
     original_question := Some question;
     schema_info := schema_summary;
     query := None;
     results := None;
     answer := None;
     error := None;
     needs_query := None;
     query_is_valid := None;
     query_feedback := None;
     retries := 0;
     is_complex := None;
     sub_questions := None;
     current_sub_question_index := 0;
     sub_results := None |}.

(** [AgenticGraph.run] without a checkpoint configuration.  [fuel] is the
    step limit of the graph library, which the code leaves at the
    library's default of 25.  With a checkpoint configuration, as in the
    chat, the message history starts with the messages of the earlier
    turns of the thread. *)
Definition run (fuel : nat) (schema_manager : SchemaManager.Registry)
    (question : string) : list (node * GraphState) * ending :=
  let schema_summary := SchemaManager.describe schema_manager in
  match invoke_from fuel supervisor 0
          (initial_state question schema_summary) with
  | (log, Finished final_state) =>
      (log,
       Finished
         (if truthy (answer final_state) then
            set_messages
              (messages final_state
               ++ [AIMessage (str_of_opt (answer final_state))])%list
              final_state
          else final_state))
  | other => other
  end.

(** The part of the state that query generation and verification leave
    alone. *)
Definition same_course (s s' : GraphState) : Prop :=
  messages s' = messages s
  /\ question s' = question s
  /\ original_question s' = original_question s
  /\ schema_info s' = schema_info s
  /\ results s' = results s
  /\ answer s' = answer s
  /\ needs_query s' = needs_query s
  /\ is_complex s' = is_complex s
  /\ sub_questions s' = sub_questions s
  /\ current_sub_question_index s' = current_sub_question_index s
  /\ sub_results s' = sub_results s.

(** The bookkeeping of a decomposed run, next to the schema text. *)
Definition course (s : GraphState)
  : option bool * option (list string) * nat
    * option (list (SubResult Row)) * option string * string :=
  (is_complex s, sub_questions s, current_sub_question_index s,
   sub_results s, original_question s, schema_info s).

(** A state made ready for the sub-question [q]. *)
Definition fresh_sub_run (q : string) (s : GraphState) : Prop :=
  question s = q
  /\ query s = None
  /\ results s = None
  /\ query_is_valid s = None
  /\ query_feedback s = None
  /\ error s = None
  /\ retries s = 0.

(** What a run keeps of the state [s0] it started from: the message
    history, the original question and the schema text; and the bound on
    the retry counter. *)
Definition steady (s0 s : GraphState) : Prop :=
  retries s <= max_retries
  /\ messages s = messages s0
  /\ original_question s = original_question s0
  /\ schema_info s = schema_info s0.

End Workflow.

Arguments GraphState Row : clear implicits.
Arguments Env Row : clear implicits.

(** The nodes of a log, in the order they ran. *)
Definition visited {Row : Type} (log : list (node * GraphState Row))
  : list node :=
  map fst log.

(** The states that [execute] left, in the order of the run. *)
Fixpoint executed {Row : Type} (log : list (node * GraphState Row))
  : list (GraphState Row) :=
  match log with
  | [] => []
  | (n, s) :: rest =>
      if decide (n = execute) then s :: executed rest else executed rest
  end.

(** A log put in front of the outcome of the steps that follow. *)
Definition prepend {Row : Type} (log : list (node * GraphState Row))
    (rest : list (node * GraphState Row) * ending (Row := Row))
  : list (node * GraphState Row) * ending (Row := Row) :=
  ((log ++ fst rest)%list, snd rest).

(** [k] rounds of query generation and verification. *)
Fixpoint rounds (k : nat) : list node :=
  match k with
  | O => []
  | S k' => coding :: verify :: rounds k'
  end.

(** The nodes of a decomposed run between [expansion] and [aggregation]:
    one sub-question after the other, the [k]-th entry of [ks] being the
    number of rounds its query took. *)
Fixpoint cycles (ks : list nat) : list node :=
  match ks with
  | [] => []
  | k :: rest =>
      (sub_question_node :: rounds k ++ [execute; collect] ++ cycles rest)%list
  end.

End Graph.

(** ** [src/main.py]: the interactive chat *)

Module Main.

Import Py Agents Graph Memory.

Section Chat.

Context {Row Time : Type}.

(** What the user does at the prompt: a line is typed ([input] returns
    it), the user interrupts (Ctrl-C, [KeyboardInterrupt]), or the input
    has ended (Ctrl-D, [EOFError]). *)
Inductive event :=
| Typed (line : string)
| CtrlC
| CtrlD.

(** How a call of [graph.run] ends in the chat: with the final state, with
    an exception caught as [Exception] (given by its [str]), or by an
    interrupt of the user. *)
Inductive run_outcome :=
| Answered (result : GraphState Row)
| Failed (message : string)
| Interrupted.

(** What the chat prints, one constructor for each [print] of
    [run_interactive_chat] (the texts hold emoji; only their variable
    parts are kept): the banner before the loop; the farewell after [exit]
    or [quit]; the farewell after an interrupt; the header and one line
    per thread of the [history] command; the notice before a run; the
    answer of a run, its error, or the notice that there is neither; and
    the line that reports a caught exception. *)
Inductive printed :=
| Banner (user thread : string) (postgres : bool)
| Goodbye
| InterruptedGoodbye
| ThreadsHeader
| ThreadLine (thread : string) (created : Time)
| Processing
| Assistant (answer : string)
| ErrorOfRun (error : string)
| NoAnswer
| ErrorLine (message : string).

(** [question.lower() in ("exit", "quit")] *)
Definition is_exit (question : string) : bool :=
  String.eqb (lower question) "exit" || String.eqb (lower question) "quit".

(** The line printed for the final state of a run. *)
Definition answer_line (result : GraphState Row) : printed :=
  if truthy (answer result) then Assistant (str_of_opt (answer result))
  else if truthy (error result) then ErrorOfRun (str_of_opt (error result))
  else NoAnswer.

(** The [while True] loop over what the user does: what is printed, and
    whether the loop was left ([false]: it is waiting for more input).
    [run turn question] is the [turn]-th call of [graph.run]; [threads] is
    [memory.list_user_threads(user_id)], which the loop never changes. *)
Fixpoint chat_loop (run : nat -> string -> run_outcome)
    (threads : list (ChatThread Time)) (turn : nat) (events : list event)
  : list printed * bool :=
  match events with
  | [] => ([], false)
  | CtrlC :: _ => ([InterruptedGoodbye], true)
  | CtrlD :: rest =>
      let (out, left) := chat_loop run threads turn rest in
      (ErrorLine "EOF when reading a line" :: out, left)
  | Typed line :: rest =>
      let question := strip line in
      if String.eqb question "" then chat_loop run threads turn rest
      else if is_exit question then ([Goodbye], true)
      else if String.eqb (lower question) "history" then
        let (out, left) := chat_loop run threads turn rest in
        ((ThreadsHeader
          :: map (fun t => ThreadLine (thread_id t) (created_at t)) threads
          ++ out)%list, left)
      else
        match run turn question with
        | Answered result =>
            let (out, left) := chat_loop run threads (S turn) rest in
            (Processing :: answer_line result :: out, left)
        | Failed message =>
            let (out, left) := chat_loop run threads (S turn) rest in
            (Processing :: ErrorLine message :: out, left)
        | Interrupted => ([Processing; InterruptedGoodbye], true)
        end
  end.

(** [run_interactive_chat]: [user] and [thread] are [args.user] and
    [args.thread], [uuid] is [str(uuid.uuid4())], [now] the time at which
    the thread is registered. *)
Definition run_interactive_chat (now : Time) (uuid : string)
    (use_postgres_memory : bool) (user : string) (thread : option string)
    (run : nat -> string -> run_outcome) (events : list event)
  : list printed * bool :=
  let thread_id := if truthy thread then str_of_opt thread
                   else slice_to 8 uuid in
  let cache := fst (register_thread now ∅ user thread_id None) in
  let (out, left) := chat_loop run (list_user_threads cache user) 0 events in
  (Banner user thread_id use_postgres_memory :: out, left).

End Chat.

Arguments event : clear implicits.
Arguments run_outcome Row : clear implicits.
Arguments printed Time : clear implicits.

End Main.

(** ** Sample stand-ins for the built-ins the theorems are parametric in *)

Module Samples.

Import Py Json.

Definition digit_value (c : ascii) : option N :=
  let n := N_of_ascii c in
  if ((48 <=? n) && (n <=? 57))%N then Some (n - 48)%N else None.

Fixpoint digits_value (acc : N) (s : string) : option N :=
  match s with
  | "" => Some acc
  | String c s' =>
      match digit_value c with
      | Some d => digits_value (10 * acc + d)%N s'
      | None => None
      end
  end.

(** A fragment of the built-in [float]: plain decimals such as [12],
    [0.1] or [.5] are read (as rationals); every other text raises
    [ValueError], as [float] does on text that is not a number.  (The
    built-in also reads signs, exponents, blanks, [inf] and [nan].) *)
Definition float (s : string) : outcome Q :=
  let bad := Raised (Exn ValueError
                       ("could not convert string to float: " +:+ s)) in
  let (whole, frac) :=
    match partition "." s with
    | Some (a, b) => (a, b)
    | None => (s, "")
    end in
  if String.eqb whole "" && String.eqb frac "" then bad
  else
    match digits_value 0 (whole +:+ frac) with
    | Some n =>
        Returned (Qmake (Z.of_N n)
                        (Z.to_pos (10 ^ Z.of_nat (String.length frac))))
    | None => bad
    end.

(** *** A JSON reader and writer

    [loads] and [dumps] stand for [json.loads] and
    [json.dumps(_, indent=2, ensure_ascii=False)] in the examples.  The
    reader follows the grammar of the [json] module (blanks are space, tab,
    line feed and carriage return; a raw control character inside a string
    is an error; text after the value is an error) except that it does not
    read [NaN] and [Infinity] and reads a [\u] escape only below 256.  Its
    error messages name the kind of error, without the position. *)

Definition is_ws (c : ascii) : bool :=
  let n := N_of_ascii c in
  ((n =? 32) || (n =? 9) || (n =? 10) || (n =? 13))%N.

Fixpoint skip_ws (s : string) : string :=
  match s with
  | "" => ""
  | String c s' => if is_ws c then skip_ws s' else s
  end.

Definition hex_value (c : ascii) : option N :=
  let n := N_of_ascii c in
  if ((48 <=? n) && (n <=? 57))%N then Some (n - 48)%N
  else if ((97 <=? n) && (n <=? 102))%N then Some (n - 87)%N
  else if ((65 <=? n) && (n <=? 70))%N then Some (n - 55)%N
  else None.

Definition unescape (e : ascii) : option ascii :=
  let n := N_of_ascii e in
  if (n =? 34)%N then Some e            (* quote *)
  else if (n =? 92)%N then Some e       (* backslash *)
  else if (n =? 47)%N then Some e       (* slash *)
  else if (n =? 98)%N then Some "008"%char
  else if (n =? 102)%N then Some "012"%char
  else if (n =? 110)%N then Some "010"%char
  else if (n =? 114)%N then Some "013"%char
  else if (n =? 116)%N then Some "009"%char
  else None.

(** The body of a string literal, after the opening quote: the text and
    what follows the closing quote. *)
Fixpoint read_string (s : string) : option (string * string) :=
  match s with
  | "" => None
  | String c s' =>
      let n := N_of_ascii c in
      if (n =? 34)%N then Some ("", s')
      else if (n =? 92)%N then
        match s' with
        | String "u" (String h1 (String h2 (String h3 (String h4 s'')))) =>
            match hex_value h1, hex_value h2, hex_value h3, hex_value h4 with
            | Some 0%N, Some 0%N, Some a, Some b =>
                match read_string s'' with
                | Some (t, rest) =>
                    Some (String (ascii_of_N (16 * a + b)) t, rest)
                | None => None
                end
            | _, _, _, _ => None
            end
        | String e s'' =>
            match unescape e, read_string s'' with
            | Some d, Some (t, rest) => Some (String d t, rest)
            | _, _ => None
            end
        | "" => None
        end
      else if (n <? 32)%N then None
      else
        match read_string s' with
        | Some (t, rest) => Some (String c t, rest)
        | None => None
        end
  end.

Definition is_digit (c : ascii) : bool :=
  let n := N_of_ascii c in ((48 <=? n) && (n <=? 57))%N.

(** The longest run of digits at the head of [s]. *)
Fixpoint read_digits (s : string) : string * string :=
  match s with
  | String c s' =>
      if is_digit c then
        let (d, rest) := read_digits s' in (String c d, rest)
      else ("", s)
  | "" => ("", "")
  end.

(** A number literal: an optional minus, [0] or digits that do not start
    with [0], an optional fraction, an optional exponent. *)
Definition read_number (s : string) : option (string * string) :=
  let (sign, s1) :=
    match s with
    | String "-" r => ("-", r)
    | _ => ("", s)
    end in
  let int_part :=
    match s1 with
    | String "0" r => Some ("0", r)
    | _ => match read_digits s1 with
           | ("", _) => None
           | (d, r) => Some (d, r)
           end
    end in
  match int_part with
  | None => None
  | Some (i, s2) =>
      let (frac, s3) :=
        match s2 with
        | String "." r =>
            match read_digits r with
            | ("", _) => ("", s2)
            | (d, r') => ("." +:+ d, r')
            end
        | _ => ("", s2)
        end in
      let (expo, s4) :=
        match s3 with
        | String e r =>
            if Ascii.eqb e "e" || Ascii.eqb e "E" then
              let (sg, r1) :=
                match r with
                | String "-" r' => ("-", r')
                | String "+" r' => ("+", r')
                | _ => ("", r)
                end in
              match read_digits r1 with
              | ("", _) => ("", s3)
              | (d, r') => (String e sg +:+ d, r')
              end
            else ("", s3)
        | "" => ("", s3)
        end in
      Some (sign +:+ i +:+ frac +:+ expo, s4)
  end.

(** One value at the head of [s] (no leading blank), and the rest. *)
Fixpoint read_value (fuel : nat) (s : string) : option (json * string) :=
  match fuel with
  | O => None
  | S fuel' =>
      match s with
      | String "{" r =>
          match skip_ws r with
          | String "}" r' => Some (JObj [], r')
          | r' => read_members fuel' r' []
          end
      | String "[" r =>
          match skip_ws r with
          | String "]" r' => Some (JArr [], r')
          | r' => read_elements fuel' r' []
          end
      | String "034" r =>
          match read_string r with
          | Some (t, rest) => Some (JStr t, rest)
          | None => None
          end
      | _ =>
          if startswith "true" s then Some (JBool true, slice_from 4 s)
          else if startswith "false" s then Some (JBool false, slice_from 5 s)
          else if startswith "null" s then Some (JNull, slice_from 4 s)
          else
            match read_number s with
            | Some (lit, rest) => Some (JNum lit, rest)
            | None => None
            end
      end
  end
with read_elements (fuel : nat) (s : string) (acc : list json)
  : option (json * string) :=
  match fuel with
  | O => None
  | S fuel' =>
      match read_value fuel' s with
      | Some (v, rest) =>
          match skip_ws rest with
          | String "," r => read_elements fuel' (skip_ws r) (acc ++ [v])
          | String "]" r => Some (JArr (acc ++ [v]), r)
          | _ => None
          end
      | None => None
      end
  end
with read_members (fuel : nat) (s : string) (acc : list (string * json))
  : option (json * string) :=
  match fuel with
  | O => None
  | S fuel' =>
      match s with
      | String "034" r =>
          match read_string r with
          | Some (k, rest) =>
              match skip_ws rest with
              | String ":" r1 =>
                  match read_value fuel' (skip_ws r1) with
                  | Some (v, rest') =>
                      match skip_ws rest' with
                      | String "," r2 =>
                          read_members fuel' (skip_ws r2) (dict_set acc k v)
                      | String "}" r2 => Some (JObj (dict_set acc k v), r2)
                      | _ => None
                      end
                  | None => None
                  end
              | _ => None
              end
          | None => None
          end
      | _ => None
      end
  end.

Definition loads (s : string) : outcome json :=
  match read_value (2 * String.length s + 2) (skip_ws s) with
  | Some (v, rest) =>
      match skip_ws rest with
      | "" => Returned v
      | _ => Raised (Exn JSONDecodeError "Extra data")
      end
  | None => Raised (Exn JSONDecodeError "Expecting value")
  end.

Definition hex_digit (n : N) : ascii :=
  if (n <? 10)%N then ascii_of_N (48 + n) else ascii_of_N (87 + n).

Definition escape_char (c : ascii) : string :=
  let n := N_of_ascii c in
  if (n =? 34)%N then String "\" dq
  else if (n =? 92)%N then "\\"
  else if (n =? 10)%N then "\n"
  else if (n =? 13)%N then "\r"
  else if (n =? 9)%N then "\t"
  else if (n =? 8)%N then "\b"
  else if (n =? 12)%N then "\f"
  else if (n <? 32)%N then
    "\u00" +:+ String (hex_digit (n / 16)) (String (hex_digit (n mod 16)) "")
  else String c "".

Fixpoint escape (s : string) : string :=
  match s with
  | "" => ""
  | String c s' => escape_char c +:+ escape s'
  end.

Definition quote (s : string) : string := dq +:+ escape s +:+ dq.

Fixpoint spaces (n : nat) : string :=
  match n with
  | O => ""
  | S n' => String " " (spaces n')
  end.

(** [dumps_at level v]: the text of [v] when it sits [level] levels deep,
    with two spaces of indentation per level. *)
Fixpoint dumps_at (level : nat) (v : json) : string :=
  let inner := nl +:+ spaces (2 * S level) in
  match v with
  | JNull => "null"
  | JBool true => "true"
  | JBool false => "false"
  | JNum lit => lit
  | JStr s => quote s
  | JArr [] => "[]"
  | JArr items =>
      "[" +:+ inner
      +:+ join ("," +:+ inner) (map (dumps_at (S level)) items)
      +:+ nl +:+ spaces (2 * level) +:+ "]"
  | JObj [] => "{}"
  | JObj items =>
      "{" +:+ inner
      +:+ join ("," +:+ inner)
            (map (fun kv => quote (fst kv) +:+ ": " +:+ dumps_at (S level) (snd kv))
                 items)
      +:+ nl +:+ spaces (2 * level) +:+ "}"
  end.

Definition dumps (v : json) : string := dumps_at 0 v.

(** *** A sample registry: the two tables of a travel-request workbook *)

Definition column (n t : string) : SchemaManager.ColumnInfo :=
  {| SchemaManager.name := n;
     SchemaManager.type := Py.PyStr t;
     SchemaManager.description := Py.PyNone |}.

Definition travel_tables : gmap string (list SchemaManager.ColumnInfo) :=
  <["requests" := [column "id" "INTEGER"; column "trip_form_id" "INTEGER"]]>
    (<["trip_forms" := [column "trip_form_id" "INTEGER";
                        column "profile_segment" "STRING"]]> ∅).

Definition travel : SchemaManager.Registry :=
  SchemaManager.update SchemaManager.init travel_tables.

(** *** Sample replies of the model *)

Definition quoted (s : string) : string := dq +:+ s +:+ dq.

(** A decomposition whose [reasoning] string runs over two lines: the raw
    line feed inside the string literal is not JSON. *)
Definition two_line_reply : string :=
  "{" +:+ quoted "is_complex" +:+ ": true, "
  +:+ quoted "sub_questions" +:+ ": [" +:+ quoted "volume per month"
  +:+ ", " +:+ quoted "value per month" +:+ "], "
  +:+ quoted "reasoning" +:+ ": " +:+ dq +:+ "two metrics," +:+ nl
  +:+ "two queries" +:+ dq +:+ "}".

(** An agent whose model always replies [reply]. *)
Definition agent_replying (reply : string) : Agents.Agent :=
  {| Agents.llm := fun _ => Returned reply;
     Agents.system_prompt := "You are a supervisor agent." |}.

(** *** Sample environments of the workflow *)

(** [str.upper] on ASCII text: the letters a..z move down by 32.  (The
    built-in also maps letters outside ASCII.) *)
Definition upper_char (c : ascii) : ascii :=
  let n := N_of_ascii c in
  if ((97 <=? n) && (n <=? 122))%N then ascii_of_N (n - 32) else c.

Fixpoint upper (s : string) : string :=
  match s with
  | "" => ""
  | String c s' => String (upper_char c) (upper s')
  end.

(** An environment whose supervisor model replies [supervisor_reply tick]
    at step [tick], whose coder model always writes [sql], whose database
    gives the same verdict [check] on every query and the rows [rows].  A
    row is kept as its [repr]. *)
Definition scripted (supervisor_reply : nat -> string) (sql : string)
    (check : Graph.Verification) (rows : outcome (list string))
  : Graph.Env string :=
  {| Graph.upper := upper;
     Graph.loads := loads;
     Graph.repr := fun row => row;
     Graph.supervisor_prompt := "You are a supervisor agent.";
     Graph.supervisor_llm := fun tick _ => Returned (supervisor_reply tick);
     Graph.coder_prompt := "You are a coding agent.";
     Graph.coder_llm := fun _ _ => Returned sql;
     Graph.validate_schema := fun _ _ => Returned check;
     Graph.db_query := fun _ _ => rows |}.

Definition simple_reply : string :=
  "{" +:+ quoted "is_complex" +:+ ": false, "
  +:+ quoted "sub_questions" +:+ ": [], "
  +:+ quoted "reasoning" +:+ ": " +:+ quoted "one metric" +:+ "}".

Definition rejected : Graph.Verification :=
  {| Graph.valid := Some false;
     Graph.error_text :=
       PyStr "Binder Error: column request_id does not exist" |}.

Definition accepted : Graph.Verification :=
  {| Graph.valid := Some true; Graph.error_text := Missing |}.

(** The model does not ask for a query. *)
Definition env_greeting : Graph.Env string :=
  scripted (fun _ => "NO_QUERY - this is a greeting, no data is needed.")
    "SELECT 1" accepted (Returned []).

(** A simple question whose every query the database rejects. *)
Definition env_rejecting : Graph.Env string :=
  scripted (fun tick =>
              match tick with
              | 0 => "NEED_QUERY - the question counts rows"
              | 1 => simple_reply
              | _ => "There was a problem with the query."
              end)
    "SELECT request_id FROM trip_forms" rejected
    (Raised (Exn RuntimeError
               "Binder Error: column request_id does not exist")).

(** A question the model splits in two; every query is accepted. *)
Definition env_decomposing : Graph.Env string :=
  scripted (fun tick =>
              match tick with
              | 0 => "need_query: two metrics are asked for"
              | 1 => two_line_reply
              | _ => "Volume and value per month are as follows."
              end)
    "SELECT month, count(*) FROM requests GROUP BY month" accepted
    (Returned ["{'month': 1, 'n': 12}"; "{'month': 2, 'n': 7}"]).

(** A simple question; the query is accepted. *)
Definition env_simple : Graph.Env string :=
  scripted (fun tick =>
              match tick with
              | 0 => "NEED_QUERY"
              | 1 => simple_reply
              | _ => "There are 19 requests."
              end)
    "SELECT count(*) AS n FROM requests" accepted
    (Returned ["{'n': 19}"]).

(** The model finds the question complex and names no sub-question. *)
Definition empty_decomposition_reply : string :=
  "{" +:+ quoted "is_complex" +:+ ": true, "
  +:+ quoted "sub_questions" +:+ ": [], "
  +:+ quoted "reasoning" +:+ ": " +:+ quoted "several metrics" +:+ "}".

Definition env_empty_decomposition : Graph.Env string :=
  scripted (fun tick =>
              match tick with
              | 0 => "NEED_QUERY"
              | 1 => empty_decomposition_reply
              | _ => "There are 19 requests."
              end)
    "SELECT count(*) AS n FROM requests" accepted
    (Returned ["{'n': 19}"]).

(** The model service is down: every call of either model raises. *)
Definition env_models_down : Graph.Env string :=
  {| Graph.upper := upper;
     Graph.loads := loads;
     Graph.repr := fun row => row;
     Graph.supervisor_prompt := "You are a supervisor agent.";
     Graph.supervisor_llm :=
       fun _ _ => Raised (Exn RuntimeError "connection refused");
     Graph.coder_prompt := "You are a coding agent.";
     Graph.coder_llm :=
       fun _ _ => Raised (Exn RuntimeError "connection refused");
     Graph.validate_schema := fun _ _ => Returned accepted;
     Graph.db_query := fun _ _ => Returned [] |}.

(** Only the coding model is down. *)
Definition env_coder_down : Graph.Env string :=
  {| Graph.upper := upper;
     Graph.loads := loads;
     Graph.repr := fun row => row;
     Graph.supervisor_prompt := "You are a supervisor agent.";
     Graph.supervisor_llm :=
       fun tick _ =>
         Returned match tick with
                  | 0 => "NEED_QUERY"
                  | 1 => simple_reply
                  | _ => "No data could be retrieved."
                  end;
     Graph.coder_prompt := "You are a coding agent.";
     Graph.coder_llm :=
       fun _ _ => Raised (Exn RuntimeError "connection refused");
     Graph.validate_schema := fun _ _ => Returned accepted;
     Graph.db_query := fun _ _ => Returned [] |}.

(** A question split in three; every query is rejected. *)
Definition three_line_reply : string :=
  "{" +:+ quoted "is_complex" +:+ ": true, "
  +:+ quoted "sub_questions" +:+ ": [" +:+ quoted "volume per month"
  +:+ ", " +:+ quoted "value per month" +:+ ", "
  +:+ quoted "growth per month" +:+ "]}".

Definition env_three_rejected : Graph.Env string :=
  scripted (fun tick =>
              match tick with
              | 0 => "NEED_QUERY"
              | 1 => three_line_reply
              | _ => "No data could be retrieved."
              end)
    "SELECT request_id FROM trip_forms" rejected
    (Raised (Exn RuntimeError
               "Binder Error: column request_id does not exist")).

(** *** A sample workbook

    The workbook [travel.xlsx] with the data sheet [Requests] and its
    metadata sheet [Requests_]; a row is given by its cells that are not
    empty. *)
Definition row_of (cells : list (string * string))
  : string -> option string :=
  fun header => (list_to_map cells : gmap string string) !! header.

Definition requests_sheet : DataLoader.Sheet :=
  {| DataLoader.stem := "travel";
     DataLoader.sheet := "Requests";
     DataLoader.frame :=
       {| DataLoader.columns :=
            [DataLoader.LStr "request_id"; DataLoader.LStr "Amount";
             DataLoader.LStr "Comment"];
          DataLoader.rows :=
            [row_of [("request_id", "1"); ("Amount", "12.5")]] |} |}.

Definition requests_metadata : DataLoader.Sheet :=
  {| DataLoader.stem := "travel";
     DataLoader.sheet := "Requests_";
     DataLoader.frame :=
       {| DataLoader.columns :=
            [DataLoader.LStr "Field Name"; DataLoader.LStr "Type";
             DataLoader.LStr "Description"];
          DataLoader.rows :=
            [row_of [("Field Name", "request_id"); ("Type", "integer");
                     ("Description", "Identifier of the request")];
             row_of [("Field Name", " amount "); ("Type", "Float")]] |} |}.

Definition workbook : list DataLoader.Sheet :=
  [requests_sheet; requests_metadata].

(** A connection that accepts every frame and every statement. *)
Definition connection (name : string) (df : DataLoader.Frame)
    (query : string) : outcome unit :=
  Returned tt.

End Samples.

(* ===================================================================== *)
(** * Part II: properties                                                 *)
(* ===================================================================== *)

(** ** Thread keys ([src/memory.py]) *)

#[local] Arguments Ascii.eqb : simpl never.

Section ThreadKeys.

Import Memory.

Lemma startswith_sep_app (c : ascii) (u rest : string) :
  Py.startswith "__" (String c (u +:+ "_")) = false ->
  Py.startswith "__" (String c (u +:+ "__" +:+ rest)) = false.
Proof.
  destruct u as [|d u]; cbn.
  - now destruct (Ascii.eqb "_" c).
  - now destruct (Ascii.eqb "_" c), (Ascii.eqb "_" d).
Qed.

Lemma partition_make (u t : string) :
  Py.contains "__" (u +:+ "_") = false ->
  Py.partition "__" (u +:+ "__" +:+ t) = Some (u, t).
Proof.
  induction u as [|c u IH]; intros H.
  - reflexivity.
  - change (Py.contains "__" (String c (u +:+ "_")) = false) in H.
    cbn [Py.contains] in H. apply orb_false_iff in H as [Hp Hc].
    change ((String c u) +:+ "__" +:+ t) with (String c (u +:+ "__" +:+ t)).
    cbn [Py.partition].
    rewrite (startswith_sep_app c u t Hp), (IH Hc). reflexivity.
Qed.

Lemma contains_sep_snoc (u : string) :
  Py.contains "__" u = false -> Py.endswith "_" u = false ->
  Py.contains "__" (u +:+ "_") = false.
Proof.
  induction u as [|c u IH]; intros Hc He.
  - reflexivity.
  - cbn [Py.contains] in Hc. apply orb_false_iff in Hc as [Hp Hc].
    cbn [Py.endswith] in He. apply orb_false_iff in He as [Hq He].
    change (String c u +:+ "_") with (String c (u +:+ "_")).
    cbn [Py.contains]. rewrite (IH Hc He), orb_false_r.
    destruct u as [|d u]; [|exact Hp].
    cbn in Hq |- *. destruct (Ascii.eqb "_" c); [discriminate Hq | reflexivity].
Qed.

(** C10 (as amended): a user id that neither contains the separator nor
    ends with an underscore is recovered, with the thread id, from the key
    built for them; the user id [a_] (which contains no separator) is not;
    a user id containing the separator is not; and two distinct
    (user, thread) pairs share the key [a__b__t]. *)
Theorem thread_key_roundtrip :
  (forall user_id thread_id : string,
      Py.contains "__" user_id = false ->
      Py.endswith "_" user_id = false ->
      parse_thread_id (make_thread_id user_id thread_id)
      = (user_id, thread_id))
  /\ parse_thread_id (make_thread_id "a__b" "t") = ("a", "b__t")
  /\ make_thread_id "a__b" "t" = "a__b__t"
  /\ make_thread_id "a" "b__t" = "a__b__t".
Proof.
  split; [|repeat split].
  intros u t Hc He. unfold parse_thread_id, make_thread_id, Py.split1.
  rewrite partition_make; [reflexivity|]. now apply contains_sep_snoc.
Qed.

Lemma thread_key_roundtrip_witness :
  Py.contains "__" "alice" = false /\ Py.endswith "_" "alice" = false
  /\ parse_thread_id (make_thread_id "alice" "t1") = ("alice", "t1").
Proof.
  split; [reflexivity|]. split; [reflexivity|].
  apply (proj1 thread_key_roundtrip); reflexivity.
Defined.

(** C10 (as stated) fails: the user id [a_] does not contain the
    separator, yet its key with thread [b] parses to another pair. *)
Lemma thread_key_roundtrip_counterexample :
  ~ (forall user_id thread_id : string,
        Py.contains "__" user_id = false ->
        parse_thread_id (make_thread_id user_id thread_id)
        = (user_id, thread_id)).
Proof.
  intros H. specialize (H "a_" "b" eq_refl). vm_compute in H. discriminate H.
Qed.

End ThreadKeys.

(** ** Settings ([config.py]) *)

Section SettingsCoercion.

Import Py Config.

Context {F : Type} (float : string -> outcome F).

(** C9 (as amended): a temperature variable that [float] rejects makes the
    construction of [Settings] raise that error; nothing else can make it
    raise: whatever the flag variable holds, the flag is the comparison of
    its lower-cased text with [true]; and every unset variable takes its
    documented default. *)
Theorem settings_from_environment :
  (forall environ s e,
      environ !! "AGENT_TEMPERATURE" = Some s ->
      float s = Raised e ->
      build_settings float environ = Raised e)
  /\ (forall environ t,
        float (getenv environ "AGENT_TEMPERATURE" "0.1") = Returned t ->
        exists st,
          build_settings float environ = Returned st
          /\ agent_temperature st = t
          /\ (forall v, environ !! "USE_POSTGRES_MEMORY" = Some v ->
                use_postgres_memory st = String.eqb (lower v) "true")
          /\ (environ !! "USE_POSTGRES_MEMORY" = None ->
                use_postgres_memory st = false)
          /\ (environ !! "AGENT_TEMPERATURE" = None ->
                float "0.1" = Returned (agent_temperature st))
          /\ (environ !! "OLLAMA_HOST" = None ->
                ollama_host st = "http://localhost:11434")
          /\ (environ !! "OLLAMA_SUPERVISOR_MODEL" = None ->
                supervisor_model st = "ministral3:8b")
          /\ (environ !! "OLLAMA_CODER_MODEL" = None ->
                coder_model st = "gpt-oss:120b-cloud")
          /\ (environ !! "DATA_DIR" = None -> data_dir st = "./data")
          /\ (environ !! "DUCKDB_PATH" = None -> duckdb_path st = "./duckdb.db")
          /\ (environ !! "SCHEMA_PATH" = None ->
                schema_path st = "./schema.json")
          /\ (environ !! "MEMORY_DB_PATH" = None ->
                memory_db_path st = "./memory.db")).
Proof.
  split.
  - intros environ s e Hs He. unfold build_settings, getenv.
    now rewrite Hs, He.
  - intros environ t Ht. unfold build_settings. rewrite Ht.
    eexists. split; [reflexivity|]. cbn.
    unfold getenv in *.
    repeat split; try (intros ->; reflexivity).
    + intros v ->. reflexivity.
    + intros Hn. now rewrite Hn in Ht.
Qed.

End SettingsCoercion.

Lemma settings_from_environment_witness :
  Config.build_settings Samples.float {["AGENT_TEMPERATURE" := "warm"]}
  = Py.Raised (Py.Exn Py.ValueError "could not convert string to float: warm")
  /\ exists st,
      Config.build_settings Samples.float {["USE_POSTGRES_MEMORY" := "TRUE"]}
      = Py.Returned st
      /\ Config.use_postgres_memory st = true
      /\ Config.data_dir st = "./data".
Proof.
  split.
  - apply (proj1 (settings_from_environment Samples.float)) with (s := "warm");
      vm_compute; reflexivity.
  - assert (Ht : Samples.float
                   (Py.getenv {["USE_POSTGRES_MEMORY" := "TRUE"]}
                      "AGENT_TEMPERATURE" "0.1") = Py.Returned (1 # 10)%Q)
      by (vm_compute; reflexivity).
    destruct (proj2 (settings_from_environment Samples.float) _ _ Ht)
      as (st & Hst & _ & Hflag & _ & _ & _ & _ & _ & Hdir & _).
    exists st. split; [exact Hst|]. split.
    + apply (Hflag "TRUE"). vm_compute; reflexivity.
    + apply Hdir. vm_compute; reflexivity.
Defined.

(** C9 (as stated) fails on the flag: with [USE_POSTGRES_MEMORY=maybe],
    neither spelling of a boolean, the settings are built and the flag is
    off. *)
Lemma settings_flag_counterexample :
  Config.malformed_bool "maybe"
  /\ Config.build_settings Samples.float {["USE_POSTGRES_MEMORY" := "maybe"]}
     = Py.Returned {|
         Config.ollama_host := "http://localhost:11434";
         Config.supervisor_model := "ministral3:8b";
         Config.coder_model := "gpt-oss:120b-cloud";
         Config.agent_temperature := (1 # 10)%Q;
         Config.data_dir := "./data";
         Config.duckdb_path := "./duckdb.db";
         Config.schema_path := "./schema.json";
         Config.memory_db_path := "./memory.db";
         Config.use_postgres_memory := false
       |}.
Proof.
  split; [split; discriminate | vm_compute; reflexivity].
Qed.

(** ** The schema snapshot ([src/schema_manager.py]) *)

Section Snapshot.

Import Py Json SchemaManager.

Lemma decode_column_json (col : ColumnInfo) :
  decode_column (column_json col) = Some col.
Proof. destruct col as [n [| |t] [| |d]]; reflexivity. Qed.

Lemma decode_columns_json (cols : list ColumnInfo) :
  mapM decode_column (map column_json cols) = Some cols.
Proof.
  apply mapM_Some_2. induction cols as [|col cols IH]; constructor.
  - apply decode_column_json.
  - exact IH.
Qed.

Lemma decode_tables_json (schemas : gmap string (list ColumnInfo)) :
  decode_tables (tables_json schemas) = Some schemas.
Proof.
  unfold decode_tables, tables_json.
  assert (H : mapM decode_table
                (map (fun entry => (fst entry, JArr (map column_json (snd entry))))
                     (map_to_list schemas))
              = Some (map_to_list schemas)).
  { apply mapM_Some_2.
    induction (map_to_list schemas) as [|[t cols] l IH]; constructor.
    - unfold decode_table; cbn. now rewrite decode_columns_json.
    - exact IH. }
  rewrite H. f_equal. apply list_to_map_to_list.
Qed.

Lemma decode_strs (l : list string) : mapM decode_str (map JStr l) = Some l.
Proof.
  apply mapM_Some_2. induction l; constructor; [reflexivity | assumption].
Qed.

Lemma set_elements_strs (l : list string) :
  set_elements (JArr (map JStr l)) = Returned (map JStr l).
Proof.
  unfold set_elements.
  assert (H : find (fun x => negb (hashable x)) (map JStr l) = None)
    by (induction l; [reflexivity | assumption]).
  now rewrite H.
Qed.

Lemma sorted_elements_set (shared : gset string) :
  list_to_set (sorted_strings (elements shared)) = shared.
Proof.
  unfold sorted_strings.
  rewrite (list_to_set_perm_L _ _ (merge_sort_Permutation String.le _)).
  apply list_to_set_elements_L.
Qed.

Context (dumps : json -> string) (loads : string -> outcome json).

(** C8: saving a registry and loading the file into a fresh registry gives
    back the same table mapping (each table's columns in their order) and
    the same shared-column set, provided the JSON library reads back the
    document it wrote. *)
Theorem save_load_roundtrip (self : Registry) (now path : string)
    (fs : gmap string string) :
  loads (dumps (snapshot self now)) = Returned (snapshot self now) ->
  load_from_file loads (save_to_file dumps now self path fs) init path
  = Done self (Returned true).
Proof.
  intros Hlib. unfold load_from_file, save_to_file.
  rewrite lookup_insert_eq, Hlib. unfold snapshot.
  match goal with
  | |- context [dict_get ?items "tables"] =>
      change (dict_get items "tables")
        with (Some (tables_json (_schemas self)));
      change (dict_get items "shared_columns")
        with (Some (JArr (map JStr (sorted_strings
                                      (elements (_shared_columns self))))))
  end.
  cbn [default from_option id].
  rewrite set_elements_strs, decode_strs. unfold stored.
  rewrite decode_tables_json, sorted_elements_set.
  now destruct self.
Qed.

(** C7: what [load_from_file] does with a file that cannot be loaded.  An
    absent file gives [False]; a file that is not JSON gives [False] and
    leaves the registry as it was.  A JSON object never gives [False],
    whatever keys it lacks: both keys are read with a default, so
    [KeyError] is never raised; and an object with neither [tables] nor
    [shared_columns] empties the registry and gives [True]. *)
Theorem load_from_file_failures (fs : gmap string string) (self : Registry)
    (path : string) :
  (fs !! path = None ->
   load_from_file loads fs self path = Done self (Returned false))
  /\ (forall text msg,
        fs !! path = Some text ->
        loads text = Raised (Exn JSONDecodeError msg) ->
        load_from_file loads fs self path = Done self (Returned false))
  /\ (forall text items,
        fs !! path = Some text ->
        loads text = Returned (JObj items) ->
        returned (load_from_file loads fs self path) <> Returned false)
  /\ (forall text items,
        fs !! path = Some text ->
        loads text = Returned (JObj items) ->
        dict_get items "tables" = None ->
        dict_get items "shared_columns" = None ->
        load_from_file loads fs self path
        = Done {| _schemas := ∅; _shared_columns := ∅ |} (Returned true)).
Proof.
  unfold load_from_file. repeat split.
  - now intros ->.
  - intros text msg -> ->. reflexivity.
  - intros text items -> ->.
    destruct (set_elements _) as [elems|e] eqn:E.
    + unfold stored. destruct (decode_tables _), (mapM decode_str elems);
        discriminate.
    + assert (Hcls : exn_cls e = TypeError).
      { unfold set_elements in E.
        destruct (default _ _) as [| | | |l|]; try discriminate E;
          try (now injection E as <-).
        destruct (find _ l); [now injection E as <- | discriminate E]. }
      unfold load_caught. rewrite Hcls. unfold stored.
      destruct (decode_tables _); discriminate.
  - intros text items -> -> -> ->. reflexivity.
Qed.

End Snapshot.

Lemma save_load_roundtrip_witness :
  SchemaManager.load_from_file Samples.loads
    (SchemaManager.save_to_file Samples.dumps "2025-01-01T09:30:00"
       Samples.travel "./schema.json" ∅)
    SchemaManager.init "./schema.json"
  = SchemaManager.Done Samples.travel (Py.Returned true).
Proof.
  apply save_load_roundtrip. vm_compute. reflexivity.
Defined.

Lemma load_from_file_failures_witness :
  SchemaManager.load_from_file Samples.loads ∅ Samples.travel "./schema.json"
  = SchemaManager.Done Samples.travel (Py.Returned false)
  /\ SchemaManager.load_from_file Samples.loads
       {["./schema.json" := "{ tables: "]} Samples.travel "./schema.json"
     = SchemaManager.Done Samples.travel (Py.Returned false)
  /\ SchemaManager.returned
       (SchemaManager.load_from_file Samples.loads
          {["./schema.json" := "{}"]} Samples.travel "./schema.json")
     <> Py.Returned false
  /\ SchemaManager.load_from_file Samples.loads
       {["./schema.json" := "{}"]} Samples.travel "./schema.json"
     = SchemaManager.Done SchemaManager.init (Py.Returned true).
Proof.
  split; [|split; [|split]].
  - apply (proj1 (load_from_file_failures Samples.loads ∅ Samples.travel
                    "./schema.json")).
    reflexivity.
  - apply (proj1 (proj2 (load_from_file_failures Samples.loads
                           {["./schema.json" := "{ tables: "]} Samples.travel
                           "./schema.json")))
      with (text := "{ tables: ") (msg := "Expecting value");
      vm_compute; reflexivity.
  - apply (proj1 (proj2 (proj2 (load_from_file_failures Samples.loads
                                  {["./schema.json" := "{}"]} Samples.travel
                                  "./schema.json"))))
      with (text := "{}") (items := []);
      vm_compute; reflexivity.
  - apply (proj2 (proj2 (proj2 (load_from_file_failures Samples.loads
                                  {["./schema.json" := "{}"]} Samples.travel
                                  "./schema.json"))))
      with (text := "{}") (items := []);
      vm_compute; reflexivity.
Defined.

(** The file [{}] has neither [tables] nor [shared_columns]: loading it
    returns [True] and replaces a registry of two tables by the empty
    one. *)
Example load_empty_object :
  SchemaManager.load_from_file Samples.loads
    {["./schema.json" := "{}"]} Samples.travel "./schema.json"
  = SchemaManager.Done SchemaManager.init (Py.Returned true)
  /\ SchemaManager._schemas Samples.travel <> ∅.
Proof.
  split.
  - vm_compute. reflexivity.
  - intros H.
    assert (Hl : SchemaManager._schemas Samples.travel !! "requests" = None)
      by (rewrite H; apply lookup_empty).
    vm_compute in Hl. discriminate Hl.
Qed.

(** A file with the tables alone: the shared-column set is emptied, and the
    call returns [True]. *)
Example load_tables_only :
  SchemaManager.load_from_file Samples.loads
    {["./schema.json" :=
        Samples.dumps
          (Json.JObj
             [("tables", SchemaManager.tables_json Samples.travel_tables)])]}
    Samples.travel "./schema.json"
  = SchemaManager.Done
      {| SchemaManager._schemas := Samples.travel_tables;
         SchemaManager._shared_columns := ∅ |}
      (Py.Returned true).
Proof. vm_compute. reflexivity. Qed.

(** A file holding well-formed JSON that is not an object is neither read
    nor reported as a failure: [data.get] raises [AttributeError], which the
    [except] clause does not list. *)
Example load_json_array :
  SchemaManager.load_from_file Samples.loads {["./schema.json" := "[]"]}
    Samples.travel "./schema.json"
  = SchemaManager.Done Samples.travel
      (Py.Raised
         (Py.Exn Py.AttributeError "'list' object has no attribute 'get'")).
Proof. vm_compute. reflexivity. Qed.

(** ** The schema description ([src/schema_manager.py]) *)

Section Describe.

Import Py Json SchemaManager.

#[local] Instance item_le_trans {A : Type} : Transitive (@item_le A).
Proof. intros x y z. unfold item_le. apply transitivity. Qed.

#[local] Instance item_le_total {A : Type} : Total (@item_le A).
Proof. intros x y. unfold item_le. apply total, _. Qed.

Lemma StronglySorted_strict {A : Type} (f : A -> string) (l : list A) :
  StronglySorted (fun x y => String.le (f x) (f y)) l ->
  NoDup (map f l) ->
  StronglySorted (fun x y => str_lt (f x) (f y)) l.
Proof.
  induction 1 as [|x l Hs IH Hx]; intros Hnd; constructor.
  - apply IH. now inversion Hnd.
  - inversion Hnd as [|? ? Hnotin _]; subst.
    rewrite Forall_forall in *. intros y Hy. split.
    + apply Hx, Hy.
    + intros Heq. apply Hnotin. rewrite Heq.
      apply list_elem_of_fmap. exists y. split; [reflexivity | exact Hy].
Qed.

Lemma sorted_strings_perm (l : list string) : sorted_strings l ≡ₚ l.
Proof. apply merge_sort_Permutation. Qed.

Lemma sorted_strings_sorted (l : list string) :
  NoDup l -> StronglySorted str_lt (sorted_strings l).
Proof.
  intros Hnd.
  apply (StronglySorted_strict (fun x => x)).
  - apply StronglySorted_merge_sort; apply _.
  - rewrite map_id. now rewrite sorted_strings_perm.
Qed.

Lemma sorted_items_perm {A : Type} (m : gmap string A) :
  sorted_items m ≡ₚ map_to_list m.
Proof. apply merge_sort_Permutation. Qed.

Lemma sorted_items_sorted {A : Type} (m : gmap string A) :
  StronglySorted (fun x y => str_lt (fst x) (fst y)) (sorted_items m).
Proof.
  apply (StronglySorted_strict fst).
  - apply (StronglySorted_merge_sort item_le).
  - change (map fst (sorted_items m)) with ((sorted_items m).*1).
    rewrite sorted_items_perm. apply NoDup_fst_map_to_list.
Qed.

Lemma index_pairs_elem {A : Type} (l : list A) (a b : A) :
  (a, b) ∈ index_pairs l -> a ∈ l /\ b ∈ l.
Proof.
  induction l as [|x l IH]; cbn [index_pairs].
  - intros H. inversion H.
  - rewrite elem_of_app. intros [H | H].
    + apply list_elem_of_fmap in H as (y & Heq & Hy). inversion Heq; subst.
      split; [left | now right].
    + destruct (IH H). split; now right.
Qed.

Lemma NoDup_index_pairs {A : Type} (l : list A) :
  NoDup l -> NoDup (index_pairs l).
Proof.
  induction 1 as [|x l Hx Hnd IH]; cbn [index_pairs]; [constructor|].
  apply NoDup_app. split; [|split].
  - apply (NoDup_fmap_2 (pair x)), Hnd.
  - intros [a b] Hin Hin'. apply list_elem_of_fmap in Hin as (y & Heq & _).
    inversion Heq; subst. now apply index_pairs_elem in Hin' as [? _].
  - exact IH.
Qed.

Lemma elem_of_index_pairs (l : list string) (a b : string) :
  StronglySorted str_lt l ->
  (a, b) ∈ index_pairs l <-> a ∈ l /\ b ∈ l /\ str_lt a b.
Proof.
  induction 1 as [|x l Hs IH Hx]; cbn [index_pairs].
  - split; [intros H; inversion H | intros (H & _); inversion H].
  - rewrite elem_of_app, list_elem_of_fmap, IH. rewrite Forall_forall in Hx.
    split.
    + intros [(y & Heq & Hy) | (Ha & Hb & Hlt)].
      * inversion Heq; subst. split; [left | split; [now right | now apply Hx]].
      * split; [now right | split; [now right | exact Hlt]].
    + intros (Ha & Hb & Hlt).
      apply elem_of_cons in Ha as [-> | Ha], Hb as [-> | Hb].
      * now destruct Hlt.
      * left. now exists b.
      * exfalso. destruct (Hx a Ha) as [Hxa _], Hlt as [Hax Hne].
        apply Hne. now apply (anti_symm String.le).
      * now right.
Qed.

Lemma elem_of_keys {A : Type} (m : gmap string A) (k : string) :
  k ∈ map fst (map_to_list m) <-> is_Some (m !! k).
Proof.
  rewrite list_elem_of_fmap. split.
  - intros ([k' v] & -> & Hin). apply elem_of_map_to_list in Hin. now exists v.
  - intros [v Hv]. exists (k, v). split; [reflexivity|].
    now apply elem_of_map_to_list.
Qed.

Lemma table_names_sorted (schemas : gmap string (list ColumnInfo)) :
  StronglySorted str_lt (sorted_strings (map fst (map_to_list schemas))).
Proof. apply sorted_strings_sorted, NoDup_fst_map_to_list. Qed.

Lemma elem_of_column_set (schemas : gmap string (list ColumnInfo))
    (table c : string) :
  c ∈ column_set schemas table <-> has_column schemas table c.
Proof.
  unfold column_set, has_column. rewrite elem_of_list_to_set, list_elem_of_fmap.
  destruct (schemas !! table) as [cols|]; cbn.
  - split.
    + intros (col & -> & Hin). now exists cols, col.
    + intros (cols' & col & Heq & Hin & <-). inversion Heq; subst.
      now exists col.
  - split.
    + intros (col & _ & Hin). inversion Hin.
    + intros (cols' & col & Heq & _). discriminate.
Qed.

Lemma common_columns_spec (schemas : gmap string (list ColumnInfo))
    (a b : string) :
  StronglySorted str_lt (common_columns schemas a b)
  /\ forall c, c ∈ common_columns schemas a b
               <-> has_column schemas a c /\ has_column schemas b c.
Proof.
  unfold common_columns. split.
  - apply sorted_strings_sorted, NoDup_elements.
  - intros c. rewrite sorted_strings_perm, elem_of_elements,
      elem_of_intersection, !elem_of_column_set. reflexivity.
Qed.

Lemma elem_of_linked_pairs (schemas : gmap string (list ColumnInfo))
    (a b : string) (cs : list string) :
  (a, b, cs) ∈ linked_pairs schemas
  <-> is_Some (schemas !! a) /\ is_Some (schemas !! b) /\ str_lt a b
      /\ cs <> [] /\ cs = common_columns schemas a b.
Proof.
  unfold linked_pairs. rewrite list_elem_of_omap. split.
  - intros ([a' b'] & Hin & Hf). cbn [fst snd] in Hf.
    destruct (common_columns schemas a' b') as [|c cs'] eqn:E; [discriminate|].
    inversion Hf; subst.
    apply elem_of_index_pairs in Hin as (Ha & Hb & Hlt);
      [|apply table_names_sorted].
    rewrite sorted_strings_perm, elem_of_keys in Ha, Hb.
    rewrite E. split; [exact Ha|]. split; [exact Hb|]. split; [exact Hlt|].
    split; [discriminate | reflexivity].
  - intros (Ha & Hb & Hlt & Hne & ->). exists (a, b). split.
    + apply elem_of_index_pairs; [apply table_names_sorted|].
      rewrite !sorted_strings_perm, !elem_of_keys. split; [exact Ha|].
      split; [exact Hb | exact Hlt].
    + cbn [fst snd]. destruct (common_columns schemas a b); [congruence | reflexivity].
Qed.

Lemma linked_pairs_fst_sub (schemas : gmap string (list ColumnInfo))
    (l : list (string * string)) :
  sublist
    (map fst
       (omap (fun ab =>
                let common := common_columns schemas (fst ab) (snd ab) in
                match common with
                | [] => None
                | _ => Some (fst ab, snd ab, common)
                end) l))
    l.
Proof.
  induction l as [|[a b] l IH]; cbn; [constructor|].
  destruct (common_columns schemas a b); cbn.
  - now constructor.
  - now constructor.
Qed.

Lemma NoDup_linked_pairs (schemas : gmap string (list ColumnInfo)) :
  NoDup (map fst (linked_pairs schemas)).
Proof.
  eapply sublist_NoDup; [|apply linked_pairs_fst_sub].
  apply NoDup_index_pairs.
  rewrite sorted_strings_perm. apply NoDup_fst_map_to_list.
Qed.

Lemma linked_pairs_small (schemas : gmap string (list ColumnInfo)) :
  size schemas < 2 -> linked_pairs schemas = [].
Proof.
  intros Hsz. unfold linked_pairs.
  assert (Hlen : length (sorted_strings (map fst (map_to_list schemas))) < 2).
  { rewrite sorted_strings_perm, length_map, length_map_to_list. exact Hsz. }
  destruct (sorted_strings _) as [|x [|y l]]; cbn in *; [reflexivity.. | lia].
Qed.

(** The relationship section, without the early exit on fewer than two
    tables (which have no pair). *)
Lemma build_relationship_map_eq (self : Registry) :
  _build_relationship_map self =
  match map relationship_line (linked_pairs (_schemas self)) with
  | [] => ""
  | relationships =>
      nl +:+ nl +:+ "Detected Relationships:" +:+ nl +:+ join nl relationships
  end.
Proof.
  unfold _build_relationship_map. case_decide as Hsz; [|reflexivity].
  now rewrite linked_pairs_small.
Qed.

Lemma counter_incr_lookup (counts : gmap string nat) (k c : string) :
  default 0 (counter_incr counts k !! c)
  = default 0 (counts !! c) + (if decide (k = c) then 1 else 0).
Proof.
  unfold counter_incr. destruct (decide (k = c)) as [->|Hne].
  - rewrite lookup_insert_eq. cbn. lia.
  - rewrite lookup_insert_ne by exact Hne. lia.
Qed.

Lemma column_counts_lookup (l : list string) (counts : gmap string nat)
    (c : string) :
  default 0 (foldl counter_incr counts l !! c)
  = default 0 (counts !! c) + length (filter (fun k => k = c) l).
Proof.
  revert counts. induction l as [|k l IH]; intros counts; cbn [foldl].
  - cbn. lia.
  - rewrite IH, counter_incr_lookup, filter_cons.
    destruct (decide (k = c)); cbn [length]; lia.
Qed.

(** After [update], the shared-column set holds the names that occur more
    than once over the column lists of all tables. *)
Lemma detect_relationships_spec (schemas : gmap string (list ColumnInfo))
    (c : string) :
  c ∈ _detect_relationships schemas
  <-> 1 < length (filter (fun k => k = c) (all_column_names schemas)).
Proof.
  unfold _detect_relationships. case_decide as He.
  - subst. unfold all_column_names. rewrite map_to_list_empty. cbn.
    split; [intros H; now apply not_elem_of_empty in H | lia].
  - rewrite elem_of_dom. unfold column_counts.
    pose proof (column_counts_lookup (all_column_names schemas) ∅ c) as Hc.
    rewrite lookup_empty in Hc. cbn [default from_option id] in Hc.
    rewrite Nat.add_0_l in Hc. rewrite <- Hc. split.
    + intros [n Hn]. apply map_lookup_filter_Some in Hn as [Hn Hgt].
      rewrite Hn. exact Hgt.
    + intros Hgt.
      destruct (foldl counter_incr ∅ (all_column_names schemas) !! c)
        as [n|] eqn:E; cbn in Hgt; [|lia].
      exists n. apply map_lookup_filter_Some. now split.
Qed.

(** C5 (as amended): the text of [describe].  With no table it is
    [No tables loaded.]; otherwise the tables come in lexicographic order,
    each once, joined by [; ]; a column shows its name, its type label
    ([UNKNOWN] when the column has no type entry), the tag [[SHARED KEY]]
    exactly when its name is in the registry's shared-column set, and its
    description unless that is absent or empty; the relationship section
    is omitted when no two tables share a column name and otherwise lists,
    once per pair of tables [a < b] with a common column name, the line
    naming the pair and its common column names in lexicographic order.
    After [update] the shared-column set holds the names that occur more
    than once over all column lists. *)
Theorem describe_format (self : Registry) :
  let schemas := _schemas self in
  let linked := linked_pairs schemas in
  (schemas = ∅ -> describe self = "No tables loaded.")
  /\ (schemas <> ∅ ->
      describe self
      = join "; " (map (describe_table self) (sorted_items schemas))
        +:+ _build_relationship_map self)
  /\ sorted_items schemas ≡ₚ map_to_list schemas
  /\ StronglySorted (fun x y => str_lt (fst x) (fst y)) (sorted_items schemas)
  /\ (forall t cols,
        describe_table self (t, cols)
        = t +:+ " (" +:+ join ", " (map (describe_column self) cols) +:+ ")")
  /\ (forall col, exists label tag suffix,
        describe_column self col
        = name col +:+ " (" +:+ label +:+ ")" +:+ tag +:+ suffix
        /\ (name col ∈ _shared_columns self -> tag = " [SHARED KEY]")
        /\ (name col ∉ _shared_columns self -> tag = "")
        /\ (type col = Missing -> label = "UNKNOWN")
        /\ (forall s, type col = PyStr s -> label = s)
        /\ (description col = Missing \/ description col = PyNone
            \/ description col = PyStr "" -> suffix = "")
        /\ (forall d, description col = PyStr d -> d <> "" ->
              suffix = ": " +:+ d))
  /\ (linked = [] -> _build_relationship_map self = "")
  /\ (linked <> [] ->
      _build_relationship_map self
      = nl +:+ nl +:+ "Detected Relationships:" +:+ nl
        +:+ join nl (map relationship_line linked))
  /\ (forall a b cs,
        relationship_line (a, b, cs)
        = "- " +:+ a +:+ " and " +:+ b +:+ " are linked by: "
          +:+ join ", " cs)
  /\ NoDup (map fst linked)
  /\ (forall a b cs,
        (a, b, cs) ∈ linked
        <-> is_Some (schemas !! a) /\ is_Some (schemas !! b) /\ str_lt a b
            /\ cs <> [] /\ cs = common_columns schemas a b)
  /\ (forall a b,
        StronglySorted str_lt (common_columns schemas a b)
        /\ forall c, c ∈ common_columns schemas a b
                     <-> has_column schemas a c /\ has_column schemas b c)
  /\ (forall tables c,
        c ∈ _shared_columns (update self tables)
        <-> 1 < length (filter (fun k => k = c)
                          (all_column_names (tables ∪ schemas)))).
Proof.
  intros schemas linked. subst schemas linked.
  split; [|split; [|split; [|split; [|split; [|split]]]]].
  - intros He. unfold describe. now rewrite decide_True.
  - intros Hne. unfold describe. now rewrite decide_False.
  - apply sorted_items_perm.
  - apply sorted_items_sorted.
  - reflexivity.
  - intros col.
    exists (dtype_label (type col)), (shared_tag self col),
      (description_suffix (description col)).
    split; [reflexivity|]. unfold shared_tag.
    split; [intros Hin; now rewrite decide_True|].
    split; [intros Hout; now rewrite decide_False|].
    split; [now intros ->|]. split; [now intros s ->|].
    split; [now intros [-> | [-> | ->]]|].
    intros d -> Hd. destruct d; [congruence | reflexivity].
  - split; [|split; [|split; [|split; [|split; [|split]]]]].
    + intros Hl. now rewrite build_relationship_map_eq, Hl.
    + intros Hl. rewrite build_relationship_map_eq.
      destruct (linked_pairs (_schemas self)); [congruence | reflexivity].
    + reflexivity.
    + apply NoDup_linked_pairs.
    + apply elem_of_linked_pairs.
    + apply common_columns_spec.
    + intros tables c. apply detect_relationships_spec.
Qed.

End Describe.

Lemma describe_format_witness :
  SchemaManager.describe SchemaManager.init = "No tables loaded."
  /\ SchemaManager.describe Samples.travel
     = Py.join "; "
         (map (SchemaManager.describe_table Samples.travel)
              (SchemaManager.sorted_items
                 (SchemaManager._schemas Samples.travel)))
       +:+ SchemaManager._build_relationship_map Samples.travel.
Proof.
  split.
  - apply (proj1 (describe_format SchemaManager.init)). reflexivity.
  - apply (proj1 (proj2 (describe_format Samples.travel))).
    intros H.
    assert (Hl : SchemaManager._schemas Samples.travel !! "requests" = None)
      by (rewrite H; apply lookup_empty).
    vm_compute in Hl. discriminate Hl.
Defined.

(** The description of the sample registry, in full. *)
Example describe_travel :
  SchemaManager.describe Samples.travel
  = "requests (id (INTEGER), trip_form_id (INTEGER) [SHARED KEY]); "
    +:+ "trip_forms (trip_form_id (INTEGER) [SHARED KEY], "
    +:+ "profile_segment (STRING))"
    +:+ Py.nl +:+ Py.nl +:+ "Detected Relationships:" +:+ Py.nl
    +:+ "- requests and trip_forms are linked by: trip_form_id".
Proof. vm_compute. reflexivity. Qed.

(** Two slips next to the format: a column name repeated inside one table
    counts twice and is tagged although no other table has it, and a type
    entry holding [None] is printed as [None], not as [UNKNOWN]. *)
Example describe_repeated_column :
  SchemaManager.describe
    (SchemaManager.update SchemaManager.init
       {["t" := [Samples.column "a" "INTEGER"; Samples.column "a" "INTEGER"]]})
  = "t (a (INTEGER) [SHARED KEY], a (INTEGER) [SHARED KEY])".
Proof. vm_compute. reflexivity. Qed.

Example describe_none_type :
  SchemaManager.describe
    (SchemaManager.update SchemaManager.init
       {["t" := [{| SchemaManager.name := "a";
                    SchemaManager.type := Py.PyNone;
                    SchemaManager.description := Py.Missing |}]]})
  = "t (a (None))".
Proof. vm_compute. reflexivity. Qed.

(** C5 (as stated) fails on the tag: a snapshot file that carries the two
    tables but no [shared_columns] entry loads with an empty shared-column
    set; [trip_form_id] is a column of both tables, is listed in the
    relationship section, and is not tagged. *)
Lemma describe_tag_counterexample :
  let file :=
    Samples.dumps
      (Json.JObj [("tables", SchemaManager.tables_json Samples.travel_tables)])
  in
  let loaded :=
    {| SchemaManager._schemas := Samples.travel_tables;
       SchemaManager._shared_columns := ∅ |} in
  SchemaManager.load_from_file Samples.loads {["./schema.json" := file]}
    SchemaManager.init "./schema.json"
  = SchemaManager.Done loaded (Py.Returned true)
  /\ SchemaManager.has_column Samples.travel_tables "requests" "trip_form_id"
  /\ SchemaManager.has_column Samples.travel_tables "trip_forms" "trip_form_id"
  /\ SchemaManager.describe loaded
     = "requests (id (INTEGER), trip_form_id (INTEGER)); "
       +:+ "trip_forms (trip_form_id (INTEGER), profile_segment (STRING))"
       +:+ Py.nl +:+ Py.nl +:+ "Detected Relationships:" +:+ Py.nl
       +:+ "- requests and trip_forms are linked by: trip_form_id".
Proof.
  cbv zeta. split; [|split; [|split]].
  - vm_compute. reflexivity.
  - exists [Samples.column "id" "INTEGER"; Samples.column "trip_form_id" "INTEGER"],
      (Samples.column "trip_form_id" "INTEGER").
    split; [vm_compute; reflexivity|]. split; [|reflexivity].
    right. left.
  - exists [Samples.column "trip_form_id" "INTEGER";
            Samples.column "profile_segment" "STRING"],
      (Samples.column "trip_form_id" "INTEGER").
    split; [vm_compute; reflexivity|]. split; [left | reflexivity].
  - vm_compute. reflexivity.
Qed.

(** ** The agents ([src/agents.py]) *)

Section AgentFallbacks.

Import Py Json Agents.

Context (loads : string -> outcome json) (self : Agent).

(** C4 (as amended): when the text that [verify_query] hands to the JSON
    parser (the reply, trimmed and without its markdown fence) does not
    parse, the verdict is [valid = true] with a feedback that starts with
    [Verification failed:]; when the text that [detect_complexity] hands to
    the parser (the same, with control characters blanked) does not parse,
    the result is [is_complex = false], no sub-question, the question
    itself and a reasoning that starts with [Failed to analyze complexity:].
    A failing call to the model gives the same fallbacks.  Both operations
    return a value on every input. *)
Theorem parse_failure_fallbacks (query question schema_info : string) :
  (forall reply e,
      llm self [SystemMessage
                  "You are a strict SQL Code Reviewer. Your job is to catch column hallucinations and correct them.";
                HumanMessage (verify_prompt query schema_info)]
      = Returned reply ->
      loads (verify_payload reply) = Raised e ->
      verify_query loads self query schema_info
      = JObj [("valid", JBool true);
              ("feedback", JStr ("Verification failed: " +:+ exn_msg e))])
  /\ (forall reply e,
        llm self [SystemMessage (system_prompt self);
                  HumanMessage (complexity_prompt question schema_info)]
        = Returned reply ->
        loads (complexity_payload reply) = Raised e ->
        detect_complexity loads self question schema_info
        = JObj [("is_complex", JBool false);
                ("sub_questions", JArr []);
                ("original_question", JStr question);
                ("reasoning",
                 JStr ("Failed to analyze complexity: " +:+ exn_msg e))])
  /\ (forall e,
        llm self [SystemMessage
                    "You are a strict SQL Code Reviewer. Your job is to catch column hallucinations and correct them.";
                  HumanMessage (verify_prompt query schema_info)]
        = Raised e ->
        verify_query loads self query schema_info = verify_fallback e)
  /\ (forall e,
        llm self [SystemMessage (system_prompt self);
                  HumanMessage (complexity_prompt question schema_info)]
        = Raised e ->
        detect_complexity loads self question schema_info
        = complexity_fallback question e).
Proof.
  unfold verify_query, verify_query_try, detect_complexity,
    detect_complexity_try.
  repeat split.
  - intros reply e -> ->. reflexivity.
  - intros reply e -> ->. reflexivity.
  - intros e ->. reflexivity.
  - intros e ->. reflexivity.
Qed.

End AgentFallbacks.

Lemma parse_failure_fallbacks_witness :
  Agents.verify_query Samples.loads (Samples.agent_replying "Looks good!")
    "SELECT 1" "No tables loaded."
  = Json.JObj [("valid", Json.JBool true);
               ("feedback", Json.JStr "Verification failed: Expecting value")]
  /\ Agents.detect_complexity Samples.loads
       (Samples.agent_replying "Looks good!") "How many trips?"
       "No tables loaded."
     = Json.JObj [("is_complex", Json.JBool false);
                  ("sub_questions", Json.JArr []);
                  ("original_question", Json.JStr "How many trips?");
                  ("reasoning",
                   Json.JStr "Failed to analyze complexity: Expecting value")].
Proof.
  split.
  - apply (proj1 (parse_failure_fallbacks Samples.loads
                    (Samples.agent_replying "Looks good!")
                    "SELECT 1" "How many trips?" "No tables loaded."))
      with (reply := "Looks good!")
           (e := Py.Exn Py.JSONDecodeError "Expecting value");
      vm_compute; reflexivity.
  - apply (proj1 (proj2 (parse_failure_fallbacks Samples.loads
                    (Samples.agent_replying "Looks good!")
                    "SELECT 1" "How many trips?" "No tables loaded.")))
      with (reply := "Looks good!")
           (e := Py.Exn Py.JSONDecodeError "Expecting value");
      vm_compute; reflexivity.
Defined.

(** C4 (as stated) fails on complexity detection: a reply whose JSON holds
    a raw line feed inside a string does not parse after fence stripping
    (the verification path falls back), but [detect_complexity] blanks the
    control character first, parses the reply and reports a complex
    question with two sub-questions. *)
Lemma complexity_fallback_counterexample :
  (exists msg,
      Samples.loads (Agents.verify_payload Samples.two_line_reply)
      = Py.Raised (Py.Exn Py.JSONDecodeError msg)
      /\ Agents.verify_query Samples.loads
           (Samples.agent_replying Samples.two_line_reply)
           "SELECT 1" "No tables loaded."
         = Json.JObj [("valid", Json.JBool true);
                      ("feedback",
                       Json.JStr ("Verification failed: " +:+ msg))])
  /\ Agents.detect_complexity Samples.loads
       (Samples.agent_replying Samples.two_line_reply)
       "volume and value per month" "No tables loaded."
     = Json.JObj [("is_complex", Json.JBool true);
                  ("sub_questions",
                   Json.JArr [Json.JStr "volume per month";
                              Json.JStr "value per month"]);
                  ("reasoning", Json.JStr "two metrics, two queries");
                  ("original_question",
                   Json.JStr "volume and value per month")].
Proof.
  split.
  - eexists. split; vm_compute; reflexivity.
  - vm_compute. reflexivity.
Qed.

Section RowLimit.

Import Py Agents.

Context {Row : Type} (repr : Row -> string).

(** C6 (as amended): above 50 rows the prompt of [synthesize_answer] shows
    the first 50 rows and a note giving the total number of rows ([showing
    first 50 of N rows]); up to 50 rows it shows them all and no note. *)
Theorem synthesize_row_limit (results : list Row) :
  (50 < length results ->
   results_str repr results
   = str_of_rows repr (firstn 50 results) +:+ nl
     +:+ "... (showing first 50 of " +:+ str_of_nat (length results)
     +:+ " rows)")
  /\ (length results <= 50 ->
      results_str repr results = str_of_rows repr results)
  /\ (forall self question query schema_info,
        synthesize_answer repr self question query (Some results) schema_info
        = llm self
            [SystemMessage (system_prompt self);
             HumanMessage
               (lines [
                  "Schema information:";
                  schema_info;
                  "";
                  "User question: " +:+ question;
                  "";
                  "SQL query executed:";
                  str_of_opt query;
                  "";
                  "Query results:";
                  results_str repr results;
                  "";
                  "Based on these results, provide a clear, thorough, and precise answer to the user's question. ";
                  "Include specific numbers, trends, and insights from the data. If the results are empty, explain why." ])]).
Proof.
  unfold results_str. split; [|split].
  - intros H. now rewrite decide_True.
  - intros H. rewrite decide_False by lia. now rewrite firstn_all2.
  - reflexivity.
Qed.

End RowLimit.

Lemma synthesize_row_limit_witness :
  Agents.results_str (fun _ : unit => "{}") (repeat tt 75)
  = Agents.str_of_rows (fun _ : unit => "{}") (repeat tt 50) +:+ Py.nl
    +:+ "... (showing first 50 of 75 rows)"
  /\ Agents.results_str (fun _ : unit => "{}") (repeat tt 2) = "[{}, {}]".
Proof.
  split.
  - apply (proj1 (synthesize_row_limit (fun _ : unit => "{}") (repeat tt 75))).
    vm_compute. lia.
  - apply (proj1 (proj2 (synthesize_row_limit (fun _ : unit => "{}")
                           (repeat tt 2)))).
    vm_compute. lia.
Defined.

(** C6 (as stated) fails on the note: for 75 rows the text under
    [Query results:] ends with [showing first 50 of 75 rows]; the number of
    omitted rows, 25, is nowhere in it. *)
Lemma row_note_counterexample :
  exists shown,
    Agents.results_str (fun _ : unit => "{}") (repeat tt 75)
    = shown +:+ Py.nl +:+ "... (showing first 50 of 75 rows)"
    /\ shown = Agents.str_of_rows (fun _ : unit => "{}") (repeat tt 50)
    /\ Py.contains "25"
         (Agents.results_str (fun _ : unit => "{}") (repeat tt 75)) = false.
Proof.
  eexists. split; [|split]; [|reflexivity|]; vm_compute; reflexivity.
Qed.

(** ** The workflow ([src/graph.py]) *)

Section RetryLoop.

Import Py Json Agents Graph.

Context {Row : Type} (env : Env Row).

#[local] Arguments generate_query : simpl never.
#[local] Arguments analyze_question : simpl never.
#[local] Arguments detect_complexity : simpl never.
#[local] Arguments synthesize_answer : simpl never.
#[local] Arguments aggregate_results : simpl never.

#[local] Arguments truthy : simpl never.

Lemma truthy_prefixed (c : ascii) (p rest : string) :
  truthy (Some (String c p +:+ rest)) = true.
Proof. reflexivity. Qed.

Lemma same_course_refl (s : GraphState Row) : same_course s s.
Proof. repeat split. Qed.

Lemma same_course_trans (s1 s2 s3 : GraphState Row) :
  same_course s1 s2 -> same_course s2 s3 -> same_course s1 s3.
Proof.
  unfold same_course. intros H1 H2.
  repeat match goal with H : _ /\ _ |- _ => destruct H end.
  repeat split; congruence.
Qed.

(** One round: query generation, then verification. *)
Lemma round_cases (tick : nat) (s : GraphState Row) :
  error s = None ->
  let c := _coding_node env tick s in
  let v := _verify_node env (S tick) c in
  same_course s c /\ same_course s v
  /\ error v = None
  /\ retries s <= retries c <= retries v
  /\ ((query_is_valid v = Some true /\ retries v = retries s)
      \/ (query_is_valid v = Some false /\ retries v = retries s + 1)).
Proof.
  intros He c v. subst c v. unfold _coding_node, _verify_node.
  destruct (generate_query _ _ _ _ _) as [q|e]; cbn.
  - rewrite He. change (truthy None) with false. cbn.
    destruct (validate_schema env (S tick) (Some q)) as [[[[|]|] t]|e]; cbn.
    all: split; [repeat split|].
    all: split; [repeat split|].
    all: split; [exact He|].
    all: split; [lia|].
    all: first [ left; split; [reflexivity | lia]
               | right; split; [reflexivity | lia] ].
  - rewrite truthy_prefixed. cbn.
    split; [repeat split|]. split; [repeat split|].
    split; [reflexivity|]. split; [lia|]. right. split; [reflexivity | lia].
Qed.

Lemma prepend_prepend (l1 l2 : list (node * GraphState Row))
    (rest : list (node * GraphState Row) * ending (Row := Row)) :
  prepend l1 (prepend l2 rest) = prepend (l1 ++ l2)%list rest.
Proof. unfold prepend. cbn. now rewrite app_assoc. Qed.

Lemma invoke_step (fuel : nat) (n n' : node) (tick : nat)
    (s s' : GraphState Row) :
  run_node env n tick s = Ok s' ->
  next_node n s' = Ok (Some n') ->
  invoke_from env (S fuel) n tick s
  = prepend [(n, s')] (invoke_from env fuel n' (S tick) s').
Proof.
  intros Hr Hn. cbn [invoke_from]. rewrite Hr, Hn.
  now destruct (invoke_from env fuel n' (S tick) s').
Qed.

Lemma invoke_last (fuel : nat) (n : node) (tick : nat)
    (s s' : GraphState Row) :
  run_node env n tick s = Ok s' ->
  next_node n s' = Ok None ->
  invoke_from env (S fuel) n tick s = ([(n, s')], Finished s').
Proof. intros Hr Hn. cbn [invoke_from]. now rewrite Hr, Hn. Qed.

(** One round as two steps of the graph. *)
Lemma invoke_round (fuel tick : nat) (s : GraphState Row) :
  let c := _coding_node env tick s in
  let v := _verify_node env (S tick) c in
  invoke_from env (S (S fuel)) coding tick s
  = prepend [(coding, c); (verify, v)]
      (invoke_from env fuel (_check_verification v) (S (S tick)) v).
Proof.
  intros c v.
  rewrite (invoke_step _ coding verify tick s c) by reflexivity.
  rewrite (invoke_step _ verify (_check_verification v) (S tick) c v)
    by reflexivity.
  now rewrite prepend_prepend.
Qed.

(** The retry loop: from a state with no pending error and [budget]
    retries left, between one and [budget] rounds run and the graph moves
    on to [execute]; the retry counter never passes [max_retries]. *)
Lemma retry_loop (budget : nat) :
  forall (tick : nat) (s : GraphState Row),
    error s = None ->
    retries s + budget = max_retries ->
    1 <= budget ->
    exists (k : nat) (log : list (node * GraphState Row))
           (s' : GraphState Row),
      1 <= k <= budget
      /\ visited log = rounds k
      /\ same_course s s'
      /\ error s' = None
      /\ retries s' <= max_retries
      /\ Forall (fun p => retries (snd p) <= max_retries
                          /\ same_course s (snd p)) log
      /\ forall fuel,
          invoke_from env (2 * k + fuel) coding tick s
          = prepend log (invoke_from env fuel execute (tick + 2 * k) s').
Proof.
  induction budget as [|b IH]; intros tick s He Hb Hpos; [lia|].
  destruct (round_cases tick s He) as (Hc & Hv & Hev & Hr & Hcase).
  set (c := _coding_node env tick s) in *.
  set (v := _verify_node env (S tick) c) in *.
  unfold max_retries in *.
  assert (Hone :
    _check_verification v = execute ->
    exists k log s',
      1 <= k <= S b /\ visited log = rounds k /\ same_course s s'
      /\ error s' = None /\ retries s' <= 3
      /\ Forall (fun p => retries (snd p) <= 3 /\ same_course s (snd p)) log
      /\ forall fuel,
          invoke_from env (2 * k + fuel) coding tick s
          = prepend log (invoke_from env fuel execute (tick + 2 * k) s')).
  { intros Hex. exists 1, [(coding, c); (verify, v)], v.
    split; [lia|]. split; [reflexivity|]. split; [exact Hv|].
    split; [exact Hev|]. split; [destruct Hcase as [[_ ?]|[_ ?]]; lia|].
    split.
    - constructor; [cbn; split; [lia | exact Hc]|].
      constructor; [cbn; split; [lia | exact Hv]|]. constructor.
    - intros fuel. change (2 * 1 + fuel) with (S (S fuel)).
      rewrite (invoke_round fuel tick s). fold c v. rewrite Hex.
      now replace (tick + 2 * 1) with (S (S tick)) by lia. }
  destruct Hcase as [[Hvalid Hret] | [Hinvalid Hret]].
  - apply Hone. unfold _check_verification. now rewrite Hvalid.
  - destruct b as [|b'].
    + apply Hone. unfold _check_verification. rewrite Hinvalid. cbn.
      unfold max_retries. rewrite decide_True by lia. reflexivity.
    + destruct (IH (S (S tick)) v Hev ltac:(lia) ltac:(lia))
        as (k & log & s' & Hk & Hvis & Hsc & Hes & Hrs & Hall & Hrun).
      exists (S k), ((coding, c) :: (verify, v) :: log), s'.
      split; [lia|].
      split; [unfold visited in *; cbn [map fst]; now rewrite Hvis|].
      split; [now apply (same_course_trans s v s')|].
      split; [exact Hes|]. split; [exact Hrs|]. split.
      * constructor; [cbn; split; [lia | exact Hc]|].
        constructor; [cbn; split; [lia | exact Hv]|].
        eapply Forall_impl; [exact Hall|]. cbn. intros p [? ?].
        split; [assumption|]. now apply (same_course_trans s v (snd p)).
      * intros fuel.
        replace (2 * S k + fuel) with (S (S (2 * k + fuel))) by lia.
        rewrite (invoke_round _ tick s). fold c v.
        assert (Hgo : _check_verification v = coding).
        { unfold _check_verification. rewrite Hinvalid. cbn.
          unfold max_retries. rewrite decide_False by lia. reflexivity. }
        rewrite Hgo, Hrun, prepend_prepend.
        now replace (S (S tick) + 2 * k) with (tick + 2 * S k) by lia.
Qed.

(** Under a validation that rejects every query, a round always ends
    invalid and costs one retry, whether the model produced a query or
    failed. *)
Lemma round_rejected (tick : nat) (s : GraphState Row) :
  error s = None ->
  (forall t q, exists why,
      validate_schema env t q
      = Returned {| valid := Some false; error_text := why |}) ->
  let v := _verify_node env (S tick) (_coding_node env tick s) in
  query_is_valid v = Some false /\ retries v = retries s + 1.
Proof.
  intros He Hrej v. subst v. unfold _coding_node, _verify_node.
  destruct (generate_query _ _ _ _ _) as [q|e]; cbn.
  - rewrite He. change (truthy None) with false. cbn.
    destruct (Hrej (S tick) (Some q)) as [why ->]. cbn. split; [reflexivity | lia].
  - rewrite truthy_prefixed. cbn. split; [reflexivity | lia].
Qed.

Lemma rejected_loop (budget : nat) :
  (forall t q, exists why,
      validate_schema env t q
      = Returned {| valid := Some false; error_text := why |}) ->
  forall (tick : nat) (s : GraphState Row),
    error s = None ->
    retries s + budget = max_retries ->
    1 <= budget ->
    exists (log : list (node * GraphState Row)) (s' : GraphState Row),
      visited log = rounds budget
      /\ same_course s s'
      /\ error s' = None
      /\ retries s' = max_retries
      /\ Forall (fun p => retries (snd p) <= max_retries) log
      /\ forall fuel,
          invoke_from env (2 * budget + fuel) coding tick s
          = prepend log
              (invoke_from env fuel execute (tick + 2 * budget) s').
Proof.
  intros Hrej.
  induction budget as [|b IH]; intros tick s He Hb Hpos; [lia|].
  destruct (round_cases tick s He) as (Hc & Hv & Hev & Hr & _).
  destruct (round_rejected tick s He Hrej) as [Hinvalid Hret].
  set (c := _coding_node env tick s) in *.
  set (v := _verify_node env (S tick) c) in *.
  unfold max_retries in *.
  destruct b as [|b'].
  - exists [(coding, c); (verify, v)], v.
    split; [reflexivity|]. split; [exact Hv|]. split; [exact Hev|].
    split; [lia|]. split.
    + constructor; [cbn; lia|]. constructor; [cbn; lia|]. constructor.
    + intros fuel. change (2 * 1 + fuel) with (S (S fuel)).
      rewrite (invoke_round fuel tick s). fold c v.
      assert (Hgo : _check_verification v = execute).
      { unfold _check_verification. rewrite Hinvalid. cbn.
        unfold max_retries. rewrite decide_True by lia. reflexivity. }
      rewrite Hgo. now replace (tick + 2 * 1) with (S (S tick)) by lia.
  - destruct (IH (S (S tick)) v Hev ltac:(lia) ltac:(lia))
      as (log & s' & Hvis & Hsc & Hes & Hrs & Hall & Hrun).
    exists ((coding, c) :: (verify, v) :: log), s'.
    split; [unfold visited in *; cbn [map fst]; now rewrite Hvis|].
    split; [now apply (same_course_trans s v s')|].
    split; [exact Hes|]. split; [exact Hrs|]. split.
    + constructor; [cbn; lia|]. constructor; [cbn; lia|]. exact Hall.
    + intros fuel.
      replace (2 * S (S b') + fuel) with (S (S (2 * S b' + fuel))) by lia.
      rewrite (invoke_round _ tick s). fold c v.
      assert (Hgo : _check_verification v = coding).
      { unfold _check_verification. rewrite Hinvalid. cbn.
        unfold max_retries. rewrite decide_False by lia. reflexivity. }
      rewrite Hgo, Hrun, prepend_prepend.
      now replace (S (S tick) + 2 * S b') with (tick + 2 * S (S b')) by lia.
Qed.

(** The nodes outside the loop. *)
Lemma supervisor_needs_query (tick : nat) (s : GraphState Row)
    (reply : string) :
  analyze_question (supervisor_agent env tick) (question s) (schema_info s)
  = Returned reply ->
  contains "NEED_QUERY" (upper env reply) = true ->
  _supervisor_node env tick s = set_retries 0 (set_needs_query (Some true) s).
Proof. intros Ha Hq. unfold _supervisor_node. now rewrite Ha, Hq. Qed.

Lemma supervisor_direct_answer (tick : nat) (s : GraphState Row)
    (reply : string) :
  analyze_question (supervisor_agent env tick) (question s) (schema_info s)
  = Returned reply ->
  contains "NEED_QUERY" (upper env reply) = false ->
  _supervisor_node env tick s
  = set_needs_query (Some false) (set_answer (Some reply) s).
Proof. intros Ha Hq. unfold _supervisor_node. now rewrite Ha, Hq. Qed.

Lemma dict_get_set (items : list (string * json)) (k : string) (v : json) :
  dict_get (dict_set items k v) k = Some v.
Proof.
  induction items as [|[k' w] items IH]; cbn.
  - now rewrite String.eqb_refl.
  - destruct (String.eqb k' k) eqn:E; cbn; rewrite E; [reflexivity | exact IH].
Qed.

Lemma detect_complexity_original (agent : Agent) (question schema : string)
    (items : list (string * json)) :
  detect_complexity (loads env) agent question schema = JObj items ->
  dict_get items "original_question" = Some (JStr question).
Proof.
  unfold detect_complexity, detect_complexity_try.
  destruct (llm agent _) as [reply|e].
  - destruct (loads env _) as [[| | | |l|its]|e]; cbn;
      intros H; inversion H; subst; try reflexivity.
    apply dict_get_set.
  - intros H. inversion H. reflexivity.
Qed.

Lemma execute_keeps (tick : nat) (s : GraphState Row) :
  let x := _execute_node env tick s in
  is_complex x = is_complex s
  /\ sub_questions x = sub_questions s
  /\ current_sub_question_index x = current_sub_question_index s
  /\ sub_results x = sub_results s
  /\ question x = question s
  /\ original_question x = original_question s
  /\ schema_info x = schema_info s
  /\ query x = query s
  /\ retries x = retries s
  /\ messages x = messages s.
Proof.
  cbn zeta. unfold _execute_node.
  destruct (truthy (error s)); [repeat split|].
  destruct (negb (truthy (query s))); [repeat split|].
  destruct (db_query env tick _); repeat split.
Qed.

Lemma synthesize_keeps (tick : nat) (s : GraphState Row) :
  let y := _synthesize_node env tick s in
  retries y = retries s /\ messages y = messages s /\ is_Some (answer y).
Proof.
  cbn zeta. unfold _synthesize_node.
  destruct (truthy (error s)); [repeat split; eauto|].
  destruct (synthesize_answer _ _ _ _ _ _); repeat split; eauto.
Qed.

Lemma expansion_simple (tick : nat) (s : GraphState Row)
    (items : list (string * json)) :
  detect_complexity (loads env) (supervisor_agent env tick) (question s)
    (schema_info s) = JObj items ->
  get_bool items "is_complex" false = Some false ->
  _expansion_node env tick s
  = Ok (set_original_question (Some (question s))
          (set_is_complex (Some false) s)).
Proof.
  intros Hd Hb. unfold _expansion_node. rewrite Hd, Hb.
  unfold get_str. now rewrite (detect_complexity_original _ _ _ _ Hd).
Qed.

(** C3: when the upper-cased reply of the analysis does not contain
    [NEED_QUERY], the run is the single step [supervisor]: the reply is
    stored as the answer and the graph ends; query generation,
    verification and execution do not run. *)
Theorem no_query_short_circuit (schema_manager : SchemaManager.Registry)
    (question reply : string) (fuel : nat) :
  let schema := SchemaManager.describe schema_manager in
  analyze_question (supervisor_agent env 0) question schema
  = Returned reply ->
  contains "NEED_QUERY" (upper env reply) = false ->
  1 <= fuel ->
  exists (s final : GraphState Row),
    run env fuel schema_manager question = ([(supervisor, s)], Finished final)
    /\ answer s = Some reply
    /\ answer final = Some reply
    /\ query final = None /\ results final = None
    /\ query_is_valid final = None
    /\ messages final
       = HumanMessage question
         :: (if truthy (Some reply) then [AIMessage reply] else [])
    /\ (coding ∉ visited [(supervisor, s)])
    /\ (verify ∉ visited [(supervisor, s)])
    /\ (execute ∉ visited [(supervisor, s)]).
Proof.
  intros schema Ha Hq Hfuel.
  destruct fuel as [|fuel]; [lia|].
  set (init := initial_state (Row := Row) question schema).
  set (s := set_needs_query (Some false) (set_answer (Some reply) init)).
  assert (Hs : _supervisor_node env 0 init = s)
    by (now apply supervisor_direct_answer).
  exists s, (if truthy (answer s) then
               set_messages
                 (messages s ++ [AIMessage (str_of_opt (answer s))])%list s
             else s).
  split.
  - unfold run. fold schema. fold init.
    rewrite (invoke_last fuel supervisor 0 init s); [reflexivity | | ].
    + cbn [run_node]. now rewrite Hs.
    + reflexivity.
  - cbn [answer s set_needs_query set_answer].
    destruct (truthy (Some reply)); cbn;
      repeat split; try reflexivity;
      intros Hin; apply list_elem_of_singleton in Hin; discriminate Hin.
Qed.

(** C1 (what the code does): when validation rejects every query of a
    simple question, the run generates a query three times (the first
    attempt and two regenerations), each followed by a verification, then
    executes and synthesizes; the retry counter never passes
    [max_retries = 3]. *)
Theorem retry_ceiling (schema_manager : SchemaManager.Registry)
    (question reply : string) (items : list (string * json)) (fuel : nat) :
  let schema := SchemaManager.describe schema_manager in
  analyze_question (supervisor_agent env 0) question schema
  = Returned reply ->
  contains "NEED_QUERY" (upper env reply) = true ->
  detect_complexity (loads env) (supervisor_agent env 1) question schema
  = JObj items ->
  get_bool items "is_complex" false = Some false ->
  (forall t q, exists why,
      validate_schema env t q
      = Returned {| valid := Some false; error_text := why |}) ->
  10 <= fuel ->
  exists (log : list (node * GraphState Row)) (final : GraphState Row),
    run env fuel schema_manager question = (log, Finished final)
    /\ visited log
       = [supervisor; expansion; coding; verify; coding; verify;
          coding; verify; execute; synthesize]
    /\ length (filter (fun n => n = coding) (visited log)) = 3
    /\ Forall (fun p => retries (snd p) <= max_retries) log
    /\ retries final = max_retries.
Proof.
  intros schema Ha Hq Hd Hb Hrej Hfuel.
  set (init := initial_state (Row := Row) question schema).
  set (s0 := set_retries 0 (set_needs_query (Some true) init)).
  set (s1 := set_original_question (Some question)
               (set_is_complex (Some false) s0)).
  destruct (rejected_loop 3 Hrej 2 s1 eq_refl eq_refl ltac:(lia))
    as (log & s' & Hvis & Hsc & Hes & Hrs & Hall & Hrun).
  set (x := _execute_node env 8 s').
  set (y := _synthesize_node env 9 x).
  destruct (execute_keeps 8 s') as (Hxc & _ & _ & _ & _ & _ & _ & _ & Hxr & _).
  destruct (synthesize_keeps 9 x) as (Hyr & Hym & Hya).
  fold x in Hxc, Hxr. fold y in Hyr, Hym, Hya.
  assert (Hcomplex : is_complex x = Some false).
  { rewrite Hxc. destruct Hsc as (_ & _ & _ & _ & _ & _ & _ & -> & _).
    reflexivity. }
  assert (Hinv :
    invoke_from env fuel supervisor 0 init
    = ((((supervisor, s0) :: (expansion, s1) :: log)
          ++ [(execute, x); (synthesize, y)])%list, Finished y)).
  { replace fuel with (S (S (2 * 3 + S (S (fuel - 10))))) by lia.
    rewrite (invoke_step _ supervisor expansion 0 init s0).
    2: { cbn [run_node]. now rewrite (supervisor_needs_query 0 init reply). }
    2: reflexivity.
    rewrite (invoke_step _ expansion coding 1 s0 s1).
    2: { cbn [run_node]. now rewrite (expansion_simple 1 s0 items). }
    2: reflexivity.
    rewrite Hrun.
    rewrite (invoke_step _ execute synthesize (2 + 2 * 3) s' x).
    2: reflexivity.
    2: { cbn [next_node]. now rewrite Hcomplex. }
    rewrite (invoke_last _ synthesize (S (2 + 2 * 3)) x y);
      [|reflexivity|reflexivity].
    unfold prepend. cbn [fst snd app]. reflexivity. }
  eexists _, _. split.
  - unfold run. fold schema. fold init. rewrite Hinv. reflexivity.
  - assert (Hv : visited (((supervisor, s0) :: (expansion, s1) :: log)
                            ++ [(execute, x); (synthesize, y)])%list
                 = [supervisor; expansion; coding; verify; coding; verify;
                    coding; verify; execute; synthesize]).
    { unfold visited in *. rewrite map_app. cbn [map fst].
      rewrite Hvis. reflexivity. }
    split; [exact Hv|]. split; [rewrite Hv; reflexivity|]. split.
    + apply Forall_app. split.
      * constructor; [cbn; unfold max_retries; lia|].
        constructor; [cbn; unfold max_retries; lia|]. exact Hall.
      * constructor; [cbn [snd]; lia|]. constructor; [cbn [snd]; lia|].
        constructor.
    + destruct (truthy (answer y)); cbn; lia.
Qed.

Lemma expansion_complex (tick : nat) (s : GraphState Row)
    (items : list (string * json)) (subs : list string) :
  detect_complexity (loads env) (supervisor_agent env tick) (question s)
    (schema_info s) = JObj items ->
  dict_get items "is_complex" = Some (JBool true) ->
  dict_get items "sub_questions" = Some (JArr (map JStr subs)) ->
  _expansion_node env tick s
  = Ok (set_sub_results (Some [])
          (set_current_sub_question_index 0
             (set_sub_questions (Some subs)
                (set_original_question (Some (question s))
                   (set_is_complex (Some true) s))))).
Proof.
  intros Hd Hc Hs. unfold _expansion_node. rewrite Hd.
  unfold get_bool, get_str, get_strs.
  rewrite Hc, Hs, (detect_complexity_original _ _ _ _ Hd).
  assert (Hm : mapM as_str (map JStr subs) = Some subs).
  { clear. apply mapM_Some_2.
    induction subs; cbn [map]; constructor; [reflexivity | assumption]. }
  now rewrite Hm.
Qed.

Lemma sub_question_step (s : GraphState Row) (subs : list string)
    (q : string) :
  sub_questions s = Some subs ->
  subs !! current_sub_question_index s = Some q ->
  exists p,
    _sub_question_node s = Ok p
    /\ fresh_sub_run q p
    /\ is_complex p = is_complex s
    /\ sub_questions p = sub_questions s
    /\ current_sub_question_index p = current_sub_question_index s
    /\ sub_results p = sub_results s
    /\ original_question p = original_question s
    /\ schema_info p = schema_info s.
Proof.
  intros Hs Hq. unfold _sub_question_node. rewrite Hs, Hq.
  eexists. split; [reflexivity|]. repeat split. exact Hs.
Qed.

Lemma collect_step (s : GraphState Row) (subs : list string) (q : string)
    (collected : list (SubResult Row)) :
  sub_questions s = Some subs ->
  subs !! current_sub_question_index s = Some q ->
  sub_results s = Some collected ->
  _collect_result_node s
  = Ok (set_current_sub_question_index (current_sub_question_index s + 1)
          (set_sub_results
             (Some (collected
                    ++ [{| sub_question := q;
                           sr_query := query s;
                           sr_results := results s |}])%list)
             s)).
Proof.
  intros Hs Hq Hc. unfold _collect_result_node. now rewrite Hs, Hq, Hc.
Qed.

Lemma aggregation_step (tick : nat) (s : GraphState Row)
    (sr : SubResult Row) (collected : list (SubResult Row)) :
  sub_results s = Some (sr :: collected) ->
  answer (_aggregation_node env tick s)
  = Some
      match aggregate_results (repr env) (supervisor_agent env tick)
              (original_question s) (sr :: collected) (schema_info s) with
      | Returned text => text
      | Raised e =>
          "I encountered an error while aggregating results: " +:+ exn_msg e
      end.
Proof.
  intros Hs. unfold _aggregation_node. rewrite Hs.
  now destruct (aggregate_results _ _ _ _ _).
Qed.

Lemma elem_of_rounds (n : node) (k : nat) :
  n ∈ rounds k -> n = coding \/ n = verify.
Proof.
  induction k as [|k IH]; cbn [rounds]; intros H.
  - inversion H.
  - apply elem_of_cons in H as [-> | H]; [now left|].
    apply elem_of_cons in H as [-> | H]; [now right | now apply IH].
Qed.

Lemma same_course_course (s s' : GraphState Row) :
  same_course s s' -> course s' = course s.
Proof.
  unfold same_course, course.
  intros (_ & _ & -> & -> & _ & _ & _ & -> & -> & -> & ->). reflexivity.
Qed.

Lemma execute_course (tick : nat) (s : GraphState Row) :
  course (_execute_node env tick s) = course s.
Proof.
  destruct (execute_keeps tick s)
    as (H1 & H2 & H3 & H4 & _ & H5 & H6 & _).
  unfold course. now rewrite H1, H2, H3, H4, H5, H6.
Qed.

Lemma course_fields (s : GraphState Row) a b c d e f :
  course s = (a, b, c, d, e, f) ->
  is_complex s = a /\ sub_questions s = b
  /\ current_sub_question_index s = c /\ sub_results s = d
  /\ original_question s = e /\ schema_info s = f.
Proof. unfold course. intros H. inversion H. repeat split. Qed.

(** C2: a question found complex with the two sub-questions [q1] and [q2]
    runs [sub_question], the generation and verification rounds,
    [execute] and [collect] once for [q1] and once for [q2], each
    sub-question starting from a state with the question set and query,
    results, verification flag and feedback, error and retry counter
    reset, and then [aggregation] once, over the two collected results;
    a question found simple runs the rounds, [execute] and [synthesize],
    which writes the answer, and neither [collect] nor [aggregation]. *)
Theorem decomposition_routing (schema_manager : SchemaManager.Registry)
    (question reply : string) (items : list (string * json)) (fuel : nat) :
  let schema := SchemaManager.describe schema_manager in
  analyze_question (supervisor_agent env 0) question schema
  = Returned reply ->
  contains "NEED_QUERY" (upper env reply) = true ->
  detect_complexity (loads env) (supervisor_agent env 1) question schema
  = JObj items ->
  21 <= fuel ->
  (forall q1 q2 : string,
      dict_get items "is_complex" = Some (JBool true) ->
      dict_get items "sub_questions" = Some (JArr [JStr q1; JStr q2]) ->
      exists (k1 k2 tick : nat) (s0 s1 p1 e1 c1 p2 e2 c2 a final
                                 : GraphState Row)
             (log1 log2 : list (node * GraphState Row)),
        let sr1 := {| sub_question := q1; sr_query := query e1;
                      sr_results := results e1 |} in
        let sr2 := {| sub_question := q2; sr_query := query e2;
                      sr_results := results e2 |} in
        let log :=
          ((supervisor, s0) :: (expansion, s1) :: (sub_question_node, p1)
           :: log1
           ++ (execute, e1) :: (collect, c1) :: (sub_question_node, p2)
           :: log2
           ++ [(execute, e2); (collect, c2); (aggregation, a)])%list in
        run env fuel schema_manager question = (log, Finished final)
        /\ 1 <= k1 <= 3 /\ 1 <= k2 <= 3
        /\ visited log1 = rounds k1 /\ visited log2 = rounds k2
        /\ visited log
           = ([supervisor; expansion; sub_question_node] ++ rounds k1
              ++ [execute; collect; sub_question_node] ++ rounds k2
              ++ [execute; collect; aggregation])%list
        /\ fresh_sub_run q1 p1 /\ fresh_sub_run q2 p2
        /\ Forall (fun p => Graph.question (snd p) = q1
                            /\ retries (snd p) <= max_retries) log1
        /\ Forall (fun p => Graph.question (snd p) = q2
                            /\ retries (snd p) <= max_retries) log2
        /\ Graph.question e1 = q1 /\ Graph.question e2 = q2
        /\ sub_results c2 = Some [sr1; sr2]
        /\ answer a
           = Some
               match aggregate_results (repr env) (supervisor_agent env tick)
                       (Some question) [sr1; sr2] schema with
               | Returned text => text
               | Raised e =>
                   "I encountered an error while aggregating results: "
                   +:+ exn_msg e
               end
        /\ answer final = answer a)
  /\ (get_bool items "is_complex" false = Some false ->
      exists (k : nat) (s0 s1 x y final : GraphState Row)
             (log1 : list (node * GraphState Row)),
        let log :=
          ((supervisor, s0) :: (expansion, s1)
           :: log1 ++ [(execute, x); (synthesize, y)])%list in
        run env fuel schema_manager question = (log, Finished final)
        /\ 1 <= k <= 3
        /\ visited log
           = ([supervisor; expansion] ++ rounds k
              ++ [execute; synthesize])%list
        /\ (collect ∉ visited log) /\ (aggregation ∉ visited log)
        /\ y = _synthesize_node env (3 + 2 * k) x
        /\ is_Some (answer y)
        /\ answer final = answer y).
Proof.
  intros schema Ha Hq Hd Hfuel.
  set (init := initial_state (Row := Row) question schema).
  set (s0 := set_retries 0 (set_needs_query (Some true) init)).
  assert (Hsup : run_node env supervisor 0 init = Ok s0).
  { cbn [run_node]. now rewrite (supervisor_needs_query 0 init reply). }
  split.
  - intros q1 q2 Hc Hs.
    set (s1 := set_sub_results (Some [])
                 (set_current_sub_question_index 0
                    (set_sub_questions (Some [q1; q2])
                       (set_original_question (Some question)
                          (set_is_complex (Some true) s0))))).
    assert (Hexp : run_node env expansion 1 s0 = Ok s1).
    { cbn [run_node].
      now rewrite (expansion_complex 1 s0 items [q1; q2] Hd Hc Hs). }
    (* first sub-question *)
    destruct (sub_question_step s1 [q1; q2] q1 eq_refl eq_refl)
      as (p1 & Hp1 & Hf1 & Hp1c).
    assert (Hcp1 : course p1
                   = (Some true, Some [q1; q2], 0, Some [], Some question,
                      schema)).
    { unfold course. destruct Hp1c as (-> & -> & -> & -> & -> & ->).
      reflexivity. }
    destruct (retry_loop 3 3 p1) as
      (k1 & log1 & v1 & Hk1 & Hvis1 & Hsc1 & _ & _ & Hall1 & Hrun1).
    { apply Hf1. } { destruct Hf1 as (_ & _ & _ & _ & _ & _ & ->). reflexivity. }
    { lia. }
    set (e1 := _execute_node env (3 + 2 * k1) v1).
    assert (Hce1 : course e1
                   = (Some true, Some [q1; q2], 0, Some [], Some question,
                      schema)).
    { unfold e1. now rewrite execute_course, (same_course_course _ _ Hsc1). }
    destruct (course_fields _ _ _ _ _ _ _ Hce1)
      as (Hi1 & Hq1 & Hx1 & Hr1 & Ho1 & Hm1).
    set (sr1 := {| sub_question := q1; sr_query := query e1;
                   sr_results := results e1 |}).
    set (c1 := set_current_sub_question_index 1
                 (set_sub_results (Some [sr1]) e1)).
    assert (Hcol1 : run_node env collect (S (3 + 2 * k1)) e1 = Ok c1).
    { cbn [run_node]. rewrite (collect_step e1 [q1; q2] q1 []); try assumption.
      - now rewrite Hx1.
      - now rewrite Hx1. }
    assert (Hmore1 : next_node collect c1 = Ok (Some sub_question_node)).
    { cbn [next_node]. unfold _has_more_sub_questions.
      change (sub_questions c1) with (sub_questions e1). now rewrite Hq1. }
    (* second sub-question *)
    destruct (sub_question_step c1 [q1; q2] q2) as (p2 & Hp2 & Hf2 & Hp2c).
    { change (sub_questions c1) with (sub_questions e1). exact Hq1. }
    { reflexivity. }
    assert (Hcp2 : course p2
                   = (Some true, Some [q1; q2], 1, Some [sr1], Some question,
                      schema)).
    { unfold course. destruct Hp2c as (-> & -> & -> & -> & -> & ->). cbn.
      now rewrite Hi1, Hq1, Ho1, Hm1. }
    destruct (retry_loop 3 (S (S (S (3 + 2 * k1)))) p2) as
      (k2 & log2 & v2 & Hk2 & Hvis2 & Hsc2 & _ & _ & Hall2 & Hrun2).
    { apply Hf2. } { destruct Hf2 as (_ & _ & _ & _ & _ & _ & ->). reflexivity. }
    { lia. }
    set (t2 := S (S (S (3 + 2 * k1))) + 2 * k2) in *.
    set (e2 := _execute_node env t2 v2).
    assert (Hce2 : course e2
                   = (Some true, Some [q1; q2], 1, Some [sr1], Some question,
                      schema)).
    { unfold e2. now rewrite execute_course, (same_course_course _ _ Hsc2). }
    destruct (course_fields _ _ _ _ _ _ _ Hce2)
      as (Hi2 & Hq2 & Hx2 & Hr2 & Ho2 & Hm2).
    set (sr2 := {| sub_question := q2; sr_query := query e2;
                   sr_results := results e2 |}).
    set (c2 := set_current_sub_question_index 2
                 (set_sub_results (Some [sr1; sr2]) e2)).
    assert (Hcol2 : run_node env collect (S t2) e2 = Ok c2).
    { cbn [run_node]. rewrite (collect_step e2 [q1; q2] q2 [sr1]);
        try assumption.
      - now rewrite Hx2.
      - now rewrite Hx2. }
    assert (Hmore2 : next_node collect c2 = Ok (Some aggregation)).
    { cbn [next_node]. unfold _has_more_sub_questions.
      change (sub_questions c2) with (sub_questions e2). now rewrite Hq2. }
    set (a := _aggregation_node env (S (S t2)) c2).
    exists k1, k2, (S (S t2)), s0, s1, p1, e1, c1, p2, e2, c2, a.
    exists (if truthy (answer a) then
              set_messages
                (messages a ++ [AIMessage (str_of_opt (answer a))])%list a
            else a), log1, log2.
    cbv zeta. fold sr1 sr2.
    split.
    { unfold run. fold schema. fold init.
      replace fuel with
        (S (S (S (2 * k1 + S (S (S (2 * k2 + S (S (S (fuel - 9 - 2 * k1 - 2 * k2)))))))))) by lia.
      rewrite (invoke_step _ supervisor expansion 0 init s0 Hsup eq_refl).
      rewrite (invoke_step _ expansion sub_question_node 1 s0 s1 Hexp eq_refl).
      rewrite (invoke_step _ sub_question_node coding 2 s1 p1 Hp1 eq_refl).
      rewrite Hrun1.
      rewrite (invoke_step _ execute collect (3 + 2 * k1) v1 e1 eq_refl).
      2: { cbn [next_node]. now rewrite Hi1. }
      rewrite (invoke_step _ collect sub_question_node _ e1 c1 Hcol1 Hmore1).
      rewrite (invoke_step _ sub_question_node coding _ c1 p2 Hp2 eq_refl).
      rewrite Hrun2. fold t2.
      rewrite (invoke_step _ execute collect t2 v2 e2 eq_refl).
      2: { cbn [next_node]. now rewrite Hi2. }
      rewrite (invoke_step _ collect aggregation _ e2 c2 Hcol2 Hmore2).
      rewrite (invoke_last _ aggregation (S (S t2)) c2 a eq_refl eq_refl).
      unfold prepend. cbn [fst snd app]. reflexivity. }
    split; [lia|]. split; [lia|]. split; [exact Hvis1|].
    split; [exact Hvis2|]. split.
    { unfold visited in *. cbn [map fst app]. rewrite map_app. cbn [map fst].
      rewrite map_app, Hvis1, Hvis2. reflexivity. }
    split; [exact Hf1|]. split; [exact Hf2|].
    split.
    { eapply Forall_impl; [exact Hall1|]. cbn. intros p [Hr Hsc].
      split; [|exact Hr]. destruct Hsc as (_ & -> & _). apply Hf1. }
    split.
    { eapply Forall_impl; [exact Hall2|]. cbn. intros p [Hr Hsc].
      split; [|exact Hr]. destruct Hsc as (_ & -> & _). apply Hf2. }
    split.
    { destruct (execute_keeps (3 + 2 * k1) v1) as (_ & _ & _ & _ & Hqe & _).
      fold e1 in Hqe. rewrite Hqe. destruct Hsc1 as (_ & -> & _). apply Hf1. }
    split.
    { destruct (execute_keeps t2 v2) as (_ & _ & _ & _ & Hqe & _).
      fold e2 in Hqe. rewrite Hqe. destruct Hsc2 as (_ & -> & _). apply Hf2. }
    split; [reflexivity|]. split.
    { unfold a. rewrite (aggregation_step _ c2 sr1 [sr2] eq_refl). cbn.
      now rewrite Ho2, Hm2. }
    destruct (truthy (answer a)); reflexivity.
  - intros Hb.
    set (s1 := set_original_question (Some question)
                 (set_is_complex (Some false) s0)).
    assert (Hexp : run_node env expansion 1 s0 = Ok s1).
    { cbn [run_node]. now rewrite (expansion_simple 1 s0 items). }
    destruct (retry_loop 3 2 s1 eq_refl eq_refl ltac:(lia))
      as (k & log1 & v & Hk & Hvis & Hsc & _ & _ & _ & Hrun).
    set (x := _execute_node env (2 + 2 * k) v).
    set (y := _synthesize_node env (S (2 + 2 * k)) x).
    assert (Hcx : is_complex x = Some false).
    { pose proof (execute_course (2 + 2 * k) v) as Hx. fold x in Hx.
      rewrite (same_course_course _ _ Hsc) in Hx.
      now destruct (course_fields _ _ _ _ _ _ _ Hx) as (-> & _). }
    exists k, s0, s1, x, y.
    exists (if truthy (answer y) then
              set_messages
                (messages y ++ [AIMessage (str_of_opt (answer y))])%list y
            else y), log1.
    cbv zeta.
    assert (Hv : visited ((supervisor, s0) :: (expansion, s1)
                          :: log1 ++ [(execute, x); (synthesize, y)])%list
                 = ([supervisor; expansion] ++ rounds k
                    ++ [execute; synthesize])%list).
    { unfold visited in *. cbn [map fst app]. rewrite map_app, Hvis.
      reflexivity. }
    split.
    { unfold run. fold schema. fold init.
      replace fuel with (S (S (2 * k + S (S (fuel - 4 - 2 * k))))) by lia.
      rewrite (invoke_step _ supervisor expansion 0 init s0 Hsup eq_refl).
      rewrite (invoke_step _ expansion coding 1 s0 s1 Hexp eq_refl).
      rewrite Hrun.
      rewrite (invoke_step _ execute synthesize (2 + 2 * k) v x eq_refl).
      2: { cbn [next_node]. now rewrite Hcx. }
      rewrite (invoke_last _ synthesize _ x y eq_refl eq_refl).
      unfold prepend. cbn [fst snd app]. reflexivity. }
    split; [lia|]. split; [exact Hv|]. split.
    { rewrite Hv. cbn [app]. intros Hin.
      apply elem_of_cons in Hin as [Hin | Hin]; [discriminate|].
      apply elem_of_cons in Hin as [Hin | Hin]; [discriminate|].
      apply elem_of_app in Hin as [Hin | Hin].
      - apply elem_of_rounds in Hin as [Hin | Hin]; discriminate.
      - apply elem_of_cons in Hin as [Hin | Hin]; [discriminate|].
        apply list_elem_of_singleton in Hin. discriminate. }
    split.
    { rewrite Hv. cbn [app]. intros Hin.
      apply elem_of_cons in Hin as [Hin | Hin]; [discriminate|].
      apply elem_of_cons in Hin as [Hin | Hin]; [discriminate|].
      apply elem_of_app in Hin as [Hin | Hin].
      - apply elem_of_rounds in Hin as [Hin | Hin]; discriminate.
      - apply elem_of_cons in Hin as [Hin | Hin]; [discriminate|].
        apply list_elem_of_singleton in Hin. discriminate. }
    split; [reflexivity|]. split.
    { apply (synthesize_keeps (S (2 + 2 * k)) x). }
    destruct (truthy (answer y)); reflexivity.
Qed.

End RetryLoop.

Lemma no_query_short_circuit_witness :
  exists s final,
    Graph.run Samples.env_greeting 25 Samples.travel "Hello there"
    = ([(Graph.supervisor, s)], Graph.Finished final)
    /\ Graph.answer final
       = Some "NO_QUERY - this is a greeting, no data is needed.".
Proof.
  destruct (no_query_short_circuit Samples.env_greeting Samples.travel
              "Hello there"
              "NO_QUERY - this is a greeting, no data is needed." 25)
    as (s & final & Hrun & _ & Hanswer & _).
  - vm_compute. reflexivity.
  - vm_compute. reflexivity.
  - lia.
  - exists s, final. split; [exact Hrun | exact Hanswer].
Defined.

Lemma retry_ceiling_witness :
  exists log final,
    Graph.run Samples.env_rejecting 25 Samples.travel
      "How many requests per trip form?"
    = (log, Graph.Finished final)
    /\ length (filter (fun n => n = Graph.coding) (Graph.visited log)) = 3
    /\ Graph.retries final = 3.
Proof.
  destruct (retry_ceiling Samples.env_rejecting Samples.travel
              "How many requests per trip form?"
              "NEED_QUERY - the question counts rows"
              [("is_complex", Json.JBool false);
               ("sub_questions", Json.JArr []);
               ("reasoning", Json.JStr "one metric");
               ("original_question",
                Json.JStr "How many requests per trip form?")] 25)
    as (log & final & Hrun & _ & Hcount & _ & Hretries).
  - vm_compute. reflexivity.
  - vm_compute. reflexivity.
  - vm_compute. reflexivity.
  - vm_compute. reflexivity.
  - intros t q. eexists. reflexivity.
  - lia.
  - exists log, final. split; [exact Hrun|]. split; [exact Hcount | exact Hretries].
Defined.

(** The run of the sample in full: three generations, three
    verifications, then execution, which fails, and the error as answer. *)
Example rejected_run :
  let (log, ending) :=
    Graph.run Samples.env_rejecting 25 Samples.travel
      "How many requests per trip form?" in
  Graph.visited log
  = [Graph.supervisor; Graph.expansion;
     Graph.coding; Graph.verify; Graph.coding; Graph.verify;
     Graph.coding; Graph.verify; Graph.execute; Graph.synthesize]
  /\ map (fun p => Graph.retries (snd p)) log = [0; 0; 0; 1; 1; 2; 2; 3; 3; 3]
  /\ match ending with
     | Graph.Finished final =>
         Graph.answer final
         = Some ("I encountered an error: Query execution error: "
                 +:+ "Binder Error: column request_id does not exist")
     | _ => False
     end.
Proof. vm_compute. repeat split. Qed.

Lemma decomposition_routing_witness :
  (exists k1 k2 log final,
      Graph.run Samples.env_decomposing 25 Samples.travel
        "volume and value per month"
      = (log, Graph.Finished final)
      /\ Graph.visited log
         = ([Graph.supervisor; Graph.expansion; Graph.sub_question_node]
            ++ Graph.rounds k1
            ++ [Graph.execute; Graph.collect; Graph.sub_question_node]
            ++ Graph.rounds k2
            ++ [Graph.execute; Graph.collect; Graph.aggregation])%list)
  /\ (exists k log final,
        Graph.run Samples.env_simple 25 Samples.travel "How many requests?"
        = (log, Graph.Finished final)
        /\ Graph.visited log
           = ([Graph.supervisor; Graph.expansion] ++ Graph.rounds k
              ++ [Graph.execute; Graph.synthesize])%list).
Proof.
  split.
  - destruct (decomposition_routing Samples.env_decomposing Samples.travel
                "volume and value per month"
                "need_query: two metrics are asked for"
                [("is_complex", Json.JBool true);
                 ("sub_questions",
                  Json.JArr [Json.JStr "volume per month";
                             Json.JStr "value per month"]);
                 ("reasoning", Json.JStr "two metrics, two queries");
                 ("original_question",
                  Json.JStr "volume and value per month")] 25)
      as [Hcomplex _].
    + vm_compute. reflexivity.
    + vm_compute. reflexivity.
    + vm_compute. reflexivity.
    + lia.
    + destruct (Hcomplex "volume per month" "value per month"
                  eq_refl eq_refl)
        as (k1 & k2 & tick & s0 & s1 & p1 & e1 & c1 & p2 & e2 & c2 & a
            & final & log1 & log2 & Hrun & _ & _ & _ & _ & Hvis & _).
      exists k1, k2. eexists _, final. split; [exact Hrun | exact Hvis].
  - destruct (decomposition_routing Samples.env_simple Samples.travel
                "How many requests?" "NEED_QUERY"
                [("is_complex", Json.JBool false);
                 ("sub_questions", Json.JArr []);
                 ("reasoning", Json.JStr "one metric");
                 ("original_question", Json.JStr "How many requests?")] 25)
      as [_ Hsimple].
    + vm_compute. reflexivity.
    + vm_compute. reflexivity.
    + vm_compute. reflexivity.
    + lia.
    + destruct (Hsimple eq_refl)
        as (k & s0 & s1 & x & y & final & log1 & Hrun & _ & Hvis & _).
      exists k. eexists _, final. split; [exact Hrun | exact Hvis].
Defined.

(** The decomposed run of the sample in full. *)
Example decomposed_run :
  let (log, ending) :=
    Graph.run Samples.env_decomposing 25 Samples.travel
      "volume and value per month" in
  Graph.visited log
  = [Graph.supervisor; Graph.expansion;
     Graph.sub_question_node; Graph.coding; Graph.verify; Graph.execute;
     Graph.collect;
     Graph.sub_question_node; Graph.coding; Graph.verify; Graph.execute;
     Graph.collect;
     Graph.aggregation]
  /\ match ending with
     | Graph.Finished final =>
         Graph.answer final
         = Some "Volume and value per month are as follows."
         /\ option_map (map Agents.sub_question) (Graph.sub_results final)
            = Some ["volume per month"; "value per month"]
     | _ => False
     end.
Proof. vm_compute. repeat split. Qed.

(** ** Strings: the facts about the built-ins that the properties below
    share *)

Section StringFacts.

Import Py.

Lemma append_cons (c : ascii) (a b : string) :
  String c a +:+ b = String c (a +:+ b).
Proof. reflexivity. Qed.

Lemma length_append (a b : string) :
  String.length (a +:+ b) = String.length a + String.length b.
Proof.
  induction a as [|c a IH]; [reflexivity|].
  rewrite append_cons. cbn. now rewrite IH.
Qed.

Lemma append_nil_r (a : string) : a +:+ "" = a.
Proof.
  induction a as [|c a IH]; [reflexivity|]. rewrite append_cons. now rewrite IH.
Qed.

Lemma append_assoc (a b c : string) : (a +:+ b) +:+ c = a +:+ (b +:+ c).
Proof.
  induction a as [|x a IH]; [reflexivity|].
  rewrite !append_cons. now rewrite IH.
Qed.

Lemma append_inv_tail (a b s : string) : a +:+ s = b +:+ s -> a = b.
Proof.
  revert b. induction a as [|c a IH]; intros [|d b] H.
  - reflexivity.
  - apply (f_equal String.length) in H. rewrite !length_append in H.
    cbn in H. lia.
  - apply (f_equal String.length) in H. rewrite !length_append in H.
    cbn in H. lia.
  - rewrite !append_cons in H. injection H as -> H. f_equal. now apply IH.
Qed.

Lemma startswith_app (p s t : string) :
  startswith p s = true -> startswith p (s +:+ t) = true.
Proof.
  revert s. induction p as [|a p IH]; intros [|b s] H; cbn in *;
    try reflexivity; try discriminate.
  apply andb_true_iff in H as [Hab H]. rewrite append_cons. cbn.
  rewrite Hab. now apply IH.
Qed.

Lemma startswith_split (p s : string) :
  startswith p s = true -> s = p +:+ slice_from (String.length p) s.
Proof.
  revert s. induction p as [|a p IH]; intros [|b s] H; cbn in *;
    try reflexivity; try discriminate.
  apply andb_true_iff in H as [Hab H].
  apply Ascii.eqb_eq in Hab as ->. rewrite append_cons. f_equal.
  now apply IH.
Qed.

Lemma startswith_self_app (p s : string) : startswith p (p +:+ s) = true.
Proof.
  induction p as [|a p IH]; [reflexivity|]. rewrite append_cons. cbn.
  now rewrite Ascii.eqb_refl, IH.
Qed.

Lemma slice_from_app (p s : string) :
  slice_from (String.length p) (p +:+ s) = s.
Proof.
  induction p as [|a p IH]; [now destruct s|]. rewrite append_cons. exact IH.
Qed.

(** The first occurrence of a separator, when there is none ... *)
Lemma partition_none (sep s : string) :
  contains sep s = false -> partition sep s = None.
Proof.
  induction s as [|c s IH]; cbn [contains partition]; intros H;
    apply orb_false_iff in H as [-> H]; [reflexivity|].
  now rewrite IH.
Qed.

(** ... and when there is one: the text before it holds no occurrence. *)
Lemma partition_some (sep s : string) :
  contains sep s = true ->
  exists a b, partition sep s = Some (a, b)
              /\ s = a +:+ sep +:+ b /\ contains sep a = startswith sep "".
Proof.
  induction s as [|c s IH]; cbn [contains partition]; intros H.
  - rewrite orb_false_r in H. rewrite H. exists "", (slice_from (String.length sep) "").
    split; [reflexivity|]. split; [|now destruct sep].
    now apply startswith_split.
  - destruct (startswith sep (String c s)) eqn:Hp.
    + exists "", (slice_from (String.length sep) (String c s)).
      split; [reflexivity|]. split; [now apply startswith_split|].
      now destruct sep.
    + cbn in H. destruct (IH H) as (a & b & -> & Hs & Ha).
      exists (String c a), b. split; [reflexivity|].
      split; [rewrite append_cons; now f_equal|].
      cbn [contains]. rewrite Ha.
      destruct (startswith sep (String c a)) eqn:Hq.
      * apply (startswith_app _ _ (sep +:+ b)) in Hq.
        rewrite append_cons, <- Hs in Hq. congruence.
      * destruct sep; [discriminate Hp | reflexivity].
Qed.

End StringFacts.

(** ** Thread keys and the thread cache ([src/memory.py]) *)

Section ThreadCache.

Import Py Memory.

(** X1: [parse_thread_id] on an arbitrary key.  A key that holds no
    separator is attributed to the user [unknown], the whole key being the
    thread; a key that holds one is cut at the first separator, so the two
    parts give the key back and the user part holds no separator. *)
Theorem parse_thread_id_cases (key : string) :
  let (user, thread) := parse_thread_id key in
  if contains "__" key
  then make_thread_id user thread = key /\ contains "__" user = false
  else (user, thread) = ("unknown", key).
Proof.
  unfold parse_thread_id, split1.
  destruct (contains "__" key) eqn:Hc.
  - destruct (partition_some "__" key Hc) as (a & b & -> & Hk & Ha).
    split; [now rewrite Hk | exact Ha].
  - now rewrite (partition_none "__" key Hc).
Qed.

(** X2: the promise of the key format.  Two users who pick the same thread
    name get different keys, and so different checkpoint configurations;
    two threads of one user get different keys as well. *)
Theorem thread_keys_separate (user1 user2 thread1 thread2 : string) :
  (user1 <> user2 ->
   make_thread_id user1 thread1 <> make_thread_id user2 thread1
   /\ get_config user1 thread1 <> get_config user2 thread1)
  /\ (thread1 <> thread2 ->
      make_thread_id user1 thread1 <> make_thread_id user1 thread2
      /\ get_config user1 thread1 <> get_config user1 thread2).
Proof.
  unfold get_config, make_thread_id. split.
  - intros Hne.
    assert (H : user1 +:+ "__" +:+ thread1 <> user2 +:+ "__" +:+ thread1).
    { intros H. apply Hne. now apply (append_inv_tail _ _ ("__" +:+ thread1)). }
    split; [exact H|]. intros Hc. apply H. now inversion Hc.
  - intros Hne.
    assert (H : user1 +:+ "__" +:+ thread1 <> user1 +:+ "__" +:+ thread2).
    { intros H. apply Hne. apply String.app_inj in H.
      now apply (String.app_inj "__") in H. }
    split; [exact H|]. intros Hc. apply H. now inversion Hc.
Qed.

Context {Time : Type}.

Lemma filter_thread_nil (thread : string) (l : list (ChatThread Time)) :
  filter (fun t => thread_id t = thread) l = [] <->
  thread ∉ map thread_id l.
Proof.
  induction l as [|t l IH]; cbn [map].
  - split; [intros _ H; inversion H | reflexivity].
  - rewrite filter_cons. destruct (decide (thread_id t = thread)) as [E|E].
    + split; [discriminate|]. intros H. exfalso. apply H. rewrite E. left.
    + rewrite IH, not_elem_of_cons.
      split; [intros H; split; [congruence | exact H] | now intros [_ ?]].
Qed.

Lemma register_thread_cache (now : Time)
    (cache : gmap string (list (ChatThread Time)))
    (user thread : string) (title : option string) :
  register_thread now cache user thread title
  = (if decide (thread ∈ map thread_id (list_user_threads cache user))
     then cache
     else <[user := (list_user_threads cache user
                     ++ [{| thread_id := thread; user_id := user;
                            created_at := now; title := title |}])%list]>
            cache,
     {| thread_id := thread; user_id := user; created_at := now;
        title := title |}).
Proof.
  unfold register_thread, list_user_threads.
  destruct (cache !! user) as [l|] eqn:Hl.
  - rewrite Hl. cbn [default from_option id].
    destruct (filter (fun t : ChatThread Time => thread_id t = thread) l)
      as [|t f] eqn:Hf.
    + apply filter_thread_nil in Hf. now rewrite decide_False.
    + rewrite decide_True; [reflexivity|]. apply dec_stable. intros Hn.
      apply filter_thread_nil in Hn. congruence.
  - rewrite lookup_insert_eq. cbn [default from_option id].
    rewrite filter_nil, insert_insert_eq.
    rewrite decide_False; [reflexivity|]. cbn. intros H. inversion H.
Qed.

(** X3: [register_thread] keeps one record per thread name.  After the
    call the user's list holds the thread name; the lists of the other
    users are as before; a list without repeated thread names stays so;
    and registering the same thread again, whatever the title, leaves the
    cache as it is: the record returned then carries the new title, the
    cache keeps the first one. *)
Theorem register_thread_once (now now' : Time)
    (cache : gmap string (list (ChatThread Time)))
    (user thread : string) (title title' : option string) :
  let cache' := fst (register_thread now cache user thread title) in
  thread ∈ map thread_id (list_user_threads cache' user)
  /\ (forall other, other <> user ->
        list_user_threads cache' other = list_user_threads cache other)
  /\ (NoDup (map thread_id (list_user_threads cache user)) ->
      NoDup (map thread_id (list_user_threads cache' user)))
  /\ register_thread now' cache' user thread title'
     = (cache',
        {| thread_id := thread; user_id := user; created_at := now';
           title := title' |}).
Proof.
  cbn zeta. rewrite (register_thread_cache now). cbn [fst].
  set (new := {| thread_id := thread; user_id := user; created_at := now;
                 title := title |}).
  assert (Hin : thread ∈ map thread_id
            (list_user_threads
               (if decide (thread ∈ map thread_id (list_user_threads cache user))
                then cache
                else <[user := (list_user_threads cache user ++ [new])%list]>
                       cache) user)).
  { destruct (decide _) as [H|H]; [exact H|].
    unfold list_user_threads at 1. rewrite lookup_insert_eq. cbn [default from_option id].
    rewrite map_app. apply elem_of_app. right. left. }
  split; [exact Hin|]. split; [|split].
  - intros other Hne. destruct (decide _); [reflexivity|].
    unfold list_user_threads at 1. now rewrite lookup_insert_ne.
  - intros Hnd. destruct (decide _) as [H|H]; [exact Hnd|].
    unfold list_user_threads at 1. rewrite lookup_insert_eq. cbn [default from_option id].
    rewrite map_app. apply NoDup_app. split; [exact Hnd|].
    split; [|apply NoDup_singleton].
    intros x Hx Hx'. apply list_elem_of_singleton in Hx'. now subst x.
  - rewrite (register_thread_cache now'). now rewrite decide_True.
Qed.

End ThreadCache.

Lemma thread_keys_separate_witness :
  "alice" <> "bob"
  /\ Memory.make_thread_id "alice" "main" <> Memory.make_thread_id "bob" "main"
  /\ Memory.get_config "alice" "main" <> Memory.get_config "bob" "main".
Proof.
  split; [discriminate|].
  apply (proj1 (thread_keys_separate "alice" "bob" "main" "main")).
  discriminate.
Defined.

Lemma register_thread_once_witness :
  let cache :=
    fst (Memory.register_thread 1 (∅ : gmap string (list (Memory.ChatThread nat)))
           "alice" "main" (Some "first")) in
  NoDup (map Memory.thread_id (Memory.list_user_threads cache "alice"))
  /\ Memory.register_thread 2 cache "alice" "main" (Some "second")
     = (cache,
        {| Memory.thread_id := "main"; Memory.user_id := "alice";
           Memory.created_at := 2; Memory.title := Some "second" |})
  /\ map Memory.title (Memory.list_user_threads cache "alice")
     = [Some "first"].
Proof.
  cbn zeta.
  destruct (register_thread_once 1 2 ∅ "alice" "main" (Some "first")
              (Some "second")) as (_ & _ & Hnd & Hagain).
  split; [apply Hnd; vm_compute; constructor|].
  split; [exact Hagain | vm_compute; reflexivity].
Defined.

(** ** The registry after [update] ([src/schema_manager.py]) *)

Section RegistryUpdate.

Import Py SchemaManager.

(** X4: [update] merges.  Two updates in a row amount to one update with
    the second mapping laid over the first, the shared columns being
    recomputed over all tables; after an update [get_columns] gives the new
    column list of a table of the mapping, the former list of any other
    table, and the empty list for a table the registry does not know. *)
Theorem update_merges (self : Registry)
    (tables1 tables2 : gmap string (list ColumnInfo)) :
  update (update self tables1) tables2 = update self (tables2 ∪ tables1)
  /\ (forall t,
        get_columns (update self tables1) t
        = match tables1 !! t with
          | Some cols => cols
          | None => get_columns self t
          end)
  /\ (forall t,
        tables1 !! t = None -> _schemas self !! t = None ->
        get_columns (update self tables1) t = []).
Proof.
  split; [|split].
  - unfold update. cbn [_schemas]. now rewrite (assoc_L (∪)).
  - intros t. unfold get_columns, update. cbn [_schemas].
    rewrite lookup_union. now destruct (tables1 !! t), (_schemas self !! t).
  - intros t H1 H2. unfold get_columns, update. cbn [_schemas].
    now rewrite lookup_union, H1, H2.
Qed.

Lemma count_all_columns (c : string) (entries : list (string * list ColumnInfo)) :
  length (filter (fun k => k = c)
            (concat (map (fun entry => map name (snd entry)) entries)))
  = sum_list_with (occurrences c) entries.
Proof.
  induction entries as [|e es IH]; [reflexivity|].
  cbn [map concat sum_list_with]. rewrite filter_app, length_app, IH.
  reflexivity.
Qed.

Lemma occurrences_pos (c : string) (entry : string * list ColumnInfo) :
  0 < occurrences c entry <-> c ∈ map name (snd entry).
Proof.
  unfold occurrences. induction (map name (snd entry)) as [|k l IH].
  - cbn. split; [lia | intros H; inversion H].
  - rewrite filter_cons. destruct (decide (k = c)) as [->|Hne].
    + cbn. split; [left | lia].
    + rewrite IH, elem_of_cons. split; [now right | intros [?|?]; congruence].
Qed.

Lemma occurrences_NoDup (c : string) (entry : string * list ColumnInfo) :
  NoDup (map name (snd entry)) -> occurrences c entry <= 1.
Proof.
  unfold occurrences. induction 1 as [|k l Hk Hnd IH]; [cbn; lia|].
  rewrite filter_cons. destruct (decide (k = c)) as [->|Hne]; [|exact IH].
  cbn. assert (H0 : ~ 0 < length (filter (fun k => k = c) l)); [|lia].
  intros Hpos. apply Hk. clear -Hpos.
  induction l as [|k l IH]; [cbn in Hpos; lia|].
  rewrite filter_cons in Hpos. destruct (decide (k = c)) as [->|Hne];
    [left | right; now apply IH].
Qed.

Lemma sum_occurrences_pos (c : string)
    (entries : list (string * list ColumnInfo)) :
  0 < sum_list_with (occurrences c) entries
  <-> exists e, e ∈ entries /\ c ∈ map name (snd e).
Proof.
  induction entries as [|e es IH]; cbn [sum_list_with].
  - split; [lia | intros (e & H & _); inversion H].
  - split.
    + intros H. destruct (decide (0 < occurrences c e)) as [He|He].
      * exists e. split; [left | now apply occurrences_pos].
      * destruct (proj1 IH ltac:(lia)) as (e' & Hin & Hc).
        exists e'. split; [now right | exact Hc].
    + intros (e' & Hin & Hc). apply elem_of_cons in Hin as [->|Hin].
      * apply occurrences_pos in Hc. lia.
      * assert (0 < sum_list_with (occurrences c) es); [|lia].
        apply IH. now exists e'.
Qed.

Lemma sum_occurrences_two (c : string)
    (entries : list (string * list ColumnInfo)) :
  (forall e1 e2, e1 ∈ entries -> e2 ∈ entries -> fst e1 <> fst e2 ->
     c ∈ map name (snd e1) -> c ∈ map name (snd e2) ->
     1 < sum_list_with (occurrences c) entries)
  /\ (Forall (fun e => NoDup (map name (snd e))) entries ->
      1 < sum_list_with (occurrences c) entries ->
      NoDup (map fst entries) ->
      exists e1 e2, e1 ∈ entries /\ e2 ∈ entries /\ fst e1 <> fst e2
                    /\ c ∈ map name (snd e1) /\ c ∈ map name (snd e2)).
Proof.
  induction entries as [|e es [IH1 IH2]]; cbn [sum_list_with].
  - split; [intros e1 e2 H; inversion H | lia].
  - split.
    + intros e1 e2 H1 H2 Hne Hc1 Hc2.
      apply elem_of_cons in H1 as [->|H1]; apply elem_of_cons in H2 as [->|H2].
      * congruence.
      * apply occurrences_pos in Hc1.
        assert (0 < sum_list_with (occurrences c) es); [|lia].
        apply sum_occurrences_pos. now exists e2.
      * apply occurrences_pos in Hc2.
        assert (0 < sum_list_with (occurrences c) es); [|lia].
        apply sum_occurrences_pos. now exists e1.
      * pose proof (IH1 e1 e2 H1 H2 Hne Hc1 Hc2). lia.
    + intros Hall Hsum Hnd. apply Forall_cons in Hall as [He Hall].
      apply NoDup_cons in Hnd as [Hk Hnd].
      pose proof (occurrences_NoDup c e He) as Hle.
      destruct (decide (1 < sum_list_with (occurrences c) es)) as [Hes|Hes].
      * destruct (IH2 Hall Hes Hnd) as (e1 & e2 & H1 & H2 & Hr).
        exists e1, e2. split; [now right|]. split; [now right | exact Hr].
      * assert (Hoe : 0 < occurrences c e) by lia.
        destruct (proj1 (sum_occurrences_pos c es) ltac:(lia))
          as (e' & Hin & Hc).
        exists e, e'. split; [left|]. split; [now right|].
        split; [|split; [now apply occurrences_pos | exact Hc]].
        intros Heq. apply Hk. rewrite Heq. now apply list_elem_of_fmap_2.
Qed.

Lemma has_column_entry (schemas : gmap string (list ColumnInfo))
    (t c : string) :
  has_column schemas t c
  <-> exists e, e ∈ map_to_list schemas /\ fst e = t /\ c ∈ map name (snd e).
Proof.
  unfold has_column. split.
  - intros (cols & col & Hl & Hin & Hn). exists (t, cols).
    split; [now apply elem_of_map_to_list|]. split; [reflexivity|].
    cbn. rewrite <- Hn. now apply list_elem_of_fmap_2.
  - intros ([t' cols] & Hin & Ht & Hc). cbn in Ht, Hc. subst t'.
    apply elem_of_map_to_list in Hin.
    apply list_elem_of_fmap in Hc as (col & -> & Hcol).
    now exists cols, col.
Qed.

(** A name occurs in two tables ... *)
Lemma shared_of_two_tables (schemas : gmap string (list ColumnInfo))
    (a b c : string) :
  a <> b -> has_column schemas a c -> has_column schemas b c ->
  c ∈ _detect_relationships schemas.
Proof.
  intros Hne Ha Hb. apply detect_relationships_spec.
  unfold all_column_names. rewrite count_all_columns.
  apply has_column_entry in Ha as (e1 & H1 & <- & Hc1).
  apply has_column_entry in Hb as (e2 & H2 & <- & Hc2).
  now apply (proj1 (sum_occurrences_two c (map_to_list schemas)) e1 e2).
Qed.

(** ... and, when no table repeats a column name, only then is it shared. *)
Lemma two_tables_of_shared (schemas : gmap string (list ColumnInfo))
    (c : string) :
  (forall t cols, schemas !! t = Some cols -> NoDup (map name cols)) ->
  c ∈ _detect_relationships schemas ->
  exists a b, a <> b /\ has_column schemas a c /\ has_column schemas b c.
Proof.
  intros Hnd Hc. apply detect_relationships_spec in Hc.
  unfold all_column_names in Hc. rewrite count_all_columns in Hc.
  destruct (proj2 (sum_occurrences_two c (map_to_list schemas)))
    as (e1 & e2 & H1 & H2 & Hne & Hc1 & Hc2).
  - apply Forall_forall. intros [t cols] Hin.
    apply elem_of_map_to_list in Hin. now apply (Hnd t).
  - exact Hc.
  - apply NoDup_fst_map_to_list.
  - exists (fst e1), (fst e2). split; [exact Hne|].
    split; apply has_column_entry; eauto.
Qed.

Lemma has_column_table (schemas : gmap string (list ColumnInfo))
    (t c : string) :
  has_column schemas t c -> is_Some (schemas !! t).
Proof. intros (cols & _ & -> & _). eauto. Qed.

Lemma str_lt_cases (a b : string) : a <> b -> str_lt a b \/ str_lt b a.
Proof.
  intros Hne. unfold str_lt.
  destruct (total String.le a b); [left | right]; split; congruence.
Qed.

(** X5: after [update] the tag and the relationship section agree.  Every
    column named in a line of the relationship section is in the
    shared-column set, so it is tagged wherever it occurs; and when no
    table repeats a column name, a column is in the shared-column set only
    if two different tables have it, and then a line of the relationship
    section names it. *)
Theorem shared_tag_matches_relationships (self : Registry)
    (tables : gmap string (list ColumnInfo)) (c : string) :
  let self' := update self tables in
  ((exists a b cs,
       (a, b, cs) ∈ linked_pairs (_schemas self') /\ c ∈ cs) ->
   c ∈ _shared_columns self')
  /\ ((forall t cols,
         _schemas self' !! t = Some cols -> NoDup (map name cols)) ->
      c ∈ _shared_columns self' ->
      (exists a b, a <> b /\ has_column (_schemas self') a c
                   /\ has_column (_schemas self') b c)
      /\ exists a b cs,
           (a, b, cs) ∈ linked_pairs (_schemas self') /\ c ∈ cs).
Proof.
  cbn zeta. unfold update. cbn [_schemas _shared_columns].
  set (merged := tables ∪ _schemas self). split.
  - intros (a & b & cs & Hin & Hc).
    apply elem_of_linked_pairs in Hin as (_ & _ & [_ Hne] & _ & ->).
    apply (common_columns_spec merged a b) in Hc as [Ha Hb].
    now apply (shared_of_two_tables merged a b).
  - intros Hnd Hc.
    destruct (two_tables_of_shared merged c Hnd Hc) as (a & b & Hne & Ha & Hb).
    split; [now exists a, b|].
    assert (Hpair : forall x y, str_lt x y -> has_column merged x c ->
                      has_column merged y c ->
                      exists a b cs, (a, b, cs) ∈ linked_pairs merged /\ c ∈ cs).
    { intros x y Hlt Hx Hy. exists x, y, (common_columns merged x y).
      assert (Hin : c ∈ common_columns merged x y)
        by now apply (common_columns_spec merged x y).
      split; [|exact Hin]. apply elem_of_linked_pairs.
      split; [now apply (has_column_table merged x c)|].
      split; [now apply (has_column_table merged y c)|].
      split; [exact Hlt|]. split; [|reflexivity].
      intros Hnil. rewrite Hnil in Hin. inversion Hin. }
    destruct (str_lt_cases a b Hne); eauto.
Qed.

End RegistryUpdate.

Lemma shared_tag_matches_relationships_witness :
  let self' := SchemaManager.update SchemaManager.init Samples.travel_tables in
  (forall t cols,
      SchemaManager._schemas self' !! t = Some cols ->
      NoDup (map SchemaManager.name cols))
  /\ "trip_form_id" ∈ SchemaManager._shared_columns self'
  /\ exists a b cs,
       (a, b, cs) ∈ SchemaManager.linked_pairs (SchemaManager._schemas self')
       /\ "trip_form_id" ∈ cs.
Proof.
  cbn zeta.
  assert (Hnd : forall t cols,
             SchemaManager._schemas
               (SchemaManager.update SchemaManager.init Samples.travel_tables)
             !! t = Some cols ->
             NoDup (map SchemaManager.name cols)).
  { intros t cols H. apply elem_of_map_to_list in H.
    assert (Hall :
      Forall (fun e => NoDup (map SchemaManager.name (snd e)))
        (map_to_list
           (SchemaManager._schemas
              (SchemaManager.update SchemaManager.init
                 Samples.travel_tables)))).
    { apply (bool_decide_unpack _). vm_compute. reflexivity. }
    rewrite Forall_forall in Hall. exact (Hall (t, cols) H). }
  split; [exact Hnd|].
  assert (Hin : "trip_form_id"
                ∈ SchemaManager._shared_columns
                    (SchemaManager.update SchemaManager.init
                       Samples.travel_tables)).
  { vm_compute. reflexivity. }
  split; [exact Hin|].
  apply (proj2 (shared_tag_matches_relationships SchemaManager.init
                  Samples.travel_tables "trip_form_id") Hnd Hin).
Defined.

Lemma update_merges_witness :
  (∅ : gmap string (list SchemaManager.ColumnInfo)) !! "orders" = None
  /\ SchemaManager._schemas SchemaManager.init !! "orders" = None
  /\ SchemaManager.get_columns
       (SchemaManager.update SchemaManager.init ∅) "orders" = [].
Proof.
  split; [reflexivity|]. split; [reflexivity|].
  apply (proj2 (proj2 (update_merges SchemaManager.init ∅ ∅))); reflexivity.
Defined.

(** ** Replies of the models ([src/agents.py]) *)

Section Replies.

Import Py Json Agents.

Lemma lstrip_idem (s : string) : lstrip (lstrip s) = lstrip s.
Proof.
  induction s as [|c s IH]; [reflexivity|]. cbn [lstrip].
  destruct (isspace c) eqn:E; [exact IH|]. cbn [lstrip]. now rewrite E.
Qed.

Lemma rstrip_cons (c : ascii) (s : string) :
  rstrip (String c s)
  = match rstrip s with
    | "" => if isspace c then "" else String c ""
    | r => String c r
    end.
Proof. reflexivity. Qed.

Lemma rstrip_idem (s : string) : rstrip (rstrip s) = rstrip s.
Proof.
  induction s as [|c s IH]; [reflexivity|]. rewrite rstrip_cons.
  destruct (rstrip s) as [|d r] eqn:E.
  - destruct (isspace c) eqn:Ec; [reflexivity|]. cbn. now rewrite Ec.
  - rewrite rstrip_cons, IH. reflexivity.
Qed.

Lemma lstrip_rstrip (s : string) : lstrip (rstrip s) = rstrip (lstrip s).
Proof.
  induction s as [|c s IH]; [reflexivity|].
  rewrite rstrip_cons. cbn [lstrip].
  destruct (isspace c) eqn:Ec.
  - rewrite <- IH. destruct (rstrip s) as [|d r]; [reflexivity|].
    cbn [lstrip]. now rewrite Ec.
  - rewrite rstrip_cons.
    destruct (rstrip s) as [|d r]; cbn [lstrip]; now rewrite Ec.
Qed.

Lemma strip_idem (s : string) : strip (strip s) = strip s.
Proof.
  unfold strip. rewrite (lstrip_rstrip (lstrip (rstrip s))).
  now rewrite lstrip_idem, <- lstrip_rstrip, rstrip_idem.
Qed.

(** Text that ends with a character that is no white space keeps it. *)
Lemma rstrip_app_keep (s t : string) :
  rstrip t = t -> t <> "" -> rstrip (s +:+ t) = s +:+ t.
Proof.
  intros Ht Hne. induction s as [|c s IH]; [exact Ht|].
  rewrite append_cons, rstrip_cons, IH.
  destruct (s +:+ t) eqn:E; [|reflexivity].
  destruct s; [change ("" +:+ t) with t in E; congruence | discriminate E].
Qed.

Lemma rstrip_app_space (s : string) (c : ascii) :
  isspace c = true -> rstrip (s +:+ String c "") = rstrip s.
Proof.
  intros Hc. induction s as [|d s IH].
  - change (rstrip (String c "") = ""). rewrite rstrip_cons. cbn [rstrip].
    now rewrite Hc.
  - rewrite append_cons, !rstrip_cons, IH. reflexivity.
Qed.

Lemma endswith_app (s t : string) : endswith t (s +:+ t) = true.
Proof.
  induction s as [|c s IH].
  - change ("" +:+ t) with t.
    destruct t; cbn [endswith]; now rewrite String.eqb_refl.
  - rewrite append_cons. cbn [endswith]. rewrite IH. apply orb_true_r.
Qed.

Lemma slice_to_app (s t : string) : slice_to (String.length s) (s +:+ t) = s.
Proof.
  induction s as [|c s IH]; [reflexivity|].
  rewrite append_cons. cbn. now rewrite IH.
Qed.

Lemma slice_to_neg_app (s t : string) :
  slice_to_neg (String.length t) (s +:+ t) = s.
Proof.
  unfold slice_to_neg. rewrite length_append.
  replace (String.length s + String.length t - String.length t)
    with (String.length s) by lia.
  apply slice_to_app.
Qed.

(** The body of a fenced reply, between the two line feeds. *)
Lemma strip_between_newlines (body : string) :
  strip (nl +:+ body +:+ nl) = strip body.
Proof.
  unfold strip. change (nl +:+ body +:+ nl) with (String "010" (body +:+ nl)).
  unfold nl. rewrite rstrip_cons, rstrip_app_space by reflexivity.
  destruct (rstrip body); reflexivity.
Qed.

(** What is left of a reply that is one fenced block: [open] is the
    opening fence with its language tag, [cut] what the code removes. *)
Lemma fenced_reply (tag body : string) :
  let reply := "```" +:+ tag +:+ nl +:+ body +:+ nl +:+ "```" in
  strip reply = reply
  /\ startswith ("```" +:+ tag) reply = true
  /\ slice_from (3 + String.length tag) reply = nl +:+ body +:+ nl +:+ "```"
  /\ startswith "```" (nl +:+ body +:+ nl +:+ "```") = false
  /\ endswith "```" (nl +:+ body +:+ nl +:+ "```") = true
  /\ slice_to_neg 3 (nl +:+ body +:+ nl +:+ "```") = nl +:+ body +:+ nl.
Proof.
  cbn zeta. split; [|split; [|split; [|split; [|split]]]].
  - unfold strip.
    replace ("```" +:+ tag +:+ nl +:+ body +:+ nl +:+ "```")
      with (("```" +:+ tag +:+ nl +:+ body +:+ nl) +:+ "```")
      by (now rewrite !append_assoc).
    rewrite rstrip_app_keep; [reflexivity | reflexivity | discriminate].
  - rewrite <- append_assoc. apply startswith_self_app.
  - rewrite <- (append_assoc "```" tag).
    change (3 + String.length tag) with (String.length "```" + String.length tag).
    rewrite <- length_append. apply slice_from_app.
  - reflexivity.
  - rewrite <- !append_assoc. apply endswith_app.
  - rewrite <- !append_assoc. apply (slice_to_neg_app _ "```").
Qed.

(** X6: a reply that is one fenced block, [```json] or plain [```] on the
    first line and [```] on the last, is cut down to the trimmed body
    before it reaches the JSON parser, in [verify_query] as well as (with
    the control characters blanked) in [detect_complexity]; a reply that,
    once trimmed, neither starts nor ends with a fence goes to the parser
    trimmed and otherwise untouched. *)
Theorem json_fence_removed (body reply : string) :
  verify_payload ("```json" +:+ nl +:+ body +:+ nl +:+ "```") = strip body
  /\ verify_payload ("```" +:+ nl +:+ body +:+ nl +:+ "```") = strip body
  /\ complexity_payload ("```json" +:+ nl +:+ body +:+ nl +:+ "```")
     = blank_controls (strip body)
  /\ (startswith "```" (strip reply) = false ->
      endswith "```" (strip reply) = false ->
      verify_payload reply = strip reply
      /\ complexity_payload reply = blank_controls (strip reply)).
Proof.
  assert (Hjson : strip_json_fence ("```json" +:+ nl +:+ body +:+ nl +:+ "```")
                  = nl +:+ body +:+ nl).
  { destruct (fenced_reply "json" body) as (H1 & H2 & H3 & H4 & H5 & H6).
    unfold strip_json_fence.
    change ("```" +:+ "json" +:+ nl +:+ body +:+ nl +:+ "```")
      with ("```json" +:+ nl +:+ body +:+ nl +:+ "```") in *.
    rewrite H1. change ("```" +:+ "json") with "```json" in H2.
    rewrite H2. change (3 + String.length "json") with 7 in H3.
    now rewrite H3, H4, H5, H6. }
  assert (Hplain : strip_json_fence ("```" +:+ nl +:+ body +:+ nl +:+ "```")
                   = nl +:+ body +:+ nl).
  { destruct (fenced_reply "" body) as (H1 & H2 & H3 & H4 & H5 & H6).
    unfold strip_json_fence.
    change ("```" +:+ "" +:+ nl +:+ body +:+ nl +:+ "```")
      with ("```" +:+ nl +:+ body +:+ nl +:+ "```") in *.
    rewrite H1. change ("```" +:+ "") with "```" in H2.
    assert (Hj : startswith "```json" ("```" +:+ nl +:+ body +:+ nl +:+ "```")
                 = false) by reflexivity.
    rewrite Hj, H2. change (3 + String.length "") with 3 in H3.
    now rewrite H3, H5, H6. }
  unfold verify_payload, complexity_payload.
  rewrite Hjson, Hplain, strip_between_newlines.
  split; [reflexivity|]. split; [reflexivity|]. split; [reflexivity|].
  intros Hs He.
  assert (Hf : strip_json_fence reply = strip reply).
  { unfold strip_json_fence.
    assert (Hj : startswith "```json" (strip reply) = false).
    { destruct (startswith "```json" (strip reply)) eqn:E; [|reflexivity].
      rewrite <- Hs. symmetry.
      apply startswith_split in E. rewrite E.
      change "```json" with ("```" +:+ "json"). rewrite append_assoc.
      apply startswith_self_app. }
    now rewrite Hj, Hs, He. }
  now rewrite Hf, strip_idem.
Qed.

(** X7: the query that [generate_query] returns is trimmed, whatever the
    model replied; and a reply that is one fenced block, [```sql] or plain
    [```] on the first line and [```] on the last, gives the trimmed
    body. *)
Theorem generated_query_clean (self : Agent) (question schema_info : string)
    (feedback previous_query : option string) :
  (forall query,
      generate_query self question schema_info feedback previous_query
      = Returned query ->
      strip query = query)
  /\ (forall tag body : string,
        tag = "sql" \/ tag = "" ->
        (forall messages,
            llm self messages
            = Returned ("```" +:+ tag +:+ nl +:+ body +:+ nl +:+ "```")) ->
        generate_query self question schema_info feedback previous_query
        = Returned (strip body)).
Proof.
  split.
  - unfold generate_query. intros query.
    destruct (llm self _) as [reply|e]; [|discriminate].
    intros H. injection H as <-. apply strip_idem.
  - intros tag body Htag Hreply. unfold generate_query.
    rewrite Hreply.
    destruct (fenced_reply tag body) as (H1 & H2 & H3 & H4 & H5 & H6).
    rewrite H1. f_equal.
    destruct Htag as [-> | ->].
    + change ("```" +:+ "sql") with "```sql" in H2.
      change (3 + String.length "sql") with 6 in H3.
      change ("```" +:+ "sql" +:+ nl +:+ body +:+ nl +:+ "```")
        with ("```sql" +:+ nl +:+ body +:+ nl +:+ "```") in *.
      rewrite H2, H3, H4, H5, H6. apply strip_between_newlines.
    + change ("```" +:+ "") with "```" in H2.
      change (3 + String.length "") with 3 in H3.
      change ("```" +:+ "" +:+ nl +:+ body +:+ nl +:+ "```")
        with ("```" +:+ nl +:+ body +:+ nl +:+ "```") in *.
      assert (Hj : startswith "```sql" ("```" +:+ nl +:+ body +:+ nl +:+ "```")
                   = false) by reflexivity.
      rewrite Hj, H2, H3, H5, H6. apply strip_between_newlines.
Qed.

(** X8: [detect_complexity] always returns a dict that carries the
    question under [original_question], whatever the model and the parser
    do: either the model's own dict with that entry set, or, as soon as the
    call, the parsing or the assignment fails (a reply that is JSON but not
    an object included), the fallback that declares the question simple. *)
Theorem detect_complexity_total (loads : string -> outcome json)
    (self : Agent) (question schema_info : string) :
  exists items,
    detect_complexity loads self question schema_info = JObj items
    /\ dict_get items "original_question" = Some (JStr question)
    /\ ((exists reply model_items,
            llm self [SystemMessage (system_prompt self);
                      HumanMessage (complexity_prompt question schema_info)]
            = Returned reply
            /\ loads (complexity_payload reply) = Returned (JObj model_items)
            /\ items = dict_set model_items "original_question" (JStr question))
        \/ (exists e,
              JObj items = complexity_fallback question e
              /\ dict_get items "is_complex" = Some (JBool false)
              /\ dict_get items "sub_questions" = Some (JArr []))).
Proof.
  unfold detect_complexity, detect_complexity_try.
  destruct (llm self _) as [reply|e] eqn:Hl.
  - destruct (loads (complexity_payload reply)) as [v|e] eqn:Hp.
    + destruct v as [| | | |l|model_items]; cbn [set_item].
      6: { eexists. split; [reflexivity|]. split; [apply dict_get_set|].
           left. now exists reply, model_items. }
      all: eexists; split; [reflexivity|]; split; [reflexivity|];
        right; eexists; repeat split.
    + eexists. split; [reflexivity|]. split; [reflexivity|].
      right. eexists. repeat split.
  - eexists. split; [reflexivity|]. split; [reflexivity|].
    right. eexists. repeat split.
Qed.

End Replies.

Lemma json_fence_removed_witness :
  Py.startswith "```" (Py.strip "  {}  ") = false
  /\ Py.endswith "```" (Py.strip "  {}  ") = false
  /\ Agents.verify_payload "  {}  " = "{}".
Proof.
  split; [reflexivity|]. split; [reflexivity|].
  destruct (json_fence_removed "" "  {}  ") as (_ & _ & _ & H).
  destruct (H eq_refl eq_refl) as [Hv _]. rewrite Hv. reflexivity.
Defined.

Lemma generated_query_clean_witness :
  Agents.generate_query
    (Samples.agent_replying
       ("```sql" +:+ Py.nl +:+ "SELECT 1 " +:+ Py.nl +:+ "```"))
    "How many?" "t (a (INT))" None None
  = Py.Returned "SELECT 1".
Proof.
  destruct (generated_query_clean
              (Samples.agent_replying
                 ("```sql" +:+ Py.nl +:+ "SELECT 1 " +:+ Py.nl +:+ "```"))
              "How many?" "t (a (INT))" None None) as [_ H].
  rewrite (H "sql" "SELECT 1 "); [reflexivity | now left | reflexivity].
Defined.

(** ** Every run of the workflow ([src/graph.py]) *)

Section GraphRuns.

Import Py Json Agents Graph.

Context {Row : Type} (env : Env Row).

#[local] Arguments generate_query : simpl never.
#[local] Arguments analyze_question : simpl never.
#[local] Arguments detect_complexity : simpl never.
#[local] Arguments synthesize_answer : simpl never.
#[local] Arguments aggregate_results : simpl never.
#[local] Arguments truthy : simpl never.

(** More steps than a run needs change nothing ... *)
Lemma invoke_from_mono (fuel : nat) :
  forall (fuel' : nat) (n : node) (tick : nat) (s : GraphState Row)
         (log : list (node * GraphState Row)) (e : ending),
    invoke_from env fuel n tick s = (log, e) ->
    e <> OutOfSteps -> fuel <= fuel' ->
    invoke_from env fuel' n tick s = (log, e).
Proof.
  induction fuel as [|fuel IH]; intros fuel' n tick s log e H Hne Hle.
  - cbn in H. inversion H; subst. congruence.
  - destruct fuel' as [|fuel']; [lia|]. cbn [invoke_from] in *.
    destruct (run_node env n tick s) as [s'| |]; try exact H.
    destruct (next_node n s') as [[n'|]| |]; try exact H.
    destruct (invoke_from env fuel n' (S tick) s') as [l1 e1] eqn:E.
    inversion H; subst.
    now rewrite (IH fuel' n' (S tick) s' l1 e E Hne ltac:(lia)).
Qed.

(** ... and fewer steps give the beginning of the same log. *)
Lemma invoke_from_prefix (fuel : nat) :
  forall (fuel' : nat) (n : node) (tick : nat) (s : GraphState Row),
    fuel <= fuel' ->
    fst (invoke_from env fuel n tick s)
    `prefix_of` fst (invoke_from env fuel' n tick s).
Proof.
  induction fuel as [|fuel IH]; intros fuel' n tick s Hle.
  - apply prefix_nil.
  - destruct fuel' as [|fuel']; [lia|]. cbn [invoke_from].
    destruct (run_node env n tick s) as [s'| |]; try reflexivity.
    destruct (next_node n s') as [[n'|]| |]; try reflexivity.
    specialize (IH fuel' n' (S tick) s' ltac:(lia)).
    destruct (invoke_from env fuel n' (S tick) s') as [l1 e1].
    destruct (invoke_from env fuel' n' (S tick) s') as [l2 e2].
    cbn [fst] in *. now apply prefix_cons.
Qed.

(** A run that ends took no more steps than it was allowed ... *)
Lemma invoke_from_length (fuel : nat) :
  forall (n : node) (tick : nat) (s : GraphState Row)
         (log : list (node * GraphState Row)) (e : ending),
    invoke_from env fuel n tick s = (log, e) ->
    e <> OutOfSteps -> length log <= fuel.
Proof.
  induction fuel as [|fuel IH]; intros n tick s log e H Hne.
  - cbn in H. inversion H; subst. congruence.
  - cbn [invoke_from] in H.
    destruct (run_node env n tick s) as [s'| |];
      try (inversion H; subst; cbn; lia).
    destruct (next_node n s') as [[n'|]| |];
      try (inversion H; subst; cbn; lia).
    destruct (invoke_from env fuel n' (S tick) s') as [l1 e1] eqn:E.
    inversion H; subst. cbn [length].
    specialize (IH n' (S tick) s' l1 e E Hne). lia.
Qed.

(** ... so a run that needs more steps than it is allowed is cut. *)
Lemma invoke_from_cut (fuel : nat) (n : node) (tick : nat)
    (s : GraphState Row) (log : list (node * GraphState Row))
    (final : GraphState Row) :
  invoke_from env (length log) n tick s = (log, Finished final) ->
  fuel < length log ->
  snd (invoke_from env fuel n tick s) = OutOfSteps.
Proof.
  intros Hrun Hlt.
  destruct (invoke_from env fuel n tick s) as [l e] eqn:E.
  assert (Hcase : e = OutOfSteps \/ e <> OutOfSteps)
    by (destruct e; [right | right | right | left]; congruence).
  destruct Hcase as [He|He]; [exact He|].
  pose proof (invoke_from_length fuel n tick s l e E He) as Hlen.
  pose proof (invoke_from_mono fuel (length log) n tick s l e E He
                ltac:(lia)) as Hbig.
  rewrite Hrun in Hbig. injection Hbig as <- _. lia.
Qed.

Lemma invoke_untyped (fuel : nat) (n : node) (tick : nat)
    (s : GraphState Row) :
  run_node env n tick s = Untyped ->
  invoke_from env (S fuel) n tick s = ([], IllTyped).
Proof. intros H. cbn [invoke_from]. now rewrite H. Qed.

Lemma length_rounds (k : nat) : length (rounds k) = 2 * k.
Proof. induction k as [|k IH]; cbn [rounds length]; lia. Qed.

Lemma length_visited (log : list (node * GraphState Row)) :
  length (visited log) = length log.
Proof. apply length_map. Qed.

Lemma steady_refl (s : GraphState Row) :
  retries s <= max_retries -> steady s s.
Proof. intros H. repeat split. exact H. Qed.

Lemma steady_trans (s1 s2 s3 : GraphState Row) :
  steady s1 s2 -> steady s2 s3 -> steady s1 s3.
Proof.
  unfold steady. intros (_ & H1 & H2 & H3) (H4 & H5 & H6 & H7).
  repeat split; congruence.
Qed.

Lemma steady_of_same_course (s s' : GraphState Row) :
  same_course s s' -> retries s' <= max_retries -> steady s s'.
Proof.
  intros (Hm & _ & Ho & Hs & _) Hr. repeat split; assumption.
Qed.

(** What [expansion] can do to the state. *)
Lemma expansion_cases (tick : nat) (s : GraphState Row) :
  _expansion_node env tick s = Untyped
  \/ _expansion_node env tick s
     = Ok (set_original_question (Some (question s))
             (set_is_complex (Some false) s))
  \/ exists subs,
       _expansion_node env tick s
       = Ok (set_sub_results (Some [])
               (set_current_sub_question_index 0
                  (set_sub_questions (Some subs)
                     (set_original_question (Some (question s))
                        (set_is_complex (Some true) s))))).
Proof.
  unfold _expansion_node.
  destruct (detect_complexity _ _ _ _) as [| | | | |items] eqn:Hd;
    try (now left).
  unfold get_str. rewrite (detect_complexity_original env _ _ _ _ Hd).
  destruct (get_bool items "is_complex" false) as [[|]|]; [| |now left].
  - destruct (get_strs items "sub_questions") as [subs|]; [|now left].
    right. right. now exists subs.
  - right. now left.
Qed.

(** On a result of the declared types [expansion] stays within the types
    of the state. *)
Lemma expansion_typed (tick : nat) (s : GraphState Row) :
  declared_types
    (detect_complexity (loads env) (supervisor_agent env tick) (question s)
       (schema_info s)) = true ->
  _expansion_node env tick s <> Untyped.
Proof.
  unfold declared_types, _expansion_node.
  destruct (detect_complexity _ _ _ _) as [| | | | |items] eqn:Hd;
    try discriminate.
  unfold get_str. rewrite (detect_complexity_original env _ _ _ _ Hd).
  destruct (get_bool items "is_complex" false) as [[|]|]; try discriminate.
  destruct (get_strs items "sub_questions"); discriminate.
Qed.

Lemma executed_app (l1 l2 : list (node * GraphState Row)) :
  executed (l1 ++ l2) = (executed l1 ++ executed l2)%list.
Proof.
  induction l1 as [|[n s] l1 IH]; [reflexivity|]. cbn [app executed].
  destruct (decide (n = execute)); [cbn [app]; now rewrite IH | exact IH].
Qed.

Lemma executed_rounds (k : nat) :
  forall log : list (node * GraphState Row),
    visited log = rounds k -> executed log = [].
Proof.
  induction k as [|k IH]; intros log H.
  - now destruct log.
  - destruct log as [|[n1 s1] [|[n2 s2] log]]; try discriminate H.
    cbn in H. injection H as -> -> H. cbn [executed].
    rewrite decide_False by discriminate.
    rewrite decide_False by discriminate. now apply IH.
Qed.

(** The rounds of generation and verification, then [execute]. *)
Lemma query_phase (tick : nat) (s : GraphState Row) :
  error s = None -> retries s = 0 ->
  exists (k : nat) (log : list (node * GraphState Row))
         (v x : GraphState Row),
    1 <= k <= 3
    /\ visited log = (rounds k ++ [execute])%list
    /\ length log = 2 * k + 1
    /\ x = _execute_node env (tick + 2 * k) v
    /\ error v = None
    /\ same_course s v
    /\ course x = course s
    /\ question x = question s
    /\ steady s x
    /\ Forall (fun p => steady s (snd p) /\ question (snd p) = question s) log
    /\ executed log = [x]
    /\ forall fuel,
         invoke_from env (2 * k + 1 + fuel) coding tick s
         = prepend log
             (invoke_from env fuel
                (if default false (is_complex s) then collect else synthesize)
                (tick + 2 * k + 1) x).
Proof.
  intros He Hr.
  destruct (retry_loop env 3 tick s He ltac:(now rewrite Hr) ltac:(lia))
    as (k & logr & v & Hk & Hvis & Hsc & Hev & Hrv & Hall & Hrun).
  set (x := _execute_node env (tick + 2 * k) v).
  destruct (execute_keeps env (tick + 2 * k) v)
    as (Hxi & _ & _ & _ & Hxq & Hxo & Hxs & _ & Hxr & Hxm).
  fold x in Hxi, Hxq, Hxo, Hxs, Hxr, Hxm.
  pose proof Hsc as (Hvm & Hvq & Hvo & Hvs & _ & _ & _ & Hvi & _).
  assert (Hstx : steady s x).
  { repeat split; [lia | congruence | congruence | congruence]. }
  exists k, (logr ++ [(execute, x)])%list, v, x.
  split; [exact Hk|]. split.
  { unfold visited in *. now rewrite map_app, Hvis. }
  split.
  { rewrite length_app, <- (length_visited logr), Hvis, length_rounds.
    cbn. lia. }
  split; [reflexivity|]. split; [exact Hev|]. split; [exact Hsc|]. split.
  { unfold x. now rewrite execute_course, (same_course_course _ _ Hsc). }
  split; [congruence|]. split; [exact Hstx|]. split.
  { apply Forall_app. split.
    - eapply Forall_impl; [exact Hall|]. cbn. intros p [Hp Hpc].
      split; [now apply steady_of_same_course|]. now destruct Hpc as (_ & ? & _).
    - constructor; [|constructor]. cbn [snd]. split; [exact Hstx | congruence]. }
  split.
  { rewrite executed_app, (executed_rounds k logr Hvis). cbn [executed app].
    now rewrite decide_True. }
  intros fuel. replace (2 * k + 1 + fuel) with (2 * k + S fuel) by lia.
  rewrite Hrun.
  rewrite (invoke_step env fuel execute
             (if default false (is_complex s) then collect else synthesize)
             (tick + 2 * k) v x eq_refl).
  2: { cbn [next_node]. now rewrite Hxi, Hvi. }
  rewrite prepend_prepend.
  now replace (S (tick + 2 * k)) with (tick + 2 * k + 1) by lia.
Qed.

Lemma synthesize_steady (tick : nat) (s : GraphState Row) :
  let y := _synthesize_node env tick s in
  retries y = retries s /\ messages y = messages s
  /\ original_question y = original_question s
  /\ schema_info y = schema_info s
  /\ sub_questions y = sub_questions s
  /\ is_Some (answer y).
Proof.
  cbn zeta. unfold _synthesize_node.
  destruct (truthy (error s)); [repeat split; eauto|].
  destruct (synthesize_answer _ _ _ _ _ _); repeat split; eauto.
Qed.

Lemma aggregation_steady (tick : nat) (s : GraphState Row) :
  let a := _aggregation_node env tick s in
  retries a = retries s /\ messages a = messages s
  /\ original_question a = original_question s
  /\ schema_info a = schema_info s
  /\ sub_questions a = sub_questions s
  /\ sub_results a = sub_results s
  /\ is_complex a = is_complex s
  /\ is_Some (answer a).
Proof.
  cbn zeta. unfold _aggregation_node.
  destruct (sub_results s) as [[|sr l]|] eqn:E;
    [repeat split; cbn; eauto| |repeat split; cbn; eauto].
  match goal with
  | |- context [aggregate_results ?a ?b ?c ?d ?e] =>
      destruct (aggregate_results a b c d e)
  end; repeat split; cbn; eauto.
Qed.

(** A question found simple: the rounds, [execute], [synthesize]. *)
Lemma simple_path (tick : nat) (s : GraphState Row) :
  error s = None -> retries s = 0 -> default false (is_complex s) = false ->
  exists (k : nat) (log : list (node * GraphState Row))
         (v x y : GraphState Row),
    1 <= k <= 3
    /\ visited log = (rounds k ++ [execute; synthesize])%list
    /\ length log = 2 * k + 2
    /\ error v = None /\ same_course s v
    /\ x = _execute_node env (tick + 2 * k) v
    /\ y = _synthesize_node env (tick + 2 * k + 1) x
    /\ steady s y /\ sub_questions y = sub_questions s
    /\ is_Some (answer y)
    /\ Forall (fun p => steady s (snd p)) log
    /\ forall fuel,
         invoke_from env (2 * k + 2 + fuel) coding tick s = (log, Finished y).
Proof.
  intros He Hr Hc.
  destruct (query_phase tick s He Hr)
    as (k & log & v & x & Hk & Hvis & Hlen & Hx & Hev & Hsc & Hcx & _ & Hstx
        & Hall & _ & Hrun).
  rewrite Hc in Hrun.
  set (y := _synthesize_node env (tick + 2 * k + 1) x).
  destruct (synthesize_steady (tick + 2 * k + 1) x)
    as (Hyr & Hym & Hyo & Hys & Hyq & Hya).
  fold y in Hyr, Hym, Hyo, Hys, Hyq, Hya.
  assert (Hsty : steady s y).
  { destruct Hstx as (? & ? & ? & ?). repeat split; [lia | congruence..]. }
  exists k, (log ++ [(synthesize, y)])%list, v, x, y.
  split; [exact Hk|]. split.
  { unfold visited in *. rewrite map_app, Hvis, <- app_assoc. reflexivity. }
  split; [rewrite length_app, Hlen; cbn; lia|].
  split; [exact Hev|]. split; [exact Hsc|]. split; [exact Hx|].
  split; [reflexivity|]. split; [exact Hsty|]. split.
  { rewrite Hyq.
    destruct (course_fields _ _ _ _ _ _ _ Hcx) as (_ & -> & _). reflexivity. }
  split; [exact Hya|]. split.
  { apply Forall_app. split.
    - eapply Forall_impl; [exact Hall|]. now intros p [? _].
    - constructor; [exact Hsty | constructor]. }
  intros fuel. replace (2 * k + 2 + fuel) with (2 * k + 1 + S fuel) by lia.
  rewrite Hrun.
  rewrite (invoke_last env fuel synthesize _ x y eq_refl eq_refl).
  reflexivity.
Qed.

(** A question found complex with an empty list of sub-questions: the
    rounds and [execute] on the question itself, then [collect], which has
    nothing to record, and [aggregation], which has nothing to report. *)
Lemma empty_path (tick : nat) (s : GraphState Row) :
  error s = None -> retries s = 0 ->
  is_complex s = Some true -> sub_questions s = Some [] ->
  sub_results s = Some [] ->
  exists (k : nat) (log : list (node * GraphState Row))
         (x a : GraphState Row),
    1 <= k <= 3
    /\ visited log = (rounds k ++ [execute; collect; aggregation])%list
    /\ length log = 2 * k + 3
    /\ question x = question s
    /\ a = set_answer (Some "No results to aggregate.") x
    /\ steady s a /\ sub_questions a = Some [] /\ sub_results a = Some []
    /\ Forall (fun p => steady s (snd p)) log
    /\ forall fuel,
         invoke_from env (2 * k + 3 + fuel) coding tick s = (log, Finished a).
Proof.
  intros He Hr Hc Hq Hres.
  destruct (query_phase tick s He Hr)
    as (k & log & v & x & Hk & Hvis & Hlen & Hx & Hev & Hsc & Hcx & Hxq & Hstx
        & Hall & _ & Hrun).
  rewrite Hc in Hrun. cbn [default from_option id] in Hrun.
  destruct (course_fields _ _ _ _ _ _ _ Hcx)
    as (Hxi & Hxs & Hxn & Hxr & Hxo & Hxm).
  set (a := set_answer (Some "No results to aggregate.") x).
  assert (Hcol : run_node env collect (tick + 2 * k + 1) x = Ok x).
  { cbn [run_node]. unfold _collect_result_node. rewrite Hxs, Hq.
    now rewrite lookup_nil. }
  assert (Hmore : next_node collect x = Ok (Some aggregation)).
  { cbn [next_node]. unfold _has_more_sub_questions. rewrite Hxs, Hq.
    rewrite decide_False by (cbn; lia). reflexivity. }
  assert (Hagg : run_node env aggregation (S (tick + 2 * k + 1)) x = Ok a).
  { cbn [run_node]. unfold _aggregation_node. now rewrite Hxr, Hres. }
  assert (Hsta : steady s a) by exact Hstx.
  exists k, (log ++ [(collect, x); (aggregation, a)])%list, x, a.
  split; [exact Hk|]. split.
  { unfold visited in *. rewrite map_app, Hvis, <- app_assoc. reflexivity. }
  split; [rewrite length_app, Hlen; cbn; lia|].
  split; [exact Hxq|]. split; [reflexivity|]. split; [exact Hsta|].
  split; [cbn; now rewrite Hxs|]. split; [cbn; now rewrite Hxr|]. split.
  { apply Forall_app. split.
    - eapply Forall_impl; [exact Hall|]. now intros p [? _].
    - constructor; [exact Hstx|]. constructor; [exact Hsta | constructor]. }
  intros fuel. replace (2 * k + 3 + fuel) with (2 * k + 1 + S (S fuel)) by lia.
  rewrite Hrun.
  rewrite (invoke_step env _ collect aggregation _ x x Hcol Hmore).
  rewrite (invoke_last env fuel aggregation _ x a Hagg eq_refl).
  reflexivity.
Qed.

(** One sub-question: [sub_question], the rounds, [execute], [collect]. *)
Lemma sub_cycle (tick : nat) (s : GraphState Row) (subs : list string)
    (q : string) (done : list (SubResult Row)) :
  is_complex s = Some true ->
  sub_questions s = Some subs ->
  subs !! current_sub_question_index s = Some q ->
  sub_results s = Some done ->
  retries s <= max_retries ->
  exists (k : nat) (log : list (node * GraphState Row))
         (c : GraphState Row) (sr : SubResult Row),
    1 <= k <= 3
    /\ visited log = (sub_question_node :: rounds k ++ [execute; collect])%list
    /\ length log = 2 * k + 3
    /\ (exists x : GraphState Row,
          executed log = [x]
          /\ question x = q
          /\ sr = {| sub_question := q; sr_query := query x;
                     sr_results := results x |})
    /\ is_complex c = Some true
    /\ sub_questions c = Some subs
    /\ current_sub_question_index c = current_sub_question_index s + 1
    /\ sub_results c = Some (done ++ [sr])%list
    /\ steady s c
    /\ Forall (fun p => steady s (snd p)) log
    /\ forall fuel,
         invoke_from env (2 * k + 3 + fuel) sub_question_node tick s
         = prepend log
             (invoke_from env fuel
                (if decide (current_sub_question_index s + 1 < length subs)
                 then sub_question_node else aggregation)
                (tick + 2 * k + 3) c).
Proof.
  intros Hi Hq Hx Hd Hret.
  set (p := set_retries 0
              (set_error None
                 (set_query_feedback None
                    (set_query_is_valid None
                       (set_results None
                          (set_query None (set_question q s))))))).
  assert (Hp : run_node env sub_question_node tick s = Ok p).
  { cbn [run_node]. unfold _sub_question_node. now rewrite Hq, Hx. }
  assert (Hstp : steady s p).
  { repeat split. cbn. unfold max_retries. lia. }
  destruct (query_phase (S tick) p eq_refl eq_refl)
    as (k & log & v & x & Hk & Hvis & Hlen & Hxe & Hev & Hsc & Hcx & Hxq & Hstx
        & Hall & Hex & Hrun).
  change (is_complex p) with (is_complex s) in Hrun. rewrite Hi in Hrun.
  cbn [default from_option id] in Hrun.
  destruct (course_fields _ _ _ _ _ _ _ Hcx)
    as (Hxi & Hxs & Hxn & Hxr & Hxo & Hxm).
  cbn in Hxi, Hxs, Hxn, Hxr, Hxo, Hxm.
  set (sr := {| sub_question := q; sr_query := query x;
                sr_results := results x |}).
  set (c := set_current_sub_question_index
              (current_sub_question_index x + 1)
              (set_sub_results (Some (done ++ [sr])%list) x)).
  assert (Hcol : run_node env collect (S tick + 2 * k + 1) x = Ok c).
  { cbn [run_node]. rewrite (collect_step x subs q done); [reflexivity|..].
    - congruence.
    - now rewrite Hxn.
    - congruence. }
  assert (Hmore :
    next_node collect c
    = Ok (Some (if decide (current_sub_question_index s + 1 < length subs)
                then sub_question_node else aggregation))).
  { cbn [next_node]. unfold _has_more_sub_questions.
    change (sub_questions c) with (sub_questions x). rewrite Hxs, Hq.
    change (current_sub_question_index c)
      with (current_sub_question_index x + 1). rewrite Hxn.
    now destruct (decide _). }
  assert (Hstc : steady s c).
  { apply (steady_trans s p c Hstp). exact Hstx. }
  exists k, ((sub_question_node, p) :: log ++ [(collect, c)])%list, c, sr.
  split; [exact Hk|]. split.
  { unfold visited in *. cbn [map fst]. rewrite map_app, Hvis, <- app_assoc.
    reflexivity. }
  split; [cbn [length]; rewrite length_app, Hlen; cbn; lia|].
  split.
  { exists x. split; [|split; [exact Hxq | reflexivity]].
    cbn [executed]. rewrite decide_False by discriminate.
    rewrite executed_app, Hex. cbn [executed app].
    now rewrite decide_False by discriminate. }
  split; [cbn; congruence|].
  split; [cbn; congruence|]. split; [cbn; congruence|].
  split; [reflexivity|]. split; [exact Hstc|]. split.
  { constructor; [exact Hstp|]. apply Forall_app. split.
    - eapply Forall_impl; [exact Hall|]. intros e [He _].
      now apply (steady_trans s p).
    - constructor; [exact Hstc | constructor]. }
  intros fuel.
  replace (2 * k + 3 + fuel) with (S (2 * k + 1 + S fuel)) by lia.
  rewrite (invoke_step env _ sub_question_node coding tick s p Hp eq_refl).
  rewrite Hrun.
  rewrite (invoke_step env fuel collect _ _ x c Hcol Hmore).
  rewrite !prepend_prepend.
  replace (S (S tick + 2 * k + 1)) with (tick + 2 * k + 3) by lia.
  cbn [app]. reflexivity.
Qed.

Lemma length_cycles (ks : list nat) :
  Forall (fun k => 1 <= k <= 3) ks -> length (cycles ks) <= 9 * length ks.
Proof.
  induction 1 as [|k ks Hk _ IH]; [cbn; lia|].
  cbn [cycles length]. rewrite !length_app, length_rounds. cbn [length]. lia.
Qed.

(** The sub-questions that are left, one after the other, and then
    [aggregation] over all the collected results. *)
Lemma sub_loop (m : nat) :
  forall (tick : nat) (s : GraphState Row) (subs : list string)
         (done : list (SubResult Row)),
    is_complex s = Some true ->
    sub_questions s = Some subs ->
    sub_results s = Some done ->
    current_sub_question_index s + m = length subs ->
    1 <= m ->
    retries s <= max_retries ->
    exists (ks : list nat) (log : list (node * GraphState Row))
           (a : GraphState Row) (srs : list (SubResult Row)) (tick' : nat),
      length ks = m
      /\ Forall (fun k => 1 <= k <= 3) ks
      /\ visited log = (cycles ks ++ [aggregation])%list
      /\ (map sub_question srs = drop (current_sub_question_index s) subs
          /\ map question (executed log)
             = drop (current_sub_question_index s) subs
          /\ srs
             = zip_with
                 (fun q x => {| sub_question := q; sr_query := query x;
                                sr_results := results x |})
                 (drop (current_sub_question_index s) subs) (executed log))
      /\ sub_results a = Some (done ++ srs)%list
      /\ sub_questions a = Some subs
      /\ answer a
         = Some
             match aggregate_results (repr env) (supervisor_agent env tick')
                     (original_question s) (done ++ srs)%list
                     (schema_info s) with
             | Returned text => text
             | Raised e =>
                 "I encountered an error while aggregating results: "
                 +:+ exn_msg e
             end
      /\ steady s a
      /\ Forall (fun p => steady s (snd p)) log
      /\ forall fuel,
           invoke_from env (length log + fuel) sub_question_node tick s
           = (log, Finished a).
Proof.
  induction m as [|m IH]; intros tick s subs done Hi Hq Hd Hm Hpos Hret;
    [lia|].
  destruct (lookup_lt_is_Some_2 subs (current_sub_question_index s)
              ltac:(lia)) as [q Hx].
  destruct (sub_cycle tick s subs q done Hi Hq Hx Hd Hret)
    as (k & log & c & sr & Hk & Hvis & Hlen & (x & Hex & Hxq & Hsr) & Hci
        & Hcq & Hcn & Hcr & Hstc & Hall & Hrun).
  pose proof Hstc as (Hcret & Hcm & Hco & Hcs).
  destruct m as [|m'].
  - (* the last sub-question *)
    rewrite decide_False in Hrun by lia.
    set (a := _aggregation_node env (tick + 2 * k + 3) c).
    destruct (aggregation_steady (tick + 2 * k + 3) c)
      as (Har & Ham & Hao & Has & Haq & Hares & Hai & Haa).
    fold a in Har, Ham, Hao, Has, Haq, Hares, Hai, Haa.
    assert (Hsta : steady s a).
    { repeat split; [lia | congruence..]. }
    exists [k], (log ++ [(aggregation, a)])%list, a, [sr], (tick + 2 * k + 3).
    split; [reflexivity|]. split; [now constructor|]. split.
    { unfold visited in *. rewrite map_app, Hvis. cbn [cycles map fst app].
      rewrite <- !app_assoc. reflexivity. }
    split.
    { rewrite executed_app, Hex, (drop_S _ _ _ Hx), drop_ge by lia.
      cbn [executed app]. rewrite decide_False by discriminate.
      cbn [map zip_with]. rewrite Hsr, Hxq. now cbn. }
    split; [congruence|]. split; [congruence|]. split.
    { destruct (done ++ [sr])%list as [|sr0 rest] eqn:E.
      - now destruct done.
      - unfold a. rewrite (aggregation_step env _ c sr0 rest Hcr).
        now rewrite Hco, Hcs. }
    split; [exact Hsta|]. split.
    { apply Forall_app. split; [exact Hall|].
      constructor; [exact Hsta | constructor]. }
    intros fuel. rewrite length_app, Hlen. cbn [length].
    replace (2 * k + 3 + 1 + fuel) with (2 * k + 3 + S fuel) by lia.
    rewrite Hrun.
    rewrite (invoke_last env fuel aggregation _ c a eq_refl eq_refl).
    reflexivity.
  - (* more sub-questions follow *)
    rewrite decide_True in Hrun by lia.
    destruct (IH (tick + 2 * k + 3) c subs (done ++ [sr])%list Hci Hcq Hcr
                ltac:(lia) ltac:(lia) Hcret)
      as (ks & log' & a & srs & tick' & Hks & Hkall & Hvis'
          & (Hmap & Hmq & Hzip) & Hres & Hsq & Hans & Hsta & Hall' & Hrun').
    exists (k :: ks), (log ++ log')%list, a, (sr :: srs), tick'.
    split; [cbn; lia|]. split; [now constructor|]. split.
    { unfold visited in *. rewrite map_app, Hvis, Hvis'. cbn [cycles app].
      rewrite <- !app_assoc. reflexivity. }
    split.
    { rewrite Hcn in Hmap, Hmq, Hzip.
      replace (current_sub_question_index s + 1)
        with (S (current_sub_question_index s)) in Hmap, Hmq, Hzip by lia.
      rewrite executed_app, Hex, (drop_S _ _ _ Hx). cbn [app map zip_with].
      rewrite Hmap, Hmq, Hxq, <- Hzip, Hsr. now cbn. }
    split; [now rewrite Hres, <- app_assoc|].
    split; [exact Hsq|]. split.
    { rewrite Hans, Hco, Hcs, <- app_assoc. reflexivity. }
    split; [now apply (steady_trans s c a)|]. split.
    { apply Forall_app. split; [exact Hall|].
      eapply Forall_impl; [exact Hall'|]. intros e He.
      now apply (steady_trans s c). }
    intros fuel. rewrite length_app, Hlen, <- Nat.add_assoc, Hrun, Hrun'.
    reflexivity.
Qed.

(** The shape of every run from the initial state, when the result of
    [detect_complexity] has the declared types. *)
Lemma run_shape (schema question : string) :
  let init := initial_state (Row := Row) question schema in
  declared_types
    (detect_complexity (loads env) (supervisor_agent env 1) question schema)
  = true ->
  exists (log : list (node * GraphState Row)) (final : GraphState Row),
    (forall fuel, length log <= fuel ->
       invoke_from env fuel supervisor 0 init = (log, Finished final))
    /\ Forall (fun p => steady init (snd p)) log
    /\ steady init final
    /\ length log
       <= 3 + 9 * Nat.max 1 (length (default [] (sub_questions final)))
    /\ (is_Some (answer final)
        \/ (exists msg, error final = Some ("Supervisor error: " +:+ msg))
           /\ answer final = None /\ visited log = [supervisor]).
Proof.
  intros init Htyped.
  destruct (analyze_question (supervisor_agent env 0) question schema)
    as [reply|ex] eqn:Ha.
  - destruct (contains "NEED_QUERY" (upper env reply)) eqn:Hq.
    + set (s0 := set_retries 0 (set_needs_query (Some true) init)).
      assert (Hsup : run_node env supervisor 0 init = Ok s0).
      { cbn [run_node]. now rewrite (supervisor_needs_query env 0 init reply). }
      assert (Hst0 : steady init s0).
      { repeat split. cbn. unfold max_retries. lia. }
      destruct (expansion_cases 1 s0) as [Hu | [Hs | [subs Hc]]].
      * (* excluded: the result has the declared types *)
        exfalso. exact (expansion_typed 1 s0 Htyped Hu).
      * (* a simple question *)
        set (s1 := set_original_question (Some (Graph.question s0))
                     (set_is_complex (Some false) s0)) in *.
        assert (Hst1 : steady init s1).
        { repeat split. cbn. unfold max_retries. lia. }
        destruct (simple_path 2 s1 eq_refl eq_refl eq_refl)
          as (k & log & v & x & y & Hk & Hvis & Hlen & _ & _ & _ & _ & Hsty
              & Hyq & Hya & Hall & Hrun).
        exists ((supervisor, s0) :: (expansion, s1) :: log), y.
        split; [|split; [|split; [|split]]].
        -- intros fuel Hf. cbn [length] in Hf. rewrite Hlen in Hf.
           replace fuel with (S (S (2 * k + 2 + (fuel - 2 * k - 4))))
             by lia.
           rewrite (invoke_step env _ supervisor expansion 0 init s0 Hsup
                      eq_refl).
           rewrite (invoke_step env _ expansion coding 1 s0 s1 Hs eq_refl).
           now rewrite Hrun.
        -- constructor; [exact Hst0|]. constructor; [exact Hst1|].
           eapply Forall_impl; [exact Hall|]. intros e He.
           now apply (steady_trans init s1).
        -- now apply (steady_trans init s1).
        -- cbn [length]. rewrite Hlen. lia.
        -- now left.
      * (* a question found complex *)
        set (s1 := set_sub_results (Some [])
                     (set_current_sub_question_index 0
                        (set_sub_questions (Some subs)
                           (set_original_question (Some (Graph.question s0))
                              (set_is_complex (Some true) s0))))) in *.
        assert (Hst1 : steady init s1).
        { repeat split. cbn. unfold max_retries. lia. }
        destruct subs as [|q rest].
        -- destruct (empty_path 2 s1 eq_refl eq_refl eq_refl eq_refl eq_refl)
             as (k & log & x & a & Hk & Hvis & Hlen & _ & Ha' & Hsta & Haq
                 & _ & Hall & Hrun).
           exists ((supervisor, s0) :: (expansion, s1) :: log), a.
           split; [|split; [|split; [|split]]].
           ++ intros fuel Hf. cbn [length] in Hf. rewrite Hlen in Hf.
              replace fuel with (S (S (2 * k + 3 + (fuel - 2 * k - 5))))
                by lia.
              rewrite (invoke_step env _ supervisor expansion 0 init s0 Hsup
                         eq_refl).
              rewrite (invoke_step env _ expansion coding 1 s0 s1 Hc eq_refl).
              now rewrite Hrun.
           ++ constructor; [exact Hst0|]. constructor; [exact Hst1|].
              eapply Forall_impl; [exact Hall|]. intros e He.
              now apply (steady_trans init s1).
           ++ now apply (steady_trans init s1).
           ++ cbn [length]. rewrite Hlen. lia.
           ++ left. rewrite Ha'. cbn. eauto.
        -- destruct (sub_loop (length (q :: rest)) 2 s1 (q :: rest) []
                       eq_refl eq_refl eq_refl eq_refl
                       ltac:(cbn; lia) ltac:(cbn; unfold max_retries; lia))
             as (ks & log & a & srs & tick' & Hks & Hkall & Hvis & _ & _
                 & Haq & Hans & Hsta & Hall & Hrun).
           exists ((supervisor, s0) :: (expansion, s1) :: log), a.
           split; [|split; [|split; [|split]]].
           ++ intros fuel Hf. cbn [length] in Hf.
              replace fuel with (S (S (length log + (fuel - length log - 2))))
                by lia.
              rewrite (invoke_step env _ supervisor expansion 0 init s0 Hsup
                         eq_refl).
              rewrite (invoke_step env _ expansion sub_question_node 1 s0 s1
                         Hc eq_refl).
              now rewrite Hrun.
           ++ constructor; [exact Hst0|]. constructor; [exact Hst1|].
              eapply Forall_impl; [exact Hall|]. intros e He.
              now apply (steady_trans init s1).
           ++ now apply (steady_trans init s1).
           ++ rewrite Haq. cbn [default from_option id length].
              rewrite <- (length_visited log), Hvis, length_app.
              pose proof (length_cycles ks Hkall) as Hl.
              rewrite Hks in Hl. cbn [length] in Hl |- *. lia.
           ++ left. rewrite Hans. eauto.
    + (* the model answers without a query *)
      set (s0 := set_needs_query (Some false) (set_answer (Some reply) init)).
      assert (Hsup : run_node env supervisor 0 init = Ok s0).
      { cbn [run_node]. now rewrite (supervisor_direct_answer env 0 init reply). }
      exists [(supervisor, s0)], s0.
      split; [|split; [|split; [|split]]].
      * intros fuel Hf. destruct fuel as [|fuel]; [cbn in Hf; lia|].
        now rewrite (invoke_last env fuel supervisor 0 init s0 Hsup eq_refl).
      * constructor; [|constructor]. repeat split. cbn. unfold max_retries. lia.
      * repeat split. cbn. unfold max_retries. lia.
      * cbn. lia.
      * left. cbn. eauto.
  - (* the analysis fails *)
    set (s0 := set_needs_query (Some false)
                 (set_error (Some ("Supervisor error: " +:+ exn_msg ex)) init)).
    assert (Hsup : run_node env supervisor 0 init = Ok s0).
    { cbn [run_node]. unfold _supervisor_node.
      change (Graph.question init) with question.
      change (schema_info init) with schema. now rewrite Ha. }
    exists [(supervisor, s0)], s0.
    split; [|split; [|split; [|split]]].
    + intros fuel Hf. destruct fuel as [|fuel]; [cbn in Hf; lia|].
      now rewrite (invoke_last env fuel supervisor 0 init s0 Hsup eq_refl).
    + constructor; [|constructor]. repeat split. cbn. unfold max_retries. lia.
    + repeat split. cbn. unfold max_retries. lia.
    + cbn. lia.
    + right. split; [now exists (exn_msg ex)|]. now split.
Qed.

(** What [run] adds to the state the graph ends in. *)
Lemma run_of_invoke (fuel : nat) (schema_manager : SchemaManager.Registry)
    (question : string) (log : list (node * GraphState Row))
    (final : GraphState Row) :
  invoke_from env fuel supervisor 0
    (initial_state question (SchemaManager.describe schema_manager))
  = (log, Finished final) ->
  run env fuel schema_manager question
  = (log,
     Finished
       (if truthy (answer final) then
          set_messages
            (messages final ++ [AIMessage (str_of_opt (answer final))])%list
            final
        else final)).
Proof. intros H. unfold run. now rewrite H. Qed.

Lemma run_cut (fuel : nat) (schema_manager : SchemaManager.Registry)
    (question : string) (log : list (node * GraphState Row))
    (final : GraphState Row) :
  invoke_from env (length log) supervisor 0
    (initial_state question (SchemaManager.describe schema_manager))
  = (log, Finished final) ->
  fuel < length log ->
  snd (run env fuel schema_manager question) = OutOfSteps.
Proof.
  intros H Hlt. pose proof (invoke_from_cut fuel _ _ _ _ _ H Hlt) as Hcut.
  unfold run.
  destruct (invoke_from env fuel supervisor 0 _) as [l e].
  cbn [snd] in Hcut. now rewrite Hcut.
Qed.

(** X9: a run over a complexity result of the declared types comes to its
    end in order.  Whatever the two models, the validation and the
    database do, no exception escapes a node and the retry loop cannot go
    on for ever: the run is a fixed sequence of steps, at most
    [3 + 9 * max 1 n] of them for [n] sub-questions, and it finishes
    exactly when the graph library allows that many steps; with a lower
    step limit it is cut short.  A run without decomposition, or with at
    most two sub-questions, finishes within 21 steps. *)
Theorem run_always_ends (schema_manager : SchemaManager.Registry)
    (question : string) :
  declared_types
    (detect_complexity (loads env) (supervisor_agent env 1) question
       (SchemaManager.describe schema_manager)) = true ->
  exists (log : list (node * GraphState Row)) (final : GraphState Row),
    (forall fuel, length log <= fuel ->
       run env fuel schema_manager question = (log, Finished final))
    /\ (forall fuel, fuel < length log ->
          snd (run env fuel schema_manager question) = OutOfSteps)
    /\ length log
       <= 3 + 9 * Nat.max 1 (length (default [] (sub_questions final)))
    /\ (length (default [] (sub_questions final)) <= 2 ->
        forall fuel, 21 <= fuel ->
          run env fuel schema_manager question = (log, Finished final)).
Proof.
  intros Htyped.
  destruct (run_shape (SchemaManager.describe schema_manager) question Htyped)
    as (log & final & Hrun & _ & _ & Hlen & _).
  set (final' := if truthy (answer final) then
                   set_messages
                     (messages final
                      ++ [AIMessage (str_of_opt (answer final))])%list final
                 else final).
  assert (Hsub : sub_questions final' = sub_questions final)
    by (unfold final'; now destruct (truthy (answer final))).
  assert (Hfin : forall fuel, length log <= fuel ->
                   run env fuel schema_manager question
                   = (log, Finished final')).
  { intros fuel Hf. now apply run_of_invoke, Hrun. }
  exists log, final'. split; [exact Hfin|]. split; [|split].
  - intros fuel Hf. apply (run_cut fuel _ _ log final); [|exact Hf].
    now apply Hrun.
  - now rewrite Hsub.
  - rewrite Hsub. intros Hn fuel Hf. apply Hfin. lia.
Qed.

(** X10: what holds at every step of a run over a complexity result of the
    declared types, however many steps the graph library allows: the
    retry counter is at most [max_retries], the original question is the
    user's question (also after a decomposition), and the schema text is
    the one computed when the run started. *)
Theorem run_invariants (schema_manager : SchemaManager.Registry)
    (question : string) (fuel : nat) :
  declared_types
    (detect_complexity (loads env) (supervisor_agent env 1) question
       (SchemaManager.describe schema_manager)) = true ->
  Forall (fun p => retries (snd p) <= max_retries
                   /\ original_question (snd p) = Some question
                   /\ schema_info (snd p)
                      = SchemaManager.describe schema_manager)
    (fst (run env fuel schema_manager question)).
Proof.
  intros Htyped.
  destruct (run_shape (SchemaManager.describe schema_manager) question Htyped)
    as (log & final & Hrun & Hall & _).
  assert (Hfst : fst (run env fuel schema_manager question)
                 = fst (invoke_from env fuel supervisor 0
                          (initial_state question
                             (SchemaManager.describe schema_manager)))).
  { unfold run. now destruct (invoke_from _ _ _ _ _) as [l [f| | |]]. }
  rewrite Hfst.
  pose proof (invoke_from_prefix fuel (fuel + length log) supervisor 0
                (initial_state question
                   (SchemaManager.describe schema_manager)) ltac:(lia))
    as [rest Hp].
  rewrite (Hrun (fuel + length log) ltac:(lia)) in Hp. cbn [fst] in Hp.
  rewrite Hp in Hall. apply Forall_app in Hall as [Hall _].
  eapply Forall_impl; [exact Hall|].
  intros p (Hr & _ & Ho & Hs). now repeat split.
Qed.


Lemma length_cycles_min (ks : list nat) :
  Forall (fun k => 1 <= k <= 3) ks -> 5 * length ks <= length (cycles ks).
Proof.
  induction 1 as [|k ks Hk _ IH]; [cbn; lia|].
  cbn [cycles length]. rewrite !length_app, length_rounds. cbn [length]. lia.
Qed.

(** X12: a decomposition into any number of sub-questions.  When the
    reply about complexity names the sub-questions [subs] (at least one),
    the run takes them one after the other, each through [sub_question],
    one to three rounds, [execute] and [collect], and then runs
    [aggregation] once.  Each [execute] runs on the state of its own
    sub-question, and what is collected for a sub-question is that
    sub-question with the query and the rows of the state its [execute]
    left; the answer is the aggregation of exactly these results, in the
    order given, under the user's question.  The run has between
    [3 + 5 n] and [3 + 9 n] steps for [n] sub-questions; it finishes
    exactly when the graph library allows that many steps, and is cut
    short under a lower step limit. *)
Theorem decomposition_covers_all (schema_manager : SchemaManager.Registry)
    (question reply : string) (items : list (string * json))
    (subs : list string) :
  let schema := SchemaManager.describe schema_manager in
  analyze_question (supervisor_agent env 0) question schema
  = Returned reply ->
  contains "NEED_QUERY" (upper env reply) = true ->
  detect_complexity (loads env) (supervisor_agent env 1) question schema
  = JObj items ->
  dict_get items "is_complex" = Some (JBool true) ->
  dict_get items "sub_questions" = Some (JArr (map JStr subs)) ->
  subs <> [] ->
  exists (ks : list nat) (log : list (node * GraphState Row))
         (final : GraphState Row) (srs : list (SubResult Row)) (tick : nat),
    (forall fuel, length log <= fuel ->
       run env fuel schema_manager question = (log, Finished final))
    /\ (forall fuel, fuel < length log ->
          snd (run env fuel schema_manager question) = OutOfSteps)
    /\ length ks = length subs
    /\ Forall (fun k => 1 <= k <= 3) ks
    /\ visited log
       = ([supervisor; expansion] ++ cycles ks ++ [aggregation])%list
    /\ 3 + 5 * length subs <= length log <= 3 + 9 * length subs
    /\ map Graph.question (executed log) = subs
    /\ srs
       = zip_with
           (fun q x => {| sub_question := q; sr_query := query x;
                          sr_results := results x |})
           subs (executed log)
    /\ map sub_question srs = subs
    /\ sub_results final = Some srs
    /\ answer final
       = Some
           match aggregate_results (repr env) (supervisor_agent env tick)
                   (Some question) srs schema with
           | Returned text => text
           | Raised e =>
               "I encountered an error while aggregating results: "
               +:+ exn_msg e
           end.
Proof.
  intros schema Ha Hq Hd Hc Hs Hne.
  set (init := initial_state (Row := Row) question schema).
  set (s0 := set_retries 0 (set_needs_query (Some true) init)).
  assert (Hsup : run_node env supervisor 0 init = Ok s0).
  { cbn [run_node]. now rewrite (supervisor_needs_query env 0 init reply). }
  set (s1 := set_sub_results (Some [])
               (set_current_sub_question_index 0
                  (set_sub_questions (Some subs)
                     (set_original_question (Some question)
                        (set_is_complex (Some true) s0))))).
  assert (Hexp : run_node env expansion 1 s0 = Ok s1).
  { cbn [run_node]. now rewrite (expansion_complex env 1 s0 items subs Hd Hc Hs). }
  assert (Hnext : next_node expansion s1 = Ok (Some sub_question_node)).
  { cbn [next_node]. unfold _check_complexity. cbn.
    destruct subs; [congruence | reflexivity]. }
  destruct (sub_loop (length subs) 2 s1 subs [] eq_refl eq_refl eq_refl
              eq_refl ltac:(destruct subs; [congruence | cbn; lia])
              ltac:(cbn; unfold max_retries; lia))
    as (ks & log & a & srs & tick' & Hks & Hkall & Hvis & (Hmap & Hmq & Hzip)
        & Hres & _ & Hans & _ & _ & Hrun).
  pose proof (length_cycles ks Hkall) as Hlen.
  pose proof (length_cycles_min ks Hkall) as Hmin.
  assert (Hll : length log = length (cycles ks) + 1).
  { rewrite <- (length_visited log), Hvis, length_app. reflexivity. }
  set (full := (supervisor, s0) :: (expansion, s1) :: log).
  assert (Hinv : forall fuel, length full <= fuel ->
                   invoke_from env fuel supervisor 0 init
                   = (full, Finished a)).
  { intros fuel Hf. unfold full in Hf |- *. cbn [length] in Hf.
    replace fuel with (S (S (length log + (fuel - length log - 2)))) by lia.
    rewrite (invoke_step env _ supervisor expansion 0 init s0 Hsup eq_refl).
    rewrite (invoke_step env _ expansion sub_question_node 1 s0 s1 Hexp Hnext).
    now rewrite Hrun. }
  set (final := if truthy (answer a) then
                  set_messages
                    (messages a ++ [AIMessage (str_of_opt (answer a))])%list a
                else a).
  assert (Hfa : sub_results final = sub_results a /\ answer final = answer a)
    by (unfold final; now destruct (truthy (answer a))).
  destruct Hfa as [Hfr Hfans].
  assert (Hexe : executed full = executed log).
  { unfold full. cbn [executed]. rewrite decide_False by discriminate.
    now rewrite decide_False by discriminate. }
  cbn in Hmap, Hmq, Hzip, Hres, Hans. rewrite drop_0 in Hmap, Hmq, Hzip.
  exists ks, full, final, srs, tick'.
  split.
  { intros fuel Hf. now apply run_of_invoke, Hinv. }
  split.
  { intros fuel Hf. apply (run_cut fuel _ _ full a); [|exact Hf].
    now apply Hinv. }
  split; [exact Hks|]. split; [exact Hkall|]. split.
  { unfold full, visited in *. cbn [map fst app]. now rewrite Hvis. }
  split; [unfold full; cbn [length]; lia|].
  split; [now rewrite Hexe|]. split; [now rewrite Hexe|].
  split; [exact Hmap|]. split; [now rewrite Hfr|].
  now rewrite Hfans.
Qed.

(** X13: a question found complex without any sub-question.  The query
    for the question itself is generated, verified and executed, but
    [collect] records nothing and [aggregation] answers that there is
    nothing to aggregate: the rows that [execute] fetched never reach an
    answer. *)
Theorem empty_decomposition (schema_manager : SchemaManager.Registry)
    (question reply : string) (items : list (string * json)) (fuel : nat) :
  let schema := SchemaManager.describe schema_manager in
  analyze_question (supervisor_agent env 0) question schema
  = Returned reply ->
  contains "NEED_QUERY" (upper env reply) = true ->
  detect_complexity (loads env) (supervisor_agent env 1) question schema
  = JObj items ->
  dict_get items "is_complex" = Some (JBool true) ->
  get_strs items "sub_questions" = Some [] ->
  11 <= fuel ->
  exists (k : nat) (log : list (node * GraphState Row))
         (final : GraphState Row),
    run env fuel schema_manager question = (log, Finished final)
    /\ 1 <= k <= 3
    /\ visited log
       = ([supervisor; expansion] ++ rounds k
          ++ [execute; collect; aggregation])%list
    /\ Graph.question final = question
    /\ sub_results final = Some []
    /\ answer final = Some "No results to aggregate.".
Proof.
  intros schema Ha Hq Hd Hc Hs Hfuel.
  set (init := initial_state (Row := Row) question schema).
  set (s0 := set_retries 0 (set_needs_query (Some true) init)).
  assert (Hsup : run_node env supervisor 0 init = Ok s0).
  { cbn [run_node]. now rewrite (supervisor_needs_query env 0 init reply). }
  set (s1 := set_sub_results (Some [])
               (set_current_sub_question_index 0
                  (set_sub_questions (Some [])
                     (set_original_question (Some question)
                        (set_is_complex (Some true) s0))))).
  assert (Hexp : run_node env expansion 1 s0 = Ok s1).
  { cbn [run_node]. unfold _expansion_node.
    change (Graph.question s0) with question.
    change (schema_info s0) with schema. rewrite Hd.
    unfold get_bool, get_str.
    now rewrite Hc, (detect_complexity_original env _ _ _ _ Hd), Hs. }
  destruct (empty_path 2 s1 eq_refl eq_refl eq_refl eq_refl eq_refl)
    as (k & log & x & a & Hk & Hvis & Hlen & Hxq & Ha' & _ & _ & Hres & _
        & Hrun).
  assert (Hanswer : answer a = Some "No results to aggregate.")
    by now rewrite Ha'.
  assert (Hquestion : Graph.question a = question) by now rewrite Ha'.
  exists k, ((supervisor, s0) :: (expansion, s1) :: log),
    (set_messages
       (messages a ++ [AIMessage "No results to aggregate."])%list a).
  split.
  { unfold run. fold schema. fold init.
    replace fuel with (S (S (2 * k + 3 + (fuel - 2 * k - 5)))) by lia.
    rewrite (invoke_step env _ supervisor expansion 0 init s0 Hsup eq_refl).
    rewrite (invoke_step env _ expansion coding 1 s0 s1 Hexp eq_refl).
    rewrite Hrun. unfold prepend. cbn [fst snd app].
    rewrite Hanswer.
    change (truthy (Some "No results to aggregate.")) with true.
    reflexivity. }
  split; [exact Hk|]. split.
  { unfold visited in *. cbn [map fst app]. now rewrite Hvis. }
  split; [exact Hquestion|]. split; [exact Hres | exact Hanswer].
Qed.

(** X14: when the analysis by the supervisor raises, the run is the single
    step [supervisor]: the state carries the error under the prefix
    [Supervisor error:], no answer and no query, and it is marked as
    needing no query. *)
Theorem supervisor_failure (schema_manager : SchemaManager.Registry)
    (question : string) (e : exn) (fuel : nat) :
  analyze_question (supervisor_agent env 0) question
    (SchemaManager.describe schema_manager) = Raised e ->
  1 <= fuel ->
  exists final : GraphState Row,
    run env fuel schema_manager question
    = ([(supervisor, final)], Finished final)
    /\ error final = Some ("Supervisor error: " +:+ exn_msg e)
    /\ answer final = None
    /\ query final = None
    /\ needs_query final = Some false.
Proof.
  intros Ha Hfuel. destruct fuel as [|fuel]; [lia|].
  set (init := initial_state (Row := Row) question
                 (SchemaManager.describe schema_manager)).
  set (s0 := set_needs_query (Some false)
               (set_error (Some ("Supervisor error: " +:+ exn_msg e)) init)).
  assert (Hsup : run_node env supervisor 0 init = Ok s0).
  { cbn [run_node]. unfold _supervisor_node.
    change (Graph.question init) with question.
    change (schema_info init) with (SchemaManager.describe schema_manager).
    now rewrite Ha. }
  exists s0. split; [|repeat split].
  unfold run. fold init.
  now rewrite (invoke_last env fuel supervisor 0 init s0 Hsup eq_refl).
Qed.

(** A round in which the coding model fails: the error of the generation
    becomes the feedback, the retry counter goes up by one, and no query
    is stored. *)
Lemma coder_down_round (tick : nat) (s : GraphState Row) :
  (forall t messages, exists e, coder_llm env t messages = Raised e) ->
  error s = None ->
  let v := _verify_node env (S tick) (_coding_node env tick s) in
  query v = query s
  /\ error v = None
  /\ retries v = retries s + 1
  /\ query_is_valid v = Some false
  /\ (exists e,
         query_feedback v = Some ("Query generation error: " +:+ exn_msg e))
  /\ is_complex v = is_complex s
  /\ results v = results s.
Proof.
  intros Hdown He. cbn zeta. unfold _coding_node.
  assert (Hg : exists e,
             generate_query (coder_agent env tick) (Graph.question s)
               (schema_info s) (query_feedback s)
               (if truthy (query_feedback s) then query s else None)
             = Raised e).
  { unfold generate_query. cbn [llm coder_agent].
    match goal with
    | |- context [coder_llm env tick ?m] =>
        destruct (Hdown tick m) as [e ->]
    end.
    now exists e. }
  destruct Hg as [e ->]. unfold _verify_node. cbn.
  rewrite truthy_prefixed. cbn. repeat split. now exists e.
Qed.

(** X15: when every call of the coding model raises, a simple question
    goes through three rounds, each failed generation being turned into
    feedback by [verify]; [execute] then finds no query, and the answer
    reports just that: the error of the model is not in the answer. *)
Theorem generation_failure (schema_manager : SchemaManager.Registry)
    (question reply : string) (items : list (string * json)) (fuel : nat) :
  let schema := SchemaManager.describe schema_manager in
  analyze_question (supervisor_agent env 0) question schema
  = Returned reply ->
  contains "NEED_QUERY" (upper env reply) = true ->
  detect_complexity (loads env) (supervisor_agent env 1) question schema
  = JObj items ->
  get_bool items "is_complex" false = Some false ->
  (forall t messages, exists e, coder_llm env t messages = Raised e) ->
  10 <= fuel ->
  exists (log : list (node * GraphState Row)) (final : GraphState Row),
    run env fuel schema_manager question = (log, Finished final)
    /\ visited log
       = [supervisor; expansion; coding; verify; coding; verify;
          coding; verify; execute; synthesize]
    /\ query final = None
    /\ results final = None
    /\ retries final = max_retries
    /\ error final = Some "No query to execute"
    /\ (exists e,
           query_feedback final
           = Some ("Query generation error: " +:+ exn_msg e))
    /\ answer final = Some "I encountered an error: No query to execute".
Proof.
  intros schema Ha Hq Hd Hb Hdown Hfuel.
  set (init := initial_state (Row := Row) question schema).
  set (s0 := set_retries 0 (set_needs_query (Some true) init)).
  assert (Hsup : run_node env supervisor 0 init = Ok s0).
  { cbn [run_node]. now rewrite (supervisor_needs_query env 0 init reply). }
  set (s1 := set_original_question (Some question)
               (set_is_complex (Some false) s0)).
  assert (Hexp : run_node env expansion 1 s0 = Ok s1).
  { cbn [run_node]. now rewrite (expansion_simple env 1 s0 items). }
  set (c1 := _coding_node env 2 s1). set (v1 := _verify_node env 3 c1).
  set (c2 := _coding_node env 4 v1). set (v2 := _verify_node env 5 c2).
  set (c3 := _coding_node env 6 v2). set (v3 := _verify_node env 7 c3).
  destruct (coder_down_round 2 s1 Hdown eq_refl)
    as (Hq1 & He1 & Hr1 & Hv1 & _ & Hi1 & Hres1).
  fold c1 v1 in Hq1, He1, Hr1, Hv1, Hi1, Hres1.
  destruct (coder_down_round 4 v1 Hdown He1)
    as (Hq2 & He2 & Hr2 & Hv2 & _ & Hi2 & Hres2).
  fold c2 v2 in Hq2, He2, Hr2, Hv2, Hi2, Hres2.
  destruct (coder_down_round 6 v2 Hdown He2)
    as (Hq3 & He3 & Hr3 & Hv3 & Hf3 & Hi3 & Hres3).
  fold c3 v3 in Hq3, He3, Hr3, Hv3, Hf3, Hi3, Hres3.
  cbn in Hr1, Hq1, Hi1, Hres1.
  assert (Hgo1 : _check_verification v1 = coding).
  { unfold _check_verification. rewrite Hv1. cbn.
    rewrite decide_False by (unfold max_retries; lia). reflexivity. }
  assert (Hgo2 : _check_verification v2 = coding).
  { unfold _check_verification. rewrite Hv2. cbn.
    rewrite decide_False by (unfold max_retries; lia). reflexivity. }
  assert (Hgo3 : _check_verification v3 = execute).
  { unfold _check_verification. rewrite Hv3. cbn.
    rewrite decide_True by (unfold max_retries; lia). reflexivity. }
  set (x := set_error (Some "No query to execute") v3).
  assert (Hx : run_node env execute 8 v3 = Ok x).
  { cbn [run_node]. unfold _execute_node. rewrite He3.
    change (truthy None) with false. cbn [negb].
    assert (Hqn : query v3 = None) by congruence.
    rewrite Hqn. change (truthy None) with false. reflexivity. }
  set (y := set_answer
              (Some "I encountered an error: No query to execute") x).
  assert (Hy : run_node env synthesize 9 x = Ok y).
  { cbn [run_node]. unfold _synthesize_node.
    change (error x) with (Some "No query to execute").
    change (truthy (Some "No query to execute")) with true. reflexivity. }
  exists [(supervisor, s0); (expansion, s1); (coding, c1); (verify, v1);
          (coding, c2); (verify, v2); (coding, c3); (verify, v3);
          (execute, x); (synthesize, y)].
  exists (set_messages
            (messages y
             ++ [AIMessage "I encountered an error: No query to execute"])%list
            y).
  split.
  { unfold run. fold schema. fold init.
    replace fuel with (S (S (S (S (S (S (S (S (S (S (fuel - 10)))))))))))
      by lia.
    rewrite (invoke_step env _ supervisor expansion 0 init s0 Hsup eq_refl).
    rewrite (invoke_step env _ expansion coding 1 s0 s1 Hexp eq_refl).
    rewrite (invoke_round env _ 2 s1). fold c1 v1. rewrite Hgo1.
    rewrite (invoke_round env _ 4 v1). fold c2 v2. rewrite Hgo2.
    rewrite (invoke_round env _ 6 v2). fold c3 v3. rewrite Hgo3.
    rewrite (invoke_step env _ execute synthesize 8 v3 x Hx).
    2: { cbn [next_node]. change (is_complex x) with (is_complex v3).
         now rewrite Hi3, Hi2, Hi1. }
    rewrite (invoke_last env _ synthesize 9 x y Hy eq_refl).
    reflexivity. }
  split; [reflexivity|]. cbn.
  split; [congruence|]. split; [congruence|].
  split; [unfold max_retries; lia|]. split; [reflexivity|].
  split; [exact Hf3 | reflexivity].
Qed.

(** X16: a database that fails.  When every query raises, the answer to a
    simple question is the fixed sentence [I encountered an error:]
    followed by the error of [execute] with the message of the database
    in it (or by [No query to execute] when the last generated query was
    empty); no rows are stored, and the answer does not depend on what the
    supervisor model would have said. *)
Theorem execution_error_reported (schema_manager : SchemaManager.Registry)
    (question reply : string) (items : list (string * json)) (fuel : nat) :
  let schema := SchemaManager.describe schema_manager in
  analyze_question (supervisor_agent env 0) question schema
  = Returned reply ->
  contains "NEED_QUERY" (upper env reply) = true ->
  detect_complexity (loads env) (supervisor_agent env 1) question schema
  = JObj items ->
  get_bool items "is_complex" false = Some false ->
  (forall t q, exists e, db_query env t q = Raised e) ->
  10 <= fuel ->
  exists (k : nat) (log : list (node * GraphState Row))
         (final : GraphState Row) (err : string),
    run env fuel schema_manager question = (log, Finished final)
    /\ 1 <= k <= 3
    /\ visited log
       = ([supervisor; expansion] ++ rounds k ++ [execute; synthesize])%list
    /\ results final = None
    /\ error final = Some err
    /\ (err = "No query to execute"
        \/ exists e t q,
             db_query env t q = Raised e
             /\ err = "Query execution error: " +:+ exn_msg e)
    /\ answer final = Some ("I encountered an error: " +:+ err).
Proof.
  intros schema Ha Hq Hd Hb Hdb Hfuel.
  set (init := initial_state (Row := Row) question schema).
  set (s0 := set_retries 0 (set_needs_query (Some true) init)).
  assert (Hsup : run_node env supervisor 0 init = Ok s0).
  { cbn [run_node]. now rewrite (supervisor_needs_query env 0 init reply). }
  set (s1 := set_original_question (Some question)
               (set_is_complex (Some false) s0)).
  assert (Hexp : run_node env expansion 1 s0 = Ok s1).
  { cbn [run_node]. now rewrite (expansion_simple env 1 s0 items). }
  destruct (simple_path 2 s1 eq_refl eq_refl eq_refl)
    as (k & log & v & x & y & Hk & Hvis & Hlen & Hev & Hsc & Hx & Hy & _ & _
        & _ & _ & Hrun).
  assert (Hvr : results v = None).
  { now destruct Hsc as (_ & _ & _ & _ & -> & _). }
  assert (Hxe : exists err,
             x = set_error (Some err) v
             /\ truthy (Some err) = true
             /\ (err = "No query to execute"
                 \/ exists e t q,
                      db_query env t q = Raised e
                      /\ err = "Query execution error: " +:+ exn_msg e)).
  { rewrite Hx. unfold _execute_node. rewrite Hev.
    change (truthy None) with false. cbn [negb].
    destruct (truthy (query v)); cbn [negb].
    - destruct (Hdb (2 + 2 * k) (str_of_opt (query v))) as [e He].
      rewrite He. exists ("Query execution error: " +:+ exn_msg e).
      split; [reflexivity|]. split; [apply truthy_prefixed|].
      right. now exists e, (2 + 2 * k), (str_of_opt (query v)).
    - exists "No query to execute". split; [reflexivity|].
      split; [reflexivity | now left]. }
  destruct Hxe as (err & Hxv & Htr & Herr).
  assert (Hyv : y = set_answer (Some ("I encountered an error: " +:+ err)) x).
  { rewrite Hy. unfold _synthesize_node. rewrite Hxv.
    change (error (set_error (Some err) v)) with (Some err).
    now rewrite Htr. }
  exists k, ((supervisor, s0) :: (expansion, s1) :: log).
  exists (set_messages
            (messages y
             ++ [AIMessage ("I encountered an error: " +:+ err)])%list y).
  exists err. split.
  { unfold run. fold schema. fold init.
    replace fuel with (S (S (2 * k + 2 + (fuel - 2 * k - 4)))) by lia.
    rewrite (invoke_step env _ supervisor expansion 0 init s0 Hsup eq_refl).
    rewrite (invoke_step env _ expansion coding 1 s0 s1 Hexp eq_refl).
    rewrite Hrun. unfold prepend. cbn [fst snd app].
    assert (Hans : answer y = Some ("I encountered an error: " +:+ err))
      by now rewrite Hyv.
    rewrite Hans, truthy_prefixed. reflexivity. }
  split; [exact Hk|]. split.
  { unfold visited in *. cbn [map fst app]. now rewrite Hvis. }
  rewrite Hyv, Hxv. cbn. split; [exact Hvr|]. split; [reflexivity|].
  split; [exact Herr | reflexivity].
Qed.

End GraphRuns.

Lemma run_always_ends_witness :
  exists log final,
    (forall fuel, length log <= fuel ->
       Graph.run Samples.env_decomposing fuel Samples.travel
         "volume and value per month" = (log, Graph.Finished final))
    /\ (forall fuel, fuel < length log ->
          snd (Graph.run Samples.env_decomposing fuel Samples.travel
                 "volume and value per month") = Graph.OutOfSteps)
    /\ length log
       <= 3 + 9 * Nat.max 1
                    (length (default [] (Graph.sub_questions final)))
    /\ (length (default [] (Graph.sub_questions final)) <= 2 ->
        forall fuel, 21 <= fuel ->
          Graph.run Samples.env_decomposing fuel Samples.travel
            "volume and value per month" = (log, Graph.Finished final)).
Proof.
  apply (run_always_ends Samples.env_decomposing Samples.travel
           "volume and value per month").
  vm_compute. reflexivity.
Defined.

(** Three sub-questions whose queries are all rejected take 30 steps: a
    limit of 25 steps cuts the run in the third sub-question, before any
    answer is made. *)
Example three_rejected_cut :
  snd (Graph.run Samples.env_three_rejected 25 Samples.travel
         "volume, value and growth per month") = Graph.OutOfSteps
  /\ length (fst (Graph.run Samples.env_three_rejected 25 Samples.travel
                    "volume, value and growth per month")) = 25
  /\ exists log final,
       Graph.run Samples.env_three_rejected 30 Samples.travel
         "volume, value and growth per month" = (log, Graph.Finished final)
       /\ length log = 30.
Proof.
  split; [vm_compute; reflexivity|]. split; [vm_compute; reflexivity|].
  let r := eval vm_compute in
    (Graph.run Samples.env_three_rejected 30 Samples.travel
       "volume, value and growth per month") in
  match r with
  | (?l, Graph.Finished ?f) => exists l, f
  end.
  split; vm_compute; reflexivity.
Qed.

Lemma run_invariants_witness :
  Forall (fun p => Graph.retries (snd p) <= Graph.max_retries
                   /\ Graph.original_question (snd p)
                      = Some "How many requests per trip form?"
                   /\ Graph.schema_info (snd p)
                      = SchemaManager.describe Samples.travel)
    (fst (Graph.run Samples.env_rejecting 25 Samples.travel
            "How many requests per trip form?")).
Proof.
  apply (run_invariants Samples.env_rejecting Samples.travel
           "How many requests per trip form?" 25).
  vm_compute. reflexivity.
Defined.


Lemma decomposition_covers_all_witness :
  exists ks log final srs,
    Graph.run Samples.env_decomposing 25 Samples.travel
      "volume and value per month"
    = (log, Graph.Finished final)
    /\ length ks = 2
    /\ Graph.visited log
       = ([Graph.supervisor; Graph.expansion] ++ Graph.cycles ks
          ++ [Graph.aggregation])%list
    /\ map Graph.question (Graph.executed log)
       = ["volume per month"; "value per month"]
    /\ srs
       = zip_with
           (fun q x => {| Agents.sub_question := q;
                          Agents.sr_query := Graph.query x;
                          Agents.sr_results := Graph.results x |})
           ["volume per month"; "value per month"] (Graph.executed log)
    /\ Graph.sub_results final = Some srs.
Proof.
  destruct (decomposition_covers_all Samples.env_decomposing Samples.travel
              "volume and value per month"
              "need_query: two metrics are asked for"
              [("is_complex", Json.JBool true);
               ("sub_questions",
                Json.JArr [Json.JStr "volume per month";
                           Json.JStr "value per month"]);
               ("reasoning", Json.JStr "two metrics, two queries");
               ("original_question",
                Json.JStr "volume and value per month")]
              ["volume per month"; "value per month"])
    as (ks & log & final & srs & tick & Hrun & _ & Hks & _ & Hvis & Hlen
        & Hexe & Hsrs & _ & Hres & _).
  - vm_compute. reflexivity.
  - vm_compute. reflexivity.
  - vm_compute. reflexivity.
  - reflexivity.
  - reflexivity.
  - discriminate.
  - exists ks, log, final, srs. cbn [length] in Hlen.
    split; [apply Hrun; lia|]. repeat split; assumption.
Defined.

Lemma empty_decomposition_witness :
  exists k log final,
    Graph.run Samples.env_empty_decomposition 25 Samples.travel
      "How many requests?"
    = (log, Graph.Finished final)
    /\ Graph.visited log
       = ([Graph.supervisor; Graph.expansion] ++ Graph.rounds k
          ++ [Graph.execute; Graph.collect; Graph.aggregation])%list
    /\ Graph.results final = Some ["{'n': 19}"]
    /\ Graph.answer final = Some "No results to aggregate.".
Proof.
  destruct (empty_decomposition Samples.env_empty_decomposition
              Samples.travel "How many requests?" "NEED_QUERY"
              [("is_complex", Json.JBool true);
               ("sub_questions", Json.JArr []);
               ("reasoning", Json.JStr "several metrics");
               ("original_question", Json.JStr "How many requests?")] 25)
    as (k & log & final & Hrun & _ & Hvis & _ & _ & Hans).
  - vm_compute. reflexivity.
  - vm_compute. reflexivity.
  - vm_compute. reflexivity.
  - reflexivity.
  - reflexivity.
  - lia.
  - exists k, log, final. split; [exact Hrun|]. split; [exact Hvis|].
    split; [|exact Hans].
    assert (Hc : Graph.run Samples.env_empty_decomposition 25 Samples.travel
                   "How many requests?"
                 = (log, Graph.Finished final)) by exact Hrun.
    vm_compute in Hc. injection Hc as _ <-. reflexivity.
Defined.

Lemma supervisor_failure_witness :
  exists final,
    Graph.run Samples.env_models_down 25 Samples.travel "How many requests?"
    = ([(Graph.supervisor, final)], Graph.Finished final)
    /\ Graph.error final = Some "Supervisor error: connection refused"
    /\ Graph.answer final = None.
Proof.
  destruct (supervisor_failure Samples.env_models_down Samples.travel
              "How many requests?"
              (Py.Exn Py.RuntimeError "connection refused") 25)
    as (final & Hrun & Herr & Hans & _).
  - reflexivity.
  - lia.
  - exists final. split; [exact Hrun|]. split; [exact Herr | exact Hans].
Defined.

Lemma generation_failure_witness :
  exists log final,
    Graph.run Samples.env_coder_down 25 Samples.travel "How many requests?"
    = (log, Graph.Finished final)
    /\ Graph.answer final
       = Some "I encountered an error: No query to execute"
    /\ Graph.query_feedback final
       = Some "Query generation error: connection refused".
Proof.
  destruct (generation_failure Samples.env_coder_down Samples.travel
              "How many requests?" "NEED_QUERY"
              [("is_complex", Json.JBool false);
               ("sub_questions", Json.JArr []);
               ("reasoning", Json.JStr "one metric");
               ("original_question", Json.JStr "How many requests?")] 25)
    as (log & final & Hrun & _ & _ & _ & _ & _ & _ & Hans).
  - vm_compute. reflexivity.
  - vm_compute. reflexivity.
  - vm_compute. reflexivity.
  - reflexivity.
  - intros t messages. eexists. reflexivity.
  - lia.
  - exists log, final. split; [exact Hrun|]. split; [exact Hans|].
    assert (Hc : Graph.run Samples.env_coder_down 25 Samples.travel
                   "How many requests?"
                 = (log, Graph.Finished final)) by exact Hrun.
    vm_compute in Hc. injection Hc as _ <-. reflexivity.
Defined.

Lemma execution_error_reported_witness :
  exists log final,
    Graph.run Samples.env_rejecting 25 Samples.travel
      "How many requests per trip form?"
    = (log, Graph.Finished final)
    /\ Graph.results final = None
    /\ exists err,
         Graph.answer final = Some ("I encountered an error: " +:+ err).
Proof.
  destruct (execution_error_reported Samples.env_rejecting Samples.travel
              "How many requests per trip form?"
              "NEED_QUERY - the question counts rows"
              [("is_complex", Json.JBool false);
               ("sub_questions", Json.JArr []);
               ("reasoning", Json.JStr "one metric");
               ("original_question",
                Json.JStr "How many requests per trip form?")] 25)
    as (k & log & final & err & Hrun & _ & _ & Hres & _ & _ & Hans).
  - vm_compute. reflexivity.
  - vm_compute. reflexivity.
  - vm_compute. reflexivity.
  - reflexivity.
  - intros t q. eexists. reflexivity.
  - lia.
  - exists log, final. split; [exact Hrun|]. split; [exact Hres|].
    now exists err.
Defined.

(** ** Loading the workbooks ([src/data_loader.py]) *)

Section Loading.

Import Py SchemaManager DataLoader.

Lemma map_excel_type_range (upper : string -> string) (excel_type : string) :
  map_excel_type_to_duckdb upper excel_type ∈ duckdb_types.
Proof.
  unfold map_excel_type_to_duckdb. destruct excel_type as [|c rest].
  - left.
  - destruct (mapping !! strip (upper (String c rest))) as [v|] eqn:E;
      cbn [default from_option id]; [|left].
    apply elem_of_list_to_map_2 in E. unfold duckdb_types.
    repeat (apply elem_of_cons in E as [E|E];
            [injection E as _ ->; set_solver|]).
    inversion E.
Qed.

(** X17: the type mapping.  Whatever the label in the metadata sheet, the
    engine type is one of the six the loader knows; an empty label and a
    label the mapping does not list give [VARCHAR]; and an engine type
    maps to itself ([VARCHAR] by the default), [upper] leaving the six
    names as they are. *)
Theorem excel_type_mapping (upper : string -> string) (excel_type : string) :
  map_excel_type_to_duckdb upper excel_type ∈ duckdb_types
  /\ map_excel_type_to_duckdb upper "" = "VARCHAR"
  /\ (mapping !! strip (upper excel_type) = None ->
      map_excel_type_to_duckdb upper excel_type = "VARCHAR")
  /\ ((forall t, t ∈ duckdb_types -> upper t = t) ->
      map_excel_type_to_duckdb upper
        (map_excel_type_to_duckdb upper excel_type)
      = map_excel_type_to_duckdb upper excel_type).
Proof.
  pose proof (map_excel_type_range upper excel_type) as Hrange.
  split; [exact Hrange|]. split; [reflexivity|]. split.
  - intros Hn. unfold map_excel_type_to_duckdb.
    destruct excel_type; [reflexivity|]. now rewrite Hn.
  - intros Hup.
    set (r := map_excel_type_to_duckdb upper excel_type) in *.
    pose proof (Hup r Hrange) as Hr. unfold duckdb_types in Hrange.
    unfold map_excel_type_to_duckdb at 1.
    repeat (apply elem_of_cons in Hrange as [Hrange|Hrange];
            [rewrite Hrange in Hr |- *; rewrite Hr; reflexivity|]).
    inversion Hrange.
Qed.

Lemma map_chars_app (f : ascii -> ascii) (a b : string) :
  map_chars f (a +:+ b) = map_chars f a +:+ map_chars f b.
Proof.
  induction a as [|c a IH]; [reflexivity|].
  rewrite append_cons. cbn [map_chars]. now rewrite IH, append_cons.
Qed.

Lemma map_chars_compose (f g : ascii -> ascii) (s : string) :
  map_chars f (map_chars g s) = map_chars (fun c => f (g c)) s.
Proof. induction s as [|c s IH]; cbn; [reflexivity | now rewrite IH]. Qed.

Lemma lower_map_chars (s : string) : lower s = map_chars lower_char s.
Proof. induction s as [|c s IH]; cbn; [reflexivity | now rewrite IH]. Qed.

Lemma length_map_chars (f : ascii -> ascii) (s : string) :
  String.length (map_chars f s) = String.length s.
Proof. induction s as [|c s IH]; cbn; [reflexivity | now rewrite IH]. Qed.

Lemma table_name_chars (stem sheet : string) :
  table_name stem sheet = map_chars sanitize_char (stem +:+ "_" +:+ sheet).
Proof.
  unfold table_name, raw_name, replace_char.
  now rewrite lower_map_chars, !map_chars_compose.
Qed.

Lemma sanitize_char_spec (c : ascii) :
  (isalnum (sanitize_char c) = true \/ sanitize_char c = "_"%char)
  /\ (sanitize_char c = "_"%char <-> isalnum c = false).
Proof.
  destruct c as [[] [] [] [] [] [] [] []]; vm_compute;
    (split; [first [now left | now right] | split; congruence]).
Qed.

Lemma endswith_char (c : ascii) (s : string) :
  endswith (String c "") s = true
  <-> exists pre, s = pre +:+ String c "".
Proof.
  induction s as [|d s IH]; cbn [endswith].
  - split; [discriminate|]. intros [[|? ?] H]; discriminate H.
  - rewrite orb_true_iff, IH. split.
    + intros [H | [pre ->]].
      * apply String.eqb_eq in H. injection H as -> <-. now exists "".
      * now exists (String d pre).
    + intros [[|e pre] H].
      * left. change ("" +:+ String c "") with (String c "") in H.
        rewrite H. apply String.eqb_refl.
      * right. rewrite append_cons in H. injection H as _ ->. now exists pre.
Qed.

Lemma append_snoc_inv (a b : string) (c d : ascii) :
  a +:+ String c "" = b +:+ String d "" -> a = b /\ c = d.
Proof.
  revert b. induction a as [|x a IH]; intros [|y b] H.
  - injection H as ->. now split.
  - change ("" +:+ String c "") with (String c "") in H.
    rewrite append_cons in H. injection H as _ H. now destruct b.
  - change ("" +:+ String d "") with (String d "") in H.
    rewrite append_cons in H. injection H as _ H. now destruct a.
  - rewrite !append_cons in H. injection H as -> H.
    destruct (IH b H) as [-> ->]. now split.
Qed.

(** X18: table names.  The name of a sheet's table is as long as the
    workbook stem, an underscore and the sheet name together, and holds
    only alphanumeric characters and underscores; the sheet named after a
    data sheet with one more underscore gets that sheet's table name with
    one more underscore, which is the key under which the loader looks for
    the metadata; and a sheet is taken for metadata, and so not loaded as
    a table, exactly when its name is empty or ends with a character that
    is not alphanumeric. *)
Theorem table_name_shape (stem sheet : string) :
  String.length (table_name stem sheet)
  = String.length stem + 1 + String.length sheet
  /\ Forall (fun c => isalnum c = true \/ c = "_"%char)
       (list_ascii_of_string (table_name stem sheet))
  /\ table_name stem (sheet +:+ "_") = table_name stem sheet +:+ "_"
  /\ is_metadata (table_name stem (sheet +:+ "_")) = true
  /\ (is_metadata (table_name stem sheet) = true
      <-> sheet = ""
          \/ exists pre c, sheet = pre +:+ String c "" /\ isalnum c = false).
Proof.
  assert (Hsnoc : table_name stem (sheet +:+ "_")
                  = table_name stem sheet +:+ "_").
  { rewrite !table_name_chars.
    replace (stem +:+ "_" +:+ sheet +:+ "_")
      with ((stem +:+ "_" +:+ sheet) +:+ "_") by (now rewrite !append_assoc).
    now rewrite map_chars_app. }
  split; [|split; [|split; [|split]]].
  - rewrite table_name_chars, length_map_chars, !length_append. cbn. lia.
  - rewrite table_name_chars.
    induction (stem +:+ "_" +:+ sheet) as [|c s IH]; cbn; constructor;
      [apply sanitize_char_spec | exact IH].
  - exact Hsnoc.
  - rewrite Hsnoc. unfold is_metadata. apply endswith_char. eauto.
  - unfold is_metadata. rewrite endswith_char, table_name_chars. split.
    + intros [pre Hpre].
      destruct (decide (sheet = "")) as [|Hne]; [now left | right].
      assert (Hlast : exists pre' c, sheet = pre' +:+ String c "").
      { clear -Hne. induction sheet as [|d s IH]; [congruence|].
        destruct s as [|d' s'].
        - now exists "", d.
        - destruct IH as (pre' & c & ->); [discriminate|].
          now exists (String d pre'), c. }
      destruct Hlast as (pre' & c & ->). exists pre', c. split; [reflexivity|].
      rewrite <- !append_assoc, map_chars_app in Hpre.
      change (map_chars sanitize_char (String c ""))
        with (String (sanitize_char c) "") in Hpre.
      apply append_snoc_inv in Hpre as [_ Hc].
      now apply sanitize_char_spec.
    + intros [-> | (pre & c & -> & Hc)].
      * exists (map_chars sanitize_char stem).
        rewrite map_chars_app. reflexivity.
      * exists (map_chars sanitize_char (stem +:+ "_" +:+ pre)).
        rewrite <- !append_assoc, map_chars_app.
        change (map_chars sanitize_char (String c ""))
          with (String (sanitize_char c) "").
        now rewrite (proj2 (proj2 (sanitize_char_spec c)) Hc).
Qed.

Section Schema.

Context (upper : string -> string)
        (con : string -> Frame -> string -> outcome unit).

Lemma scan_inv (all sheets : list Sheet) :
  forall acc,
    (forall sh, sh ∈ sheets -> sh ∈ all) ->
    scanned_from all acc ->
    scanned_from all (foldl scan_sheet acc sheets).
Proof.
  induction sheets as [|sh sheets IH]; intros acc Hsub Hacc; [exact Hacc|].
  cbn [foldl]. apply IH; [intros x Hx; apply Hsub; now right|].
  unfold scan_sheet. destruct (empty (frame sh)); [exact Hacc|].
  destruct Hacc as [Hdata Hmeta].
  destruct (is_metadata (table_name (stem sh) (sheet sh))) eqn:Em.
  - split; [exact Hdata|]. cbn [snd]. intros key Hkey.
    rewrite lookup_insert_ne; [now apply Hmeta|].
    apply Hkey, Hsub. left.
  - split; [|exact Hmeta]. cbn [fst]. intros name df Hin.
    apply elem_of_app in Hin as [Hin | Hin]; [now apply Hdata|].
    apply list_elem_of_singleton in Hin. injection Hin as -> ->.
    split; [exact Em|]. exists sh. split; [apply Hsub; left | now split].
Qed.

Lemma scan_spec (sheets : list Sheet) : scanned_from sheets (scan sheets).
Proof.
  apply scan_inv; [auto|]. split.
  - intros name df H. inversion H.
  - intros key _. apply lookup_empty.
Qed.

Lemma process_inv (metadata_dfs : gmap string Frame)
    (all tables : list (string * Frame)) :
  forall schema,
    (forall t, t ∈ tables -> t ∈ all) ->
    (forall name cols,
        schema !! name = Some cols ->
        exists df md,
          (name, df) ∈ all
          /\ parse_metadata upper (metadata_dfs !! (name +:+ "_"))
             = Returned md
          /\ cols = table_columns md df) ->
    forall name cols,
      foldl (process_table upper con metadata_dfs) schema tables !! name
      = Some cols ->
      exists df md,
        (name, df) ∈ all
        /\ parse_metadata upper (metadata_dfs !! (name +:+ "_")) = Returned md
        /\ cols = table_columns md df.
Proof.
  induction tables as [|[t df] tables IH]; intros schema Hsub Hacc;
    [exact Hacc|].
  cbn [foldl]. apply IH; [intros x Hx; apply Hsub; now right|].
  unfold process_table. cbn [fst snd].
  destruct (parse_metadata upper (metadata_dfs !! (t +:+ "_")))
    as [md|e] eqn:Ep; [|exact Hacc].
  destruct (con t df (create_query t md df)); [|exact Hacc].
  intros name cols Hl. destruct (decide (t = name)) as [<-|Hne].
  - rewrite lookup_insert_eq in Hl. injection Hl as <-.
    exists df, md. split; [apply Hsub; left | now split].
  - rewrite lookup_insert_ne in Hl by exact Hne. now apply Hacc.
Qed.

Lemma column_entry_typed (md : gmap string ColumnMeta) (col : label) :
  let info := snd (column_entry md col) in
  name info = str_of_label col
  /\ (exists t, type info = PyStr t)
  /\ description info <> Missing
  /\ (md = ∅ -> type info = PyStr "STRING" /\ description info = PyNone).
Proof.
  cbn zeta. unfold column_entry. cbn [snd name type description].
  split; [reflexivity|]. split; [eauto|]. split.
  - now destruct (md !! lower (str_of_label col)) as [[? ? [?|] ?]|].
  - intros ->. now rewrite lookup_empty.
Qed.

(** X19: the schema that [load_excel_files] returns.  Every table in it
    comes from a sheet that was read, is named after it, and is not a
    metadata sheet; its columns are the columns of the sheet, in order and
    under their labels; every column has a type label and a description
    entry (possibly [None]); and a table for which no sheet provides
    metadata has the type [STRING] and no description on every column. *)
Theorem loaded_schema (sheets : list Sheet) (table : string)
    (cols : list ColumnInfo) :
  load_excel_files upper con sheets !! table = Some cols ->
  is_metadata table = false
  /\ (exists sh,
         sh ∈ sheets /\ table = table_name (stem sh) (sheet sh)
         /\ map name cols = map str_of_label (columns (frame sh)))
  /\ Forall (fun col => (exists t, type col = PyStr t)
                        /\ description col <> Missing) cols
  /\ ((forall sh, sh ∈ sheets ->
         table_name (stem sh) (sheet sh) <> table +:+ "_") ->
      Forall (fun col => type col = PyStr "STRING"
                         /\ description col = PyNone) cols).
Proof.
  intros Hl. unfold load_excel_files in Hl.
  destruct (scan_spec sheets) as [Hdata Hmeta].
  apply (process_inv (snd (scan sheets)) (fst (scan sheets))) in Hl
    as (df & md & Hin & Hp & ->); [|auto|].
  2: { intros name cs H. rewrite lookup_empty in H. discriminate H. }
  destruct (Hdata table df Hin) as (Hm & sh & Hsh & Ht & Hdf).
  split; [exact Hm|]. split; [|split].
  - exists sh. split; [exact Hsh|]. split; [exact Ht|]. subst df.
    unfold table_columns. rewrite map_map. apply map_ext. intros col.
    apply column_entry_typed.
  - unfold table_columns. apply Forall_map, Forall_forall. intros col _.
    destruct (column_entry_typed md col) as (_ & H1 & H2 & _). now split.
  - intros Hnone. rewrite (Hmeta _ Hnone) in Hp. cbn in Hp.
    injection Hp as <-.
    unfold table_columns. apply Forall_map, Forall_forall. intros col _.
    destruct (column_entry_typed ∅ col) as (_ & _ & _ & H). now apply H.
Qed.

Lemma add_row_types (name_col : string) (type_col desc_col : option string)
    (md : gmap string ColumnMeta) (row : string -> option string) :
  map_Forall (fun _ m => duckdb_type m ∈ duckdb_types) md ->
  map_Forall (fun _ m => duckdb_type m ∈ duckdb_types)
    (add_row upper name_col type_col desc_col md row).
Proof.
  intros Hmd. unfold add_row. destruct (row name_col); [|exact Hmd].
  apply map_Forall_insert_2; [|exact Hmd]. apply map_excel_type_range.
Qed.

Lemma parse_metadata_types (m_df : option Frame)
    (md : gmap string ColumnMeta) :
  parse_metadata upper m_df = Returned md ->
  map_Forall (fun _ m => duckdb_type m ∈ duckdb_types) md.
Proof.
  unfold parse_metadata. destruct m_df as [m_df|].
  - destruct (header_index (columns m_df) ∅) as [cols|e]; [|discriminate].
    destruct (truthy _).
    + intros H. injection H as <-.
      generalize (∅ : gmap string ColumnMeta)
        (map_Forall_empty (fun (_ : string) m => duckdb_type m ∈ duckdb_types)).
      induction (rows m_df) as [|row rest IH]; intros acc Hacc; [exact Hacc|].
      cbn [foldl]. apply IH. now apply add_row_types.
    + intros H. injection H as <-. apply map_Forall_empty.
  - intros H. injection H as <-. apply map_Forall_empty.
Qed.

(** X20: the casts of the [CREATE TABLE] statement.  Whatever the metadata
    sheet holds, every column of the data sheet is selected once, in
    order, as [TRY_CAST("col" AS T) AS "col"] with its label between the
    quotes and [T] one of the six engine types: a type label the mapping
    does not know degrades to [VARCHAR]. *)
Theorem casts_name_engine_types (m_df : option Frame)
    (md : gmap string ColumnMeta) (name : string) (df : Frame) :
  parse_metadata upper m_df = Returned md ->
  create_query name md df
  = "CREATE OR REPLACE TABLE " +:+ name +:+ " AS SELECT "
    +:+ join ", " (select_parts md df) +:+ " FROM tmp_" +:+ name
  /\ Forall2
       (fun col part =>
          exists T,
            T ∈ duckdb_types
            /\ part = "TRY_CAST(" +:+ dq +:+ str_of_label col +:+ dq
                      +:+ " AS " +:+ T +:+ ") AS "
                      +:+ dq +:+ str_of_label col +:+ dq)
       (columns df) (select_parts md df).
Proof.
  intros Hp. split; [reflexivity|].
  pose proof (parse_metadata_types m_df md Hp) as Hmd.
  unfold select_parts. apply Forall2_fmap_r, Forall_Forall2_diag.
  apply Forall_forall. intros col _. unfold column_entry. cbn [fst].
  destruct (md !! lower (str_of_label col)) as [m|] eqn:E.
  - exists (duckdb_type m). split; [exact (Hmd _ _ E)|].
    cbn. now rewrite E, !append_assoc.
  - exists "VARCHAR". split; [left|]. cbn. now rewrite E, !append_assoc.
Qed.

End Schema.

End Loading.

Lemma excel_type_mapping_witness :
  (forall t, t ∈ DataLoader.duckdb_types -> Samples.upper t = t)
  /\ DataLoader.map_excel_type_to_duckdb Samples.upper " Float " = "DOUBLE"
  /\ DataLoader.map_excel_type_to_duckdb Samples.upper
       (DataLoader.map_excel_type_to_duckdb Samples.upper " Float ")
     = "DOUBLE".
Proof.
  assert (Hup : forall t, t ∈ DataLoader.duckdb_types -> Samples.upper t = t).
  { intros t Ht. unfold DataLoader.duckdb_types in Ht.
    repeat (apply elem_of_cons in Ht as [-> | Ht]; [reflexivity|]).
    inversion Ht. }
  split; [exact Hup|]. split; [reflexivity|].
  destruct (excel_type_mapping Samples.upper " Float ") as (_ & _ & _ & H).
  rewrite (H Hup). reflexivity.
Defined.

(** A data sheet whose name ends with a closing parenthesis is taken for
    a metadata sheet. *)
Lemma table_name_shape_witness :
  DataLoader.table_name "travel" "Requests (2024)" = "travel_requests__2024_"
  /\ DataLoader.is_metadata
       (DataLoader.table_name "travel" "Requests (2024)") = true.
Proof.
  split; [reflexivity|].
  apply (proj2 (proj2 (proj2 (proj2
           (table_name_shape "travel" "Requests (2024)"))))).
  right. exists "Requests (2024", ")"%char. split; reflexivity.
Defined.

Lemma loaded_schema_witness :
  exists cols,
    DataLoader.load_excel_files Samples.upper Samples.connection
      Samples.workbook !! "travel_requests" = Some cols
    /\ map SchemaManager.name cols = ["request_id"; "Amount"; "Comment"]
    /\ DataLoader.is_metadata "travel_requests" = false.
Proof.
  let r := eval vm_compute in
    (DataLoader.load_excel_files Samples.upper Samples.connection
       Samples.workbook !! "travel_requests") in
  match r with
  | Some ?cols =>
      exists cols;
      assert (Hl : DataLoader.load_excel_files Samples.upper
                     Samples.connection Samples.workbook
                   !! "travel_requests" = Some cols)
        by (vm_compute; reflexivity)
  end.
  destruct (loaded_schema Samples.upper Samples.connection Samples.workbook
              "travel_requests" _ Hl) as (Hm & _ & _ & _).
  split; [exact Hl|]. split; [reflexivity | exact Hm].
Defined.

(** The sample workbook, loaded: the types are the labels of the metadata
    sheet as written there, matched to the columns without regard to case
    and surrounding blanks; a column the metadata does not name is a
    [STRING]. *)
Example load_sample_workbook :
  DataLoader.load_excel_files Samples.upper Samples.connection
    Samples.workbook !! "travel_requests"
  = Some [{| SchemaManager.name := "request_id";
             SchemaManager.type := Py.PyStr "integer";
             SchemaManager.description :=
               Py.PyStr "Identifier of the request" |};
          {| SchemaManager.name := "Amount";
             SchemaManager.type := Py.PyStr "Float";
             SchemaManager.description := Py.PyNone |};
          {| SchemaManager.name := "Comment";
             SchemaManager.type := Py.PyStr "STRING";
             SchemaManager.description := Py.PyNone |}]
  /\ DataLoader.load_excel_files Samples.upper Samples.connection
       Samples.workbook !! "travel_requests_" = None.
Proof. split; vm_compute; reflexivity. Qed.

(** The casts for the sample data sheet under its metadata sheet. *)
Example casts_of_sample_workbook :
  match DataLoader.parse_metadata Samples.upper
          (Some (DataLoader.frame Samples.requests_metadata)) with
  | Py.Returned md =>
      DataLoader.select_parts md (DataLoader.frame Samples.requests_sheet)
  | Py.Raised _ => []
  end
  = ["TRY_CAST(" +:+ Py.dq +:+ "request_id" +:+ Py.dq +:+ " AS INTEGER) AS "
     +:+ Py.dq +:+ "request_id" +:+ Py.dq;
     "TRY_CAST(" +:+ Py.dq +:+ "Amount" +:+ Py.dq +:+ " AS DOUBLE) AS "
     +:+ Py.dq +:+ "Amount" +:+ Py.dq;
     "TRY_CAST(" +:+ Py.dq +:+ "Comment" +:+ Py.dq +:+ " AS VARCHAR) AS "
     +:+ Py.dq +:+ "Comment" +:+ Py.dq].
Proof. vm_compute. reflexivity. Qed.

Lemma casts_name_engine_types_witness :
  DataLoader.parse_metadata Samples.upper None = Py.Returned ∅
  /\ Forall2
       (fun col part =>
          exists T,
            T ∈ DataLoader.duckdb_types
            /\ part = "TRY_CAST(" +:+ Py.dq +:+ DataLoader.str_of_label col
                      +:+ Py.dq +:+ " AS " +:+ T +:+ ") AS "
                      +:+ Py.dq +:+ DataLoader.str_of_label col +:+ Py.dq)
       (DataLoader.columns (DataLoader.frame Samples.requests_sheet))
       (DataLoader.select_parts ∅ (DataLoader.frame Samples.requests_sheet)).
Proof.
  split; [reflexivity|].
  apply (proj2 (casts_name_engine_types Samples.upper None ∅
                  "travel_requests"
                  (DataLoader.frame Samples.requests_sheet) eq_refl)).
Defined.

(** ** The interactive chat ([src/main.py]) *)

Section ChatSession.

Import Py Memory Main.

Context {Row Time : Type}.

(** X21: how a chat session ends.  As long as no run is interrupted, the
    loop is left exactly when the user interrupts at the prompt or types
    [exit] or [quit] (in any case, with blanks around it); a blank line,
    the [history] command, a run that fails and the end of the input do
    not end the session. *)
Theorem chat_ends_on_request (run : nat -> string -> run_outcome Row)
    (threads : list (ChatThread Time)) (turn : nat) (events : list event) :
  (forall t q, run t q <> Interrupted) ->
  snd (chat_loop run threads turn events) = true
  <-> exists e,
        e ∈ events
        /\ (e = CtrlC \/ exists line, e = Typed line
                                      /\ is_exit (strip line) = true).
Proof.
  intros Hrun. revert turn.
  induction events as [|e events IH]; intros turn.
  - cbn. split; [discriminate | intros (e & H & _); inversion H].
  - assert (Hrest : forall turn',
              snd (chat_loop run threads turn' events) = true
              <-> exists e0,
                    e0 ∈ e :: events
                    /\ (e0 = CtrlC
                        \/ exists line, e0 = Typed line
                                        /\ is_exit (strip line) = true)
                    /\ e0 ∈ events).
    { intros turn'. rewrite IH. split.
      - intros (e0 & Hin & H0). exists e0. split; [now right | now split].
      - intros (e0 & _ & H0 & Hin). now exists e0. }
    assert (Hskip : forall turn',
              ~ (e = CtrlC \/ exists line, e = Typed line
                                           /\ is_exit (strip line) = true) ->
              snd (chat_loop run threads turn' events) = true
              <-> exists e0,
                    e0 ∈ e :: events
                    /\ (e0 = CtrlC
                        \/ exists line, e0 = Typed line
                                        /\ is_exit (strip line) = true)).
    { intros turn' Hno. rewrite Hrest. split.
      - intros (e0 & Hin & H0 & _). now exists e0.
      - intros (e0 & Hin & H0). exists e0. split; [exact Hin|].
        split; [exact H0|].
        apply elem_of_cons in Hin as [-> | Hin]; [contradiction | exact Hin]. }
    destruct e as [line| |]; cbn [chat_loop].
    + destruct (String.eqb (strip line) "") eqn:Eb.
      { apply Hskip. intros [H | (l & H & Hl)]; [discriminate|].
        injection H as <-. apply String.eqb_eq in Eb. rewrite Eb in Hl.
        discriminate Hl. }
      destruct (is_exit (strip line)) eqn:Ee.
      { cbn. split; [intros _ | reflexivity].
        exists (Typed line). split; [left | right; now exists line]. }
      assert (Hno : ~ (Typed line = CtrlC
                       \/ exists l, Typed line = Typed l
                                    /\ is_exit (strip l) = true)).
      { intros [H | (l & H & Hl)]; [discriminate|].
        injection H as <-. congruence. }
      destruct (String.eqb (lower (strip line)) "history").
      { destruct (chat_loop run threads turn events) as [out left] eqn:E.
        cbn [snd]. specialize (Hskip turn Hno). now rewrite E in Hskip. }
      destruct (run turn (strip line)) as [result|message|] eqn:Er.
      * destruct (chat_loop run threads (S turn) events) as [out left] eqn:E.
        cbn [snd]. specialize (Hskip (S turn) Hno). now rewrite E in Hskip.
      * destruct (chat_loop run threads (S turn) events) as [out left] eqn:E.
        cbn [snd]. specialize (Hskip (S turn) Hno). now rewrite E in Hskip.
      * now apply Hrun in Er.
    + cbn. split; [intros _ | reflexivity].
      exists CtrlC. split; [left | now left].
    + destruct (chat_loop run threads turn events) as [out left] eqn:E.
      cbn [snd].
      assert (Hno : ~ (CtrlD = CtrlC
                       \/ exists l, CtrlD = Typed l
                                    /\ is_exit (strip l) = true)).
      { intros [H | (l & H & _)]; discriminate. }
      specialize (Hskip turn Hno). now rewrite E in Hskip.
Qed.

Lemma only_end_of_input (run : nat -> string -> run_outcome Row)
    (threads : list (ChatThread Time)) (turn n : nat) :
  chat_loop run threads turn (repeat CtrlD n)
  = (repeat (ErrorLine "EOF when reading a line") n, false).
Proof.
  induction n as [|n IH]; [reflexivity|].
  cbn [repeat chat_loop]. now rewrite IH.
Qed.

(** X22: the end of the input.  When the input ends while the session is
    open, each further attempt to read is answered by one error line,
    after which the loop reads again: whatever was typed before, [n]
    attempts add [n] error lines to the output and the session is still
    open, so that a session fed from a file or a pipe never ends by
    itself. *)
Theorem end_of_input_loops (run : nat -> string -> run_outcome Row)
    (threads : list (ChatThread Time)) (turn : nat) (events : list event)
    (out : list (printed Time)) (n : nat) :
  chat_loop run threads turn events = (out, false) ->
  chat_loop run threads turn (events ++ repeat CtrlD n)%list
  = ((out ++ repeat (ErrorLine "EOF when reading a line") n)%list, false).
Proof.
  revert turn out. induction events as [|e events IH]; intros turn out H.
  - cbn in H. injection H as <-. apply only_end_of_input.
  - destruct e as [line| |]; cbn [chat_loop app] in *.
    + destruct (String.eqb (strip line) ""); [now apply IH|].
      destruct (is_exit (strip line)); [discriminate H|].
      destruct (String.eqb (lower (strip line)) "history").
      { destruct (chat_loop run threads turn events) as [o l] eqn:E.
        injection H as <- ->. rewrite (IH turn o E).
        cbn [app]. now rewrite app_assoc. }
      destruct (run turn (strip line)) as [result|message|];
        [| |discriminate H].
      * destruct (chat_loop run threads (S turn) events) as [o l] eqn:E.
        injection H as <- ->. now rewrite (IH (S turn) o E).
      * destruct (chat_loop run threads (S turn) events) as [o l] eqn:E.
        injection H as <- ->. now rewrite (IH (S turn) o E).
    + discriminate H.
    + destruct (chat_loop run threads turn events) as [o l] eqn:E.
      injection H as <- ->. now rewrite (IH turn o E).
Qed.
(** X23: what [history] shows.  The session registers its thread in a
    cache of its own, so every thread line that the chat prints names the
    thread of the session itself with the time of its registration: the
    command lists neither other threads nor any message. *)
Theorem history_lists_own_thread (now : Time) (uuid : string)
    (use_postgres_memory : bool) (user : string) (thread : option string)
    (run : nat -> string -> run_outcome Row) (events : list event)
    (t : string) (created : Time) :
  ThreadLine t created
  ∈ fst (run_interactive_chat now uuid use_postgres_memory user thread run
           events) ->
  t = (if truthy thread then str_of_opt thread else slice_to 8 uuid)
  /\ created = now.
Proof.
  unfold run_interactive_chat.
  set (thread_id := if truthy thread then str_of_opt thread
                    else slice_to 8 uuid).
  rewrite register_thread_cache. cbn [fst].
  unfold list_user_threads. rewrite lookup_empty.
  cbn [default from_option id map].
  rewrite decide_False by (intros H; inversion H).
  rewrite lookup_insert_eq. cbn [default from_option id app].
  generalize 0 at 1. intros turn.
  destruct (chat_loop run _ turn events) as [out left] eqn:E. cbn [fst].
  intros Hin. apply elem_of_cons in Hin as [Hin | Hin]; [discriminate|].
  revert turn out left E Hin.
  induction events as [|e events IH]; intros turn out left E Hin.
  - cbn in E. injection E as <- _. inversion Hin.
  - destruct e as [line| |]; cbn [chat_loop] in E.
    + destruct (String.eqb (strip line) ""); [now apply (IH turn out left)|].
      destruct (is_exit (strip line)).
      { injection E as <- _. apply list_elem_of_singleton in Hin.
        discriminate Hin. }
      destruct (String.eqb (lower (strip line)) "history").
      { destruct (chat_loop run _ turn events) as [out' left'] eqn:E'.
        injection E as <- _. cbn [map app] in Hin.
        apply elem_of_cons in Hin as [Hin | Hin]; [discriminate|].
        apply elem_of_cons in Hin as [Hin | Hin].
        - injection Hin as -> ->. now split.
        - now apply (IH turn out' left'). }
      destruct (run turn (strip line)) as [result|message|].
      * destruct (chat_loop run _ (S turn) events) as [out' left'] eqn:E'.
        injection E as <- _.
        apply elem_of_cons in Hin as [Hin | Hin]; [discriminate|].
        apply elem_of_cons in Hin as [Hin | Hin].
        -- unfold answer_line in Hin.
           destruct (truthy (Graph.answer result)); [discriminate Hin|].
           destruct (truthy (Graph.error result)); discriminate Hin.
        -- now apply (IH (S turn) out' left').
      * destruct (chat_loop run _ (S turn) events) as [out' left'] eqn:E'.
        injection E as <- _.
        apply elem_of_cons in Hin as [Hin | Hin]; [discriminate|].
        apply elem_of_cons in Hin as [Hin | Hin]; [discriminate|].
        now apply (IH (S turn) out' left').
      * injection E as <- _.
        apply elem_of_cons in Hin as [Hin | Hin]; [discriminate|].
        apply list_elem_of_singleton in Hin. discriminate Hin.
    + injection E as <- _. apply list_elem_of_singleton in Hin.
      discriminate Hin.
    + destruct (chat_loop run _ turn events) as [out' left'] eqn:E'.
      injection E as <- _.
      apply elem_of_cons in Hin as [Hin | Hin]; [discriminate|].
      now apply (IH turn out' left').
Qed.

End ChatSession.

Lemma chat_ends_on_request_witness :
  (forall (t : nat) (q : string),
      (fun _ _ => Main.Failed "no model") t q
      <> (Main.Interrupted : Main.run_outcome unit))
  /\ snd (Main.chat_loop (Row := unit) (Time := nat)
            (fun _ _ => Main.Failed "no model") []
            0 [Main.CtrlD; Main.Typed "How many requests?";
               Main.Typed "  QUIT "; Main.Typed "never read"])
     = true.
Proof.
  assert (Hrun : forall (t : nat) (q : string),
             (fun _ _ => Main.Failed "no model") t q
             <> (Main.Interrupted : Main.run_outcome unit))
    by (intros t q; discriminate).
  split; [exact Hrun|].
  apply (chat_ends_on_request (Row := unit) (Time := nat) _ [] 0 _ Hrun).
  exists (Main.Typed "  QUIT "). split; [set_solver|].
  right. exists "  QUIT ". split; reflexivity.
Defined.

Lemma end_of_input_loops_witness :
  Main.chat_loop (Row := unit) (Time := nat)
    (fun _ _ => Main.Failed "no model") [] 0
    ([Main.Typed "How many requests?"] ++ repeat Main.CtrlD 3)%list
  = ([Main.Processing; Main.ErrorLine "no model";
      Main.ErrorLine "EOF when reading a line";
      Main.ErrorLine "EOF when reading a line";
      Main.ErrorLine "EOF when reading a line"], false).
Proof.
  apply (end_of_input_loops (Row := unit) (Time := nat)
           (fun _ _ => Main.Failed "no model") [] 0
           [Main.Typed "How many requests?"]
           [Main.Processing; Main.ErrorLine "no model"] 3).
  reflexivity.
Defined.

Lemma history_lists_own_thread_witness :
  let out :=
    fst (Main.run_interactive_chat (Row := unit) 7 "1b9d6bcd-bbfd-4b2d"
           false "alice" None (fun _ _ => Main.Failed "no model")
           [Main.Typed "history"]) in
  Main.ThreadLine "1b9d6bcd" 7 ∈ out
  /\ "1b9d6bcd" = Py.slice_to 8 "1b9d6bcd-bbfd-4b2d".
Proof.
  cbn zeta.
  assert (Hin : Main.ThreadLine "1b9d6bcd" 7
                ∈ fst (Main.run_interactive_chat (Row := unit) 7
                         "1b9d6bcd-bbfd-4b2d" false "alice" None
                         (fun _ _ => Main.Failed "no model")
                         [Main.Typed "history"])).
  { vm_compute. set_solver. }
  split; [exact Hin|].
  exact (proj1 (history_lists_own_thread _ _ _ _ _ _ _ _ _ Hin)).
Defined.

(** ** The run that goes well ([src/graph.py]) *)

Section HappyPath.

Import Py Json Agents Graph.

Context {Row : Type} (env : Env Row).

#[local] Arguments generate_query : simpl never.
#[local] Arguments analyze_question : simpl never.
#[local] Arguments detect_complexity : simpl never.
#[local] Arguments synthesize_answer : simpl never.
#[local] Arguments truthy : simpl never.

(** X24: the run of a simple question when nothing fails.  If the first
    generated query is not empty and the validation does not reject it
    (it accepts it, or it raises, which counts as accepting), the run is
    [supervisor], [expansion], one round, [execute], [synthesize]: the
    query is run once, unchanged, the rows it returns are stored, and the
    answer is what the supervisor model makes of those rows; no retry is
    counted and no error is recorded. *)
Theorem first_query_accepted (schema_manager : SchemaManager.Registry)
    (question reply query text : string) (items : list (string * json))
    (rows : list Row) (fuel : nat) :
  let schema := SchemaManager.describe schema_manager in
  analyze_question (supervisor_agent env 0) question schema
  = Returned reply ->
  contains "NEED_QUERY" (upper env reply) = true ->
  detect_complexity (loads env) (supervisor_agent env 1) question schema
  = JObj items ->
  get_bool items "is_complex" false = Some false ->
  generate_query (coder_agent env 2) question schema None None
  = Returned query ->
  query <> "" ->
  match validate_schema env 3 (Some query) with
  | Returned verification => valid verification <> Some false
  | Raised _ => True
  end ->
  db_query env 4 query = Returned rows ->
  synthesize_answer (repr env) (supervisor_agent env 5) question
    (Some query) (Some rows) schema = Returned text ->
  6 <= fuel ->
  exists (log : list (node * GraphState Row)) (final : GraphState Row),
    run env fuel schema_manager question = (log, Finished final)
    /\ visited log
       = [supervisor; expansion; coding; verify; execute; synthesize]
    /\ Graph.query final = Some query
    /\ query_is_valid final = Some true
    /\ results final = Some rows
    /\ answer final = Some text
    /\ error final = None
    /\ retries final = 0
    /\ messages final
       = HumanMessage question
         :: (if truthy (Some text) then [AIMessage text] else []).
Proof.
  intros schema Ha Hq Hd Hb Hgen Hne Hval Hdb Hsyn Hfuel.
  set (init := initial_state (Row := Row) question schema).
  set (s0 := set_retries 0 (set_needs_query (Some true) init)).
  assert (Hsup : run_node env supervisor 0 init = Ok s0).
  { cbn [run_node]. now rewrite (supervisor_needs_query env 0 init reply). }
  set (s1 := set_original_question (Some question)
               (set_is_complex (Some false) s0)).
  assert (Hexp : run_node env expansion 1 s0 = Ok s1).
  { cbn [run_node]. now rewrite (expansion_simple env 1 s0 items). }
  set (c := set_query (Some query) s1).
  assert (Hc : run_node env coding 2 s1 = Ok c).
  { cbn [run_node]. unfold _coding_node.
    change (query_feedback s1) with (@None string).
    change (truthy None) with false. cbn iota.
    change (Graph.question s1) with question.
    change (schema_info s1) with schema. now rewrite Hgen. }
  assert (Hv : exists feedback,
             run_node env verify 3 c
             = Ok (set_query_feedback feedback
                     (set_query_is_valid (Some true) c))).
  { cbn [run_node]. unfold _verify_node.
    change (error c) with (@None string). change (truthy None) with false.
    cbn iota. change (Graph.query c) with (Some query).
    destruct (validate_schema env 3 (Some query)) as [[[[|]|] fb]|e].
    - eexists. reflexivity.
    - now cbn in Hval.
    - eexists. reflexivity.
    - eexists. reflexivity. }
  destruct Hv as [feedback Hv].
  set (v := set_query_feedback feedback (set_query_is_valid (Some true) c))
    in *.
  assert (Htq : truthy (Some query) = true).
  { destruct query; [congruence | reflexivity]. }
  set (x := set_results (Some rows) v).
  assert (Hx : run_node env execute 4 v = Ok x).
  { cbn [run_node]. unfold _execute_node.
    change (error v) with (@None string). change (truthy None) with false.
    cbn iota. change (Graph.query v) with (Some query). rewrite Htq.
    cbn [negb str_of_opt]. now rewrite Hdb. }
  set (y := set_answer (Some text) x).
  assert (Hy : run_node env synthesize 5 x = Ok y).
  { cbn [run_node]. unfold _synthesize_node.
    change (error x) with (@None string). change (truthy None) with false.
    cbn iota. change (Graph.question x) with question.
    change (Graph.query x) with (Some query).
    change (results x) with (Some rows).
    change (schema_info x) with schema. now rewrite Hsyn. }
  exists [(supervisor, s0); (expansion, s1); (coding, c); (verify, v);
          (execute, x); (synthesize, y)].
  exists (if truthy (Some text) then
            set_messages (messages y ++ [AIMessage text])%list y
          else y).
  split.
  { unfold run. fold schema. fold init.
    replace fuel with (S (S (S (S (S (S (fuel - 6))))))) by lia.
    rewrite (invoke_step env _ supervisor expansion 0 init s0 Hsup eq_refl).
    rewrite (invoke_step env _ expansion coding 1 s0 s1 Hexp eq_refl).
    rewrite (invoke_step env _ coding verify 2 s1 c Hc eq_refl).
    rewrite (invoke_step env _ verify execute 3 c v Hv eq_refl).
    rewrite (invoke_step env _ execute synthesize 4 v x Hx eq_refl).
    rewrite (invoke_last env _ synthesize 5 x y Hy eq_refl).
    reflexivity. }
  split; [reflexivity|].
  destruct (truthy (Some text)); repeat split.
Qed.

End HappyPath.

Lemma first_query_accepted_witness :
  exists log final,
    Graph.run Samples.env_simple 25 Samples.travel "How many requests?"
    = (log, Graph.Finished final)
    /\ Graph.query final = Some "SELECT count(*) AS n FROM requests"
    /\ Graph.results final = Some ["{'n': 19}"]
    /\ Graph.answer final = Some "There are 19 requests.".
Proof.
  destruct (first_query_accepted Samples.env_simple Samples.travel
              "How many requests?" "NEED_QUERY"
              "SELECT count(*) AS n FROM requests" "There are 19 requests."
              [("is_complex", Json.JBool false);
               ("sub_questions", Json.JArr []);
               ("reasoning", Json.JStr "one metric");
               ("original_question", Json.JStr "How many requests?")]
              ["{'n': 19}"] 25)
    as (log & final & Hrun & _ & Hquery & _ & Hrows & Hans & _).
  - vm_compute. reflexivity.
  - vm_compute. reflexivity.
  - vm_compute. reflexivity.
  - reflexivity.
  - vm_compute. reflexivity.
  - discriminate.
  - cbn. discriminate.
  - reflexivity.
  - reflexivity.
  - lia.
  - exists log, final. repeat split; assumption.
Defined.

(** ** Loading replaces ([src/schema_manager.py]) *)

Section LoadReplaces.

Import Py Json SchemaManager.

Lemma decode_strs_inv (elems : list json) (names : list string) :
  mapM decode_str elems = Some names -> elems = map JStr names.
Proof.
  intros H. apply mapM_Some_1 in H.
  induction H as [|v n elems names Hv _ IH]; [reflexivity|].
  destruct v; try discriminate Hv. injection Hv as ->. cbn [map].
  now rewrite IH.
Qed.

Lemma set_elements_raises (v : json) (e : exn) :
  set_elements v = Raised e -> exn_cls e = TypeError.
Proof.
  unfold set_elements.
  destruct v as [| | | |l|]; try discriminate;
    try (now intros H; injection H as <-).
  destruct (find _ l); [now intros H; injection H as <- | discriminate].
Qed.

(** X25: a [load_from_file] that returns [True] replaces the registry.
    What the registry holds afterwards is read from the file alone,
    whatever was registered before: the table mapping is the file's
    [tables] (none when the key is absent) and the shared columns are the
    members of the file's [shared_columns] (none when the key is absent),
    where [update] would have merged.  This covers every document for
    which the call returns [True], also one whose entries are not of the
    declared types, which the code stores as they are. *)
Theorem load_replaces_registry (loads : string -> outcome json)
    (fs : gmap string string) (self other : Registry) (path : string) :
  returned (load_from_file loads fs self path) = Returned true ->
  load_from_file loads fs other path = load_from_file loads fs self path
  /\ exists text items elems,
       fs !! path = Some text
       /\ loads text = Returned (JObj items)
       /\ set_elements (default (JArr []) (dict_get items "shared_columns"))
          = Returned elems
       /\ match load_from_file loads fs self path with
          | Done loaded _ =>
              decode_tables (default (JObj []) (dict_get items "tables"))
              = Some (_schemas loaded)
              /\ exists names,
                   elems = map JStr names
                   /\ _shared_columns loaded = list_to_set names
          | OutOfType tables shared _ =>
              tables = default (JObj []) (dict_get items "tables")
              /\ shared = match mapM decode_str elems with
                          | Some names => Names (list_to_set names)
                          | None => SetOf elems
                          end
          end.
Proof.
  unfold load_from_file.
  destruct (fs !! path) as [text|] eqn:Ef; [|discriminate].
  destruct (loads text) as [data|e] eqn:El.
  - destruct data as [| | | | |items]; try discriminate.
    destruct (set_elements _) as [elems|e] eqn:Ee.
    + intros _. split; [reflexivity|].
      exists text, items, elems.
      split; [reflexivity|]. split; [exact El|]. split; [exact Ee|].
      unfold stored.
      destruct (decode_tables (default (JObj []) (dict_get items "tables")))
        as [schemas|] eqn:Et.
      * destruct (mapM decode_str elems) as [names|] eqn:Em.
        -- split; [reflexivity|]. exists names.
           split; [now apply decode_strs_inv | reflexivity].
        -- now split.
      * now split.
    + unfold load_caught. rewrite (set_elements_raises _ _ Ee).
      unfold stored. destruct (decode_tables _); discriminate.
  - destruct (load_caught e); discriminate.
Qed.

(** X26: a [load_from_file] that is cut half way.  When the file's
    [shared_columns] cannot be made a set (it is [null], a number or a
    boolean, or a list holding a list or an object), [TypeError] escapes
    the call, which catches [JSONDecodeError] and [KeyError] only; the
    table mapping has been replaced by the file's by then, while the
    shared columns are still those of the registry before the call. *)
Theorem load_type_error (loads : string -> outcome json)
    (fs : gmap string string) (self : Registry) (path text : string)
    (items : list (string * json)) (e : exn) :
  fs !! path = Some text ->
  loads text = Returned (JObj items) ->
  set_elements (default (JArr []) (dict_get items "shared_columns"))
  = Raised e ->
  exn_cls e = TypeError
  /\ returned (load_from_file loads fs self path) = Raised e
  /\ shared_after (load_from_file loads fs self path)
     = Names (_shared_columns self)
  /\ match load_from_file loads fs self path with
     | Done loaded _ =>
         decode_tables (default (JObj []) (dict_get items "tables"))
         = Some (_schemas loaded)
     | OutOfType tables _ _ =>
         tables = default (JObj []) (dict_get items "tables")
     end.
Proof.
  intros Ef El Ee. pose proof (set_elements_raises _ _ Ee) as Hcls.
  split; [exact Hcls|].
  unfold load_from_file. rewrite Ef, El, Ee. unfold load_caught.
  rewrite Hcls. unfold stored.
  now destruct (decode_tables _).
Qed.

End LoadReplaces.

Lemma load_replaces_registry_witness :
  let fs : gmap string string :=
    {["schema.json" := "{" +:+ Samples.quoted "shared_columns" +:+ ": "
                       +:+ Samples.quoted "ab" +:+ "}"]} in
  SchemaManager.load_from_file Samples.loads fs Samples.travel "schema.json"
  = SchemaManager.Done
      {| SchemaManager._schemas := ∅;
         SchemaManager._shared_columns := list_to_set ["a"; "b"] |}
      (Py.Returned true)
  /\ SchemaManager.load_from_file Samples.loads fs SchemaManager.init
       "schema.json"
     = SchemaManager.load_from_file Samples.loads fs Samples.travel
         "schema.json".
Proof.
  cbn zeta. split; [vm_compute; reflexivity|].
  apply (load_replaces_registry Samples.loads _ Samples.travel
           SchemaManager.init "schema.json").
  vm_compute. reflexivity.
Defined.

(** A file whose [tables] is the number 5: the call returns [True] and
    the registry holds 5 where its table mapping should be. *)
Example load_tables_number :
  SchemaManager.load_from_file Samples.loads
    {["schema.json" := "{" +:+ Samples.quoted "tables" +:+ ": 5}"]}
    Samples.travel "schema.json"
  = SchemaManager.OutOfType (Json.JNum "5") (SchemaManager.Names ∅)
      (Py.Returned true).
Proof. vm_compute. reflexivity. Qed.

Lemma load_type_error_witness :
  let fs : gmap string string :=
    {["schema.json" := "{" +:+ Samples.quoted "shared_columns" +:+ ": null}"]}
  in
  SchemaManager.load_from_file Samples.loads fs Samples.travel "schema.json"
  = SchemaManager.Done
      {| SchemaManager._schemas := ∅;
         SchemaManager._shared_columns :=
           SchemaManager._shared_columns Samples.travel |}
      (Py.Raised (Py.Exn Py.TypeError "'NoneType' object is not iterable"))
  /\ SchemaManager.shared_after
       (SchemaManager.load_from_file Samples.loads fs Samples.travel
          "schema.json")
     = SchemaManager.Names (SchemaManager._shared_columns Samples.travel).
Proof.
  cbn zeta. split; [vm_compute; reflexivity|].
  apply (load_type_error Samples.loads _ Samples.travel "schema.json"
           ("{" +:+ Samples.quoted "shared_columns" +:+ ": null}")
           [("shared_columns", Json.JNull)]
           (Py.Exn Py.TypeError "'NoneType' object is not iterable"));
    vm_compute; reflexivity.
Defined.
